(** * vemu: the VEXos downloader (utils/vexos_dl.py)

    A shallow embedding of the version handling and of the install sequence
    of [utils/vexos_dl.py], with the properties its specification states.

    Python values are modelled as follows.
    - [str] is [string]; characters are compared by code, as Python does.
    - An exception is a constructor of [exn]; a call either returns a value
      or raises: [result].
    - Code that touches the disk, the network or the console threads a
      [world] and may raise: [M].  The world reached when an exception is
      raised is kept, so that what a failed run left behind can be read. *)

From Stdlib Require Import String Ascii List Bool Arith Lia.
From Stdlib Require Import DecimalString DecimalNat.
Import ListNotations.
Open Scope string_scope.
Set Warnings "-register-all".

(** ** Exceptions and results *)

(** The exception classes that can reach the code.  [OSError] stands for
    [OSError] itself (of which [IOError] is an alias) and its subclasses
    raised by [os], [open] and [shutil] ([FileNotFoundError],
    [PermissionError], [NotADirectoryError], [shutil.Error],
    [shutil.ReadError]).  The two [Requests*] classes derive from
    [IOError] too ([requests.exceptions.RequestException]). *)
Inductive exn : Type :=
| OSError
| RequestsConnectionError
| RequestsOtherError
| TypeError
| IndexError
| KeyError
| AttributeError
| JSONDecodeError
| UnicodeDecodeError
| BadZipFile.

Definition exn_eqb (a b : exn) : bool :=
  match a, b with
  | OSError, OSError | RequestsConnectionError, RequestsConnectionError
  | RequestsOtherError, RequestsOtherError | TypeError, TypeError
  | IndexError, IndexError | KeyError, KeyError
  | AttributeError, AttributeError | JSONDecodeError, JSONDecodeError
  | UnicodeDecodeError, UnicodeDecodeError | BadZipFile, BadZipFile => true
  | _, _ => false
  end.

(** [except IOError]: the classes an [IOError] handler catches. *)
Definition IOError (e : exn) : bool :=
  match e with
  | OSError | RequestsConnectionError | RequestsOtherError => true
  | _ => false
  end.

Inductive result (A : Type) : Type :=
| Ret (a : A)
| Raise (e : exn).
Arguments Ret {A} a.
Arguments Raise {A} e.

Definition rbind {A B : Type} (r : result A) (k : A -> result B) : result B :=
  match r with
  | Ret a => k a
  | Raise e => Raise e
  end.

Notation "'let*' x ':=' r 'in' k" := (rbind r (fun x => k))
  (at level 10, x name, r at level 100, k at level 200).

(** [raise "..."]: the operand is a [str], not an exception, so the
    statement itself raises [TypeError] ("exceptions must derive from
    BaseException") and the message is lost. *)
Definition raise_str {A : Type} (msg : string) : result A := Raise TypeError.

(** ** Strings and lists as Python has them *)

(** [s.split(sep)] for a separator of one character: one field more than
    there are separators, empty fields kept. *)
Fixpoint split (sep : ascii) (s : string) : list string :=
  match s with
  | EmptyString => [EmptyString]
  | String c s' =>
      if Ascii.eqb c sep then EmptyString :: split sep s'
      else match split sep s' with
           | f :: fs => String c f :: fs
           | [] => [String c EmptyString]
           end
  end.

(** [a < b] and [a > b] on [str]: lexicographic, by character code. *)
Definition str_lt (a b : string) : bool := String.ltb a b.
Definition str_gt (a b : string) : bool := String.ltb b a.

(** [s.startswith(p)]. *)
Definition startswith (s p : string) : bool := String.prefix p s.

(** [l[i]] for a non-negative literal index. *)
Definition index {A : Type} (l : list A) (i : nat) : result A :=
  match nth_error l i with
  | Some x => Ret x
  | None => Raise IndexError
  end.

(** ** Versioning functions *)

(** [vexos_to_semver], lines 82-98. *)
Definition vexos_to_semver (version : string) : result string :=
  let version_split := split "_" version in
  if negb (Nat.eqb (List.length version_split) 6) then
    raise_str "ERROR: Failed to parse VEXos version. Please try again later."
  else
  let* f0 := index version_split 0 in
  if negb (String.eqb f0 "VEXOS") then
    raise_str "ERROR: Failed to parse VEXos version. Please try again later."
  else
  let* f1 := index version_split 1 in
  if negb (String.eqb f1 "V5") then
    raise_str "ERROR: Failed to parse VEXos version. Please try again later."
  else
  let* f2 := index version_split 2 in
  let* f3 := index version_split 3 in
  let* f4 := index version_split 4 in
  let* f5 := index version_split 5 in
  Ret (f2 ++ "." ++ f3 ++ "." ++ f4 ++ "." ++ f5).

(** One [if a[i] > b[i]: return False / elif a[i] < b[i]: return True]
    block of [is_outdated]; [next] is the code after the block.  Both
    tests index both lists, left operand first. *)
Definition compare_at (current_semver latest_semver : list string) (i : nat)
    (next : result bool) : result bool :=
  let* c := index current_semver i in
  let* l := index latest_semver i in
  if str_gt c l then Ret false
  else
    let* c' := index current_semver i in
    let* l' := index latest_semver i in
    if str_lt c' l' then Ret true else next.

(** [is_outdated], lines 100-136. *)
Definition is_outdated (current latest : string) : result bool :=
  let current_semver := split "." current in
  let* semver := vexos_to_semver latest in
  let latest_semver := split "." semver in
  compare_at current_semver latest_semver 0
    (compare_at current_semver latest_semver 1
       (compare_at current_semver latest_semver 2
          (compare_at current_semver latest_semver 3
             (Ret false)))).

(** ** Structured versions, as the specification describes them *)

(** The specification's StructuredVersion: four non-negative integers. *)
Record StructuredVersion : Type := mkVersion {
  major : nat;
  minor : nat;
  patch : nat;
  build : nat
}.

(** The decimal numeral of a component. *)
Definition numeral (n : nat) : string :=
  NilZero.string_of_uint (Nat.to_uint n).

(** The specification's [render]: the dotted string a manifest holds. *)
Definition render (v : StructuredVersion) : string :=
  numeral (major v) ++ "." ++ numeral (minor v) ++ "."
    ++ numeral (patch v) ++ "." ++ numeral (build v).

(** The raw catalog token that encodes a structured version. *)
Definition token_of (v : StructuredVersion) : string :=
  "VEXOS_V5_" ++ numeral (major v) ++ "_" ++ numeral (minor v) ++ "_"
    ++ numeral (patch v) ++ "_" ++ numeral (build v).

(** The specification's [compare]: the first differing component decides,
    each component compared as an integer. *)
Definition spec_compare (a b : StructuredVersion) : comparison :=
  match Nat.compare (major a) (major b) with
  | Eq =>
      match Nat.compare (minor a) (minor b) with
      | Eq =>
          match Nat.compare (patch a) (patch b) with
          | Eq => Nat.compare (build a) (build b)
          | c => c
          end
      | c => c
      end
  | c => c
  end.

(** The specification's [isOutdated]: [installed] is OLDER than
    [candidate]. *)
Definition spec_isOutdated (installed candidate : StructuredVersion) : bool :=
  match spec_compare installed candidate with
  | Lt => true
  | _ => false
  end.

(** ** The world the installer runs in *)

(** A JSON value, as [json.loads] returns it ([JNull] is Python's [None];
    a [dict] is kept as its list of items). *)
Inductive json : Type :=
| JNull
| JBool (b : bool)
| JNum (n : nat)
| JStr (s : string)
| JList (l : list json)
| JDict (items : list (string * json)).

(** The text of a file, known by what [json.loads] makes of it. *)
Inductive text : Type :=
| NotJson
| JsonText (j : json).

(** Files and directories.  A file carries its read and write permission
    and its content.  A directory carries its write permission (whether
    entries may be added to it, removed from it or renamed out of it) and
    lists its entries in [os.listdir] order, which is taken to be the order
    in which [shutil.rmtree] goes through them as well; every directory
    can be listed and searched.  There are no links: a path names one node
    and a node has one path.
    The content of a file is known by what the program can do with it: read
    it as text, or unpack it as a zip archive.  [Text t] is text and no
    archive; [Binary] is bytes that are neither.  [Zip es] is an archive
    whose members unpack to the entries [es] of the destination directory
    (the directory is made when missing, also when [es] is empty; the
    permissions written in [es] play no part, what is unpacked is created
    with those of a new file or directory); [EmptyZip] is the archive
    without any member, so unpacking it touches nothing; [CorruptZip] has a
    zip signature but an unreadable directory. *)
Inductive node : Type :=
| File (readable writable : bool) (c : content)
| Dir (writable : bool) (es : list (string * node))
with content : Type :=
| Text (t : text)
| Binary
| CorruptZip
| EmptyZip
| Zip (es : list (string * node)).

Definition entries : Type := list (string * node).

(** What [requests.get] returns: [.text] and [.content]. *)
Record response : Type := mkResponse {
  r_text : string;
  r_content : content
}.

(** What a run leaves behind, in order: the lines printed and the calls
    that reach the network or change the disk. *)
Inductive event : Type :=
| EPrint (line : string)
| EGet (url : string)
| ERemove (path : string)
| ERmtree (path : string)
| EWrite (path : string)
| EUnpack (filename extract_dir : string)
| EMove (src dst : string).

(** The working directory (its entries, and whether entries may be added
    to or removed from it), the remote server, and the trace of the run so
    far. *)
Record world : Type := mkWorld {
  cwd_writable : bool;
  cwd : entries;
  remote : string -> result response;
  trace : list event
}.

(** Code with effects: from a world to a result and the world reached. *)
Definition M (A : Type) : Type := world -> result A * world.

Definition ret {A : Type} (a : A) : M A := fun w => (Ret a, w).

Definition raise {A : Type} (e : exn) : M A := fun w => (Raise e, w).

Definition bind {A B : Type} (m : M A) (k : A -> M B) : M B :=
  fun w =>
    match m w with
    | (Ret a, w') => k a w'
    | (Raise e, w') => (Raise e, w')
    end.

Notation "x <- m ;; k" := (bind m (fun x => k))
  (at level 61, m at next level, right associativity).
Notation "m ;; k" := (bind m (fun _ => k))
  (at level 61, right associativity).

(** A pure call inside effectful code. *)
Definition lift {A : Type} (r : result A) : M A := fun w => (r, w).

(** [try: body / except cls: handler]. *)
Definition try_except {A : Type} (body : M A) (cls : exn -> bool)
    (handler : M A) : M A :=
  fun w =>
    match body w with
    | (Ret a, w') => (Ret a, w')
    | (Raise e, w') => if cls e then handler w' else (Raise e, w')
    end.

(** [for x in l: body]. *)
Fixpoint for_each {A : Type} (l : list A) (body : A -> M unit) : M unit :=
  match l with
  | [] => ret tt
  | x :: l' => body x ;; for_each l' body
  end.

(** The world with more events on its trace. *)
Definition logged (w : world) (evs : list event) : world :=
  mkWorld (cwd_writable w) (cwd w) (remote w) (trace w ++ evs).

Definition log (e : event) : M unit := fun w => (Ret tt, logged w [e]).

Definition print (line : string) : M unit := log (EPrint line).

(** ** The file system *)

Fixpoint assoc {A : Type} (k : string) (l : list (string * A)) : option A :=
  match l with
  | [] => None
  | (k', a) :: l' => if String.eqb k k' then Some a else assoc k l'
  end.

Fixpoint remove_entry (name : string) (es : entries) : entries :=
  match es with
  | [] => []
  | (k, n) :: es' =>
      if String.eqb name k then remove_entry name es'
      else (k, n) :: remove_entry name es'
  end.

(** Replace the entry in place, or add it after the others. *)
Fixpoint put_entry (name : string) (n : node) (es : entries) : entries :=
  match es with
  | [] => [(name, n)]
  | (k, n') :: es' =>
      if String.eqb name k then (k, n) :: es'
      else (k, n') :: put_entry name n es'
  end.

Definition set_entry (name : string) (e : option node) (es : entries) : entries :=
  match e with
  | Some n => put_entry name n es
  | None => remove_entry name es
  end.

(** A relative path as its components. *)
Definition components (path : string) : list string := split "/" path.

(** [os.path.join(a, b)] for a relative [b]. *)
Definition os_path_join (a b : string) : string := a ++ "/" ++ b.

Fixpoint lookup (p : list string) (es : entries) : option node :=
  match p with
  | [] => None
  | name :: p' =>
      match assoc name es with
      | None => None
      | Some n =>
          match p', n with
          | [], _ => Some n
          | _ :: _, Dir _ es' => lookup p' es'
          | _ :: _, File _ _ _ => None
          end
      end
  end.

(** Run [k] on the entry a path names, with whether its parent directory
    is writable; [k] answers the new entry ([None]: no entry) and a result.
    A path through a missing directory or a file fails with [OSError]. *)
Fixpoint at_path {A : Type} (p : list string) (parent_writable : bool)
    (es : entries) (k : bool -> option node -> option node * result A)
    : entries * result A :=
  match p with
  | [] => (es, Raise OSError)
  | name :: p' =>
      match p' with
      | [] =>
          let (e', r) := k parent_writable (assoc name es) in
          (set_entry name e' es, r)
      | _ :: _ =>
          match assoc name es with
          | Some (Dir dw es') =>
              let (es'', r) := at_path p' dw es' k in
              (put_entry name (Dir dw es'') es, r)
          | _ => (es, Raise OSError)
          end
      end
  end.

(** An effectful change of the entry a path names. *)
Definition change {A : Type} (path : string)
    (k : bool -> option node -> option node * result A) : M A :=
  fun w =>
    let (es, r) := at_path (components path) (cwd_writable w) (cwd w) k in
    (r, mkWorld (cwd_writable w) es (remote w) (trace w)).

(** [os.remove(path)]: the path must name a file, in a writable
    directory. *)
Definition remove_file (w : bool) (e : option node) : option node * result unit :=
  match e with
  | Some (File _ _ _) => if w then (None, Ret tt) else (e, Raise OSError)
  | _ => (e, Raise OSError)
  end.

Definition os_remove (path : string) : M unit :=
  log (ERemove path) ;; change path remove_file.

(** What [shutil.rmtree] leaves of a node that lies in a directory with
    write permission [pw]; [None]: the node is gone.  The entries of a
    directory go first, one after the other, each from the directory that
    holds it, and the removal stops at the first entry that stays: a file
    goes when the directory that holds it is writable, a directory when it
    could be emptied and the directory that holds it is writable. *)
Fixpoint remove_node (pw : bool) (n : node) : option node :=
  match n with
  | File _ _ _ => if pw then None else Some n
  | Dir dw es =>
      let clear :=
        fix clear (es : list (string * node)) : list (string * node) :=
          match es with
          | [] => []
          | (name, n') :: es' =>
              match remove_node dw n' with
              | None => clear es'
              | Some n'' => (name, n'') :: es'
              end
          end in
      match clear es with
      | [] => if pw then None else Some (Dir dw [])
      | rest => Some (Dir dw rest)
      end
  end.

(** The entries of a directory under [shutil.rmtree]: what stays of
    them. *)
Fixpoint clear_entries (dw : bool) (es : list (string * node))
    : list (string * node) :=
  match es with
  | [] => []
  | (name, n) :: es' =>
      match remove_node dw n with
      | None => clear_entries dw es'
      | Some n' => (name, n') :: es'
      end
  end.

(** [shutil.rmtree(path)]: the path must name a directory.  When
    something of the tree stays, the call raises and the rest of the tree is
    left where it was. *)
Definition remove_tree (w : bool) (e : option node) : option node * result unit :=
  match e with
  | Some (Dir dw es) =>
      match remove_node w (Dir dw es) with
      | None => (None, Ret tt)
      | Some rest => (Some rest, Raise OSError)
      end
  | _ => (e, Raise OSError)
  end.

Definition shutil_rmtree (path : string) : M unit :=
  log (ERmtree path) ;; change path remove_tree.

(** [os.listdir(path)]. *)
Definition os_listdir (path : string) : M (list string) :=
  fun w =>
    match lookup (components path) (cwd w) with
    | Some (Dir _ es) => (Ret (map fst es), w)
    | _ => (Raise OSError, w)
    end.

(** [with open(path, "rb") as f: ...], the body not reading. *)
Definition open_rb (path : string) : M unit :=
  fun w =>
    match lookup (components path) (cwd w) with
    | Some (File true _ _) => (Ret tt, w)
    | _ => (Raise OSError, w)
    end.

(** The bytes of a file read as text.  The archive without any member is
    a short run of bytes that decode, to a text that is no JSON; the bytes
    of [Binary] do not decode, and those of the other archives (checksums
    and compressed data) are taken not to. *)
Definition decode (c : content) : option text :=
  match c with
  | Text t => Some t
  | EmptyZip => Some NotJson
  | Binary | CorruptZip | Zip _ => None
  end.

(** [with open(path, "r") as f: f.read()]. *)
Definition read_text (path : string) : M text :=
  fun w =>
    match lookup (components path) (cwd w) with
    | Some (File true _ c) =>
        match decode c with
        | Some t => (Ret t, w)
        | None => (Raise UnicodeDecodeError, w)
        end
    | _ => (Raise OSError, w)
    end.

(** [with open(path, "wb") as f: f.write(c)]: a new file takes a writable
    directory, an old one must be writable itself, and where [open] is
    refused nothing is changed.  Once the file is open the write is taken
    to go through: a write that fails half-way (a full disk) and leaves the
    file cut short is outside the model. *)
Definition write_file (c : content) (w : bool) (e : option node)
    : option node * result unit :=
  match e with
  | None => if w then (Some (File true true c), Ret tt) else (e, Raise OSError)
  | Some (File r wr _) =>
      if wr then (Some (File r wr c), Ret tt) else (e, Raise OSError)
  | Some (Dir _ _) => (e, Raise OSError)
  end.

Definition write_bytes (path : string) (c : content) : M unit :=
  log (EWrite path) ;; change path (write_file c).

(** Unpack one member, in a directory with write permission [pw], on top
    of what the directory has under the member's name: a new file or
    directory takes a writable directory and is created writable, a file
    replaces the content of a writable file, a directory is merged into a
    directory, entry by entry, stopping at the first failure. *)
Fixpoint unpack_node (pw : bool) (z : node) (old : option node)
    : option node * bool :=
  match z with
  | File _ _ c =>
      match old with
      | None => if pw then (Some (File true true c), true) else (None, false)
      | Some (File r w _) => if w then (Some (File r w c), true) else (old, false)
      | Some (Dir _ _) => (old, false)
      end
  | Dir _ zs =>
      let unpack_into :=
        fix unpack_into (dw : bool) (zs : list (string * node)) (es : entries)
            : entries * bool :=
          match zs with
          | [] => (es, true)
          | (name, z') :: zs' =>
              let (e', ok) := unpack_node dw z' (assoc name es) in
              if ok then unpack_into dw zs' (set_entry name e' es)
              else (set_entry name e' es, false)
          end in
      match old with
      | Some (File _ _ _) => (old, false)
      | Some (Dir dw es) =>
          let (es', ok) := unpack_into dw zs es in (Some (Dir dw es'), ok)
      | None =>
          if pw then
            let (es', ok) := unpack_into true zs [] in (Some (Dir true es'), ok)
          else (None, false)
      end
  end.

(** [shutil.unpack_archive(filename, extract_dir, "zip")] at the
    destination: the members are unpacked as the entries of [extract_dir],
    which is made when missing. *)
Definition unpack_to (zs : entries) (w : bool) (e : option node)
    : option node * result unit :=
  let (e', ok) := unpack_node w (Dir true zs) e in
  (e', if ok then Ret tt else Raise OSError).

(** [shutil.unpack_archive(filename, extract_dir, "zip")].  A file that
    cannot be read or is no zip archive gives [shutil.ReadError], before
    anything is touched. *)
Definition shutil_unpack_archive (filename extract_dir : string) : M unit :=
  log (EUnpack filename extract_dir) ;;
  fun w =>
    match lookup (components filename) (cwd w) with
    | Some (File true _ (Zip zs)) => change extract_dir (unpack_to zs) w
    | Some (File true _ EmptyZip) => (Ret tt, w)
    | Some (File true _ CorruptZip) => (Raise BadZipFile, w)
    | _ => (Raise OSError, w)
    end.

(** Whether entries may be added to or removed from the directory that
    holds the path. *)
Definition parent_writable (p : list string) (w : world) : bool :=
  match p with
  | [_] => cwd_writable w
  | _ =>
      match lookup (removelast p) (cwd w) with
      | Some (Dir dw _) => dw
      | _ => false
      end
  end.

(** Whether a node may be renamed into another directory: a directory
    must be writable itself. *)
Definition movable (n : node) : bool :=
  match n with
  | File _ _ _ => true
  | Dir dw _ => dw
  end.

(** [shutil.move(src, dst)] for a [dst] that names a directory, as
    "vexos" is when the program moves into it: the source goes under its
    own name into [dst], by [os.rename], which takes a writable directory
    on both sides and, for a directory that is moved, write permission on
    it; a name already taken there gives [shutil.Error].  When the rename
    is refused, [shutil.move] falls back on copying the source and deleting
    it, which may leave a copy behind or get an empty directory across:
    this is not modelled, nor is the renaming onto a [dst] that is no
    directory.  The call is then taken to raise with the disk as it was;
    the theorems on the disk after a move are about renames that are
    granted. *)
Definition shutil_move (src dst : string) : M unit :=
  log (EMove src dst) ;;
  fun w =>
    let psrc := components src in
    let pdst := components dst in
    match lookup pdst (cwd w), lookup psrc (cwd w) with
    | Some (Dir ddw des), Some n =>
        let name := last psrc "" in
        match assoc name des with
        | Some _ => (Raise OSError, w)
        | None =>
            if parent_writable psrc w && ddw && movable n then
              (change src (fun _ _ => (None, Ret tt)) ;;
               change (os_path_join dst name) (fun _ _ => (Some n, Ret tt))) w
            else (Raise OSError, w)
        end
    | _, _ => (Raise OSError, w)
    end.

(** [requests.get(url)]. *)
Definition requests_get (url : string) : M response :=
  log (EGet url) ;; fun w => (remote w url, w).

(** [json.loads(s)]. *)
Definition json_loads (t : text) : result json :=
  match t with
  | NotJson => Raise JSONDecodeError
  | JsonText j => Ret j
  end.

(** [v[key]] for a [str] key: only a [dict] can be subscripted by one. *)
Definition getitem (v : json) (key : string) : result json :=
  match v with
  | JDict items =>
      match assoc key items with
      | Some x => Ret x
      | None => Raise KeyError
      end
  | _ => Raise TypeError
  end.

(** ["..." + v]: only a [str] can be added to a [str]. *)
Definition str_add (s : string) (v : json) : result string :=
  match v with
  | JStr t => Ret (s ++ t)
  | _ => Raise TypeError
  end.

(** ** The downloader *)

Definition vexos_base_url : string :=
  "https://content.vexrobotics.com/vexos/public/V5/".
Definition vexos_catalog_url : string := vexos_base_url ++ "catalog.txt".

(** [raise "..."] in effectful code. *)
Definition raise_strM {A : Type} (msg : string) : M A := lift (raise_str msg).

(** [pass]. *)
Definition pass : M unit := ret tt.

(** [download_vexos], lines 13-35. *)
Definition download_vexos (vexos_version : string) : M unit :=
  let vexos_download_url := vexos_base_url ++ vexos_version ++ ".vexos" in
  vexos_package <-
    try_except (requests_get vexos_download_url)
      (exn_eqb RequestsConnectionError)
      (raise_strM "ERROR: Failed to download ${vexos_version}. Please check your internet connection.") ;;
  try_except (write_bytes "vexos.vexos" (r_content vexos_package))
    IOError
    (raise_strM "ERROR: Failed to save ${vexos_version} to file. Please check your permissions.").

(** The flattening of [extract_vexos], lines 56-61. *)
Definition flatten_vexos : M unit :=
  names <- os_listdir "vexos" ;;
  vexos_subfolder <- lift (index names 0) ;;
  let vexos_subfolder_path := os_path_join "vexos" vexos_subfolder in
  files <- os_listdir vexos_subfolder_path ;;
  for_each files (fun file =>
    shutil_move (os_path_join vexos_subfolder_path file) "vexos") ;;
  shutil_rmtree vexos_subfolder_path.

(** [extract_vexos], lines 37-61. *)
Definition extract_vexos : M unit :=
  try_except (shutil_rmtree "vexos") IOError pass ;;
  try_except (shutil_unpack_archive "vexos.vexos" "vexos") IOError
    (raise_strM "ERROR: Failed to extract VexOS. Please check your permissions.") ;;
  flatten_vexos.

(** [get_latest_version], lines 65-79. *)
Definition get_latest_version : M string :=
  catalog <-
    try_except (requests_get vexos_catalog_url)
      (exn_eqb RequestsConnectionError)
      (raise_strM "ERROR: Failed to download catalog. Please check your internet connection.") ;;
  if negb (startswith (r_text catalog) "VEXOS_V5_") then
    raise_strM "ERROR: Failed to parse catalog. Please check your internet connection."
  else ret (r_text catalog).

(** [get_installed_version], lines 138-162.  The first handler raises a
    real [IOError]; the other two raise a [str]. *)
Definition get_installed_version : M json :=
  manifest <-
    try_except (read_text "vexos/manifest.json") IOError (raise OSError) ;;
  manifest <-
    try_except (lift (json_loads manifest)) (exn_eqb JSONDecodeError)
      (raise_strM "ERROR: Failed to parse manifest.json. Please check if the file is valid.") ;;
  vexos_version <-
    try_except (lift (getitem manifest "version")) (exn_eqb KeyError)
      (raise_strM "ERROR: Failed to parse manifest.json. Please check if the file is valid.") ;;
  ret vexos_version.

(** [package_already_downloaded], lines 165-174. *)
Definition package_already_downloaded : M bool :=
  try_except (open_rb "vexos.vexos" ;; ret true) IOError (ret false).

(** [resolve_conflicts], lines 176-188. *)
Definition resolve_conflicts : M unit :=
  try_except (os_remove "vexos.vexos") IOError pass ;;
  try_except (shutil_rmtree "vexos") IOError pass.

(** [is_outdated(installed_version, version)] as [install_vexos] calls it:
    the installed version is whatever the manifest holds, and only a [str]
    has [split]. *)
Definition call_is_outdated (installed_version : json) (version : string)
    : result bool :=
  match installed_version with
  | JStr current => is_outdated current version
  | _ => Raise AttributeError
  end.

(** [installed_version != None]. *)
Definition is_not_None (v : json) : bool :=
  match v with
  | JNull => false
  | _ => true
  end.

(** The download and the extraction of [install_vexos], lines 238-246. *)
Definition fetch_and_extract (version : string) : M unit :=
  print "Downloading VexOS..." ;;
  download_vexos version ;;
  print "Downloaded VexOS." ;;
  print "Extracting VexOS..." ;;
  extract_vexos ;;
  print "Extracted VexOS.".

(** The summary of [install_vexos], lines 253-259. *)
Definition summary (version : string) (installed_version : json) : M unit :=
  print "VexOS successfully installed." ;;
  (if is_not_None installed_version then
     line <- lift (str_add "OLD VERSION: " installed_version) ;;
     print line
   else print "OLD VERSION: None") ;;
  semver <- lift (vexos_to_semver version) ;;
  print ("NEW VERSION: " ++ semver).

(** The cleanup of [install_vexos] and what follows it, lines 248-259. *)
Definition cleanup_and_summary (version : string) (installed_version : json)
    : M unit :=
  print "Cleaning up..." ;;
  os_remove "vexos.vexos" ;;
  print "Cleaned up." ;;
  summary version installed_version.

(** [install_vexos] from the download on, lines 238-259. *)
Definition install_steps (version : string) (installed_version : json) : M unit :=
  fetch_and_extract version ;;
  cleanup_and_summary version installed_version.

(** [install_vexos] from the conflict check on, lines 227-259. *)
Definition install_from_conflict_check (force : bool) (version : string)
    (installed_version : json) : M unit :=
  print "Checking for conflicts..." ;;
  downloaded <- package_already_downloaded ;;
  if downloaded then
    print "VexOS package already downloaded." ;;
    if negb force then
      print "Please delete the file and try again."
    else
      print "Conflicts found. Deleting old files..." ;;
      resolve_conflicts ;;
      install_steps version installed_version
  else install_steps version installed_version.

(** [install_vexos] from the staleness check on, lines 214-259.  Each
    [return] of the source ends the run here; [and] tests [force] only when
    its left operand holds. *)
Definition install_from_outdated_check (force : bool) (version : string)
    (installed_version : json) : M unit :=
  if is_not_None installed_version then
    outdated <- lift (call_is_outdated installed_version version) ;;
    if negb outdated && negb force then
      print "Your VexOS installation is up to date."
    else
      outdated' <- lift (call_is_outdated installed_version version) ;;
      (if negb outdated' && force then
         print "Your VexOS installation is up to date, but continuing anyway."
       else
         prefix <- lift (str_add "An update is available (currently installed: "
                           installed_version) ;;
         print (prefix ++ ").")) ;;
      install_from_conflict_check force version installed_version
  else
    print "No VexOS installation found." ;;
    print "Fresh installation will be performed." ;;
    install_from_conflict_check force version installed_version.

(** The reading of the manifest in [install_vexos], lines 208-212. *)
Definition read_installed_version : M json :=
  try_except get_installed_version IOError (ret JNull).

(** The choice of the version in [install_vexos], lines 200-206;
    [version] is [None] or a [str]. *)
Definition resolve_version (version : option string) : M string :=
  match version with
  | None =>
      print "Getting Latest Version..." ;;
      version <- get_latest_version ;;
      semver <- lift (vexos_to_semver version) ;;
      print ("Latest Version: " ++ semver) ;;
      ret version
  | Some version =>
      print ("Version Specified: " ++ version) ;;
      ret version
  end.

(** [install_vexos], lines 192-259. *)
Definition install_vexos (force : bool) (version : option string) : M unit :=
  version <- resolve_version version ;;
  installed_version <- read_installed_version ;;
  install_from_outdated_check force version installed_version.

(** ** The state of the disk *)

(** The staged download, the install target and its manifest. *)
Definition artifact (w : world) : option node :=
  lookup (components "vexos.vexos") (cwd w).
Definition target (w : world) : option node :=
  lookup (components "vexos") (cwd w).
Definition manifest (w : world) : option node :=
  lookup (components "vexos/manifest.json") (cwd w).

Definition artifact_exists (w : world) : bool :=
  match artifact w with
  | Some _ => true
  | None => false
  end.

(** The artifact is a file that can be opened for reading. *)
Definition artifact_readable (w : world) : bool :=
  match artifact w with
  | Some (File true _ _) => true
  | _ => false
  end.

Definition artifact_is_file (w : world) : bool :=
  match artifact w with
  | Some (File _ _ _) => true
  | _ => false
  end.

(** [shutil.rmtree] gets through the whole tree of a node: no directory
    in it keeps an entry. *)
Definition removable (n : node) : bool :=
  match remove_node true n with
  | None => true
  | Some _ => false
  end.

(** Every directory of the tree is writable. *)
Fixpoint all_writable (n : node) : bool :=
  match n with
  | File _ _ _ => true
  | Dir dw es =>
      dw && (fix all (es : list (string * node)) : bool :=
               match es with
               | [] => true
               | (_, n') :: es' => all_writable n' && all es'
               end) es
  end.

(** [shutil.rmtree] gets the target out of the way: it is a directory
    whose whole tree can be removed, in a working directory that allows
    the removal. *)
Definition target_removable (w : world) : bool :=
  match target w with
  | Some (Dir dw es) => removable (Dir dw es) && cwd_writable w
  | _ => false
  end.

(** The target is a directory that can be emptied, or is missing where it
    can be made. *)
Definition target_available (w : world) : bool :=
  match target w with
  | Some (Dir dw es) => removable (Dir dw es)
  | Some (File _ _ _) => false
  | None => cwd_writable w
  end.

(** The world that the conflict check, with force and an artifact found,
    hands to the download: its three lines printed and
    [resolve_conflicts] run. *)
Definition after_resolve (w : world) : world :=
  snd (resolve_conflicts
         (logged w [EPrint "Checking for conflicts...";
                    EPrint "VexOS package already downloaded.";
                    EPrint "Conflicts found. Deleting old files..."])).

(** The manifest cannot be opened for reading: it is missing, or a
    directory, or a file without read permission. *)
Definition manifest_unavailable (w : world) : bool :=
  match manifest w with
  | Some (File true _ _) => false
  | _ => true
  end.



(** ** Notions of the specification *)

(** A non-negative integer in decimal: digits, at least one. *)
Definition is_digit (c : ascii) : bool :=
  Nat.leb 48 (nat_of_ascii c) && Nat.leb (nat_of_ascii c) 57.

Fixpoint all_digits (s : string) : bool :=
  match s with
  | EmptyString => true
  | String c s' => is_digit c && all_digits s'
  end.

Definition is_nonneg_integer (s : string) : bool :=
  negb (String.eqb s "") && all_digits s.

(** Whether a character occurs in a string. *)
Fixpoint occurs (c : ascii) (s : string) : bool :=
  match s with
  | EmptyString => false
  | String c' s' => Ascii.eqb c' c || occurs c s'
  end.

(** The events of planning: lines printed and the query of the catalog.
    Any other event fetches a package or changes the disk. *)
Definition planning_event (e : event) : bool :=
  match e with
  | EPrint _ => true
  | EGet url => String.eqb url vexos_catalog_url
  | _ => false
  end.

(** Code that raises no exception but [e0]. *)
Definition raises_only (e0 : exn) {A : Type} (m : M A) : Prop :=
  forall w e, fst (m w) = Raise e -> e = e0.

(** Whether a line was printed. *)
Definition printed (line : string) (w : world) : bool :=
  existsb (fun e => match e with
                    | EPrint l => String.eqb l line
                    | _ => false
                    end) (trace w).

(** Whether a URL was requested. *)
Definition requested (url : string) (w : world) : bool :=
  existsb (fun e => match e with
                    | EGet u => String.eqb u url
                    | _ => false
                    end) (trace w).

(** ** Sample worlds *)

(** A manifest that records a version. *)
Definition manifest_file (version : string) : node :=
  File true true (Text (JsonText (JDict [("version", JStr version)]))).

(** A firmware package: one top-level directory with the firmware tree. *)
Definition package (version : string) : content :=
  Zip [("VEXOS_V5", Dir true [("manifest.json", manifest_file version);
                              ("boot.bin", File true true Binary)])].

Definition package_url (token : string) : string :=
  vexos_base_url ++ token ++ ".vexos".

(** A server whose catalog names [latest] and which has the package of
    that version; any other URL gets an error page. *)
Definition server (latest : StructuredVersion) (url : string) : result response :=
  if String.eqb url vexos_catalog_url then
    Ret (mkResponse (token_of latest) (Text NotJson))
  else if String.eqb url (package_url (token_of latest)) then
    Ret (mkResponse "" (package (render latest)))
  else Ret (mkResponse "Not Found" (Text NotJson)).

(** Nothing installed, nothing staged. *)
Definition fresh_world (latest : StructuredVersion) : world :=
  mkWorld true [] (server latest) [].

(** A version installed, nothing staged. *)
Definition installed_world (installed latest : StructuredVersion) : world :=
  mkWorld true [("vexos", Dir true [("manifest.json", manifest_file (render installed))])]
    (server latest) [].


(** A stale artifact next to an installed version, in a working directory
    that does not allow entries to be removed. *)
Definition readonly_world (installed latest : StructuredVersion) : world :=
  mkWorld false
    [("vexos.vexos", File true true Binary);
     ("vexos", Dir true [("manifest.json", manifest_file (render installed))])]
    (server latest) [].

(** A stale artifact without read permission, nothing installed. *)
Definition unreadable_artifact_world (latest : StructuredVersion) : world :=
  mkWorld true [("vexos.vexos", File false true Binary)] (server latest) [].

(** A readable stale artifact, nothing installed. *)
Definition stale_artifact_world (latest : StructuredVersion) : world :=
  mkWorld true [("vexos.vexos", File true true Binary)] (server latest) [].

(** An artifact in place whose archive unpacks to the given entries. *)
Definition staged_world (zs : entries) : world :=
  mkWorld true [("vexos.vexos", File true true (Zip zs))]
    (server (mkVersion 1 0 0 1)) [].

(** ** The order [is_outdated] decides by *)

(** The numerals of the four components, in order. *)
Definition numerals (v : StructuredVersion) : list string :=
  [numeral (major v); numeral (minor v); numeral (patch v); numeral (build v)].

(** Lists of fields compared as [is_outdated] compares them: field by
    field, as text, the first difference deciding. *)
Fixpoint text_compare (cs ls : list string) : comparison :=
  match cs, ls with
  | c :: cs', l :: ls' =>
      match String.compare c l with
      | Eq => text_compare cs' ls'
      | o => o
      end
  | _, _ => Eq
  end.

(** ** The command line *)

(** How [main] ends: it returns, an exception leaves it, or [exit(code)]
    ends the process. *)
Inductive ending : Type :=
| Returned
| Raised (e : exn)
| Exited (code : nat).

(** The double quote, for the help text. *)
Definition dquote : string := String (ascii_of_nat 34) EmptyString.

(** The lines [print_help] prints, lines 263-268. *)
Definition help_lines : list string :=
  ["VexOS Downloader (by ThinkAlex)";
   "Usage: vexos_dl.py [arguments]";
   "Arguments:";
   "  -f, --force: Forces the installation of VEXos (even if there are conflicts or no available updates).";
   "  -v, --version: Installs a specific version of VEXos (format: "
     ++ dquote ++ "VEXOS_V5_X_X_X_X" ++ dquote ++ ").";
   "  -h, --help: Prints this help message."].

(** [print_help], lines 262-269: the help text, then [exit(0)]. *)
Definition print_help (w : world) : ending * world :=
  (Exited 0, snd (for_each help_lines print w)).

(** [l.index(x)]: the place of the first [x].  [main] asks it for an
    argument taken from the list, so that a missing [x] (a [ValueError] in
    Python) does not arise there; the length of the list stands for it. *)
Fixpoint list_index (x : string) (l : list string) : nat :=
  match l with
  | [] => 0
  | y :: l' => if String.eqb y x then 0 else S (list_index x l')
  end.

(** The loop of [main] over the arguments left, lines 275-282: the flags
    found so far go on, unless the help or an exception ends the run. *)
Fixpoint parse_arguments (argv args : list string) (force_enabled : bool)
    (version : option string) (w : world)
    : (bool * option string) + (ending * world) :=
  match args with
  | [] => inl (force_enabled, version)
  | arg :: args' =>
      if String.eqb arg "-f" || String.eqb arg "--force" then
        parse_arguments argv args' true version w
      else if String.eqb arg "-v" || String.eqb arg "--version" then
        match index argv (list_index arg argv + 1) with
        | Ret v => parse_arguments argv args' true (Some v) w
        | Raise e => inr (Raised e, w)
        end
      else if String.eqb arg "-h" || String.eqb arg "--help" then
        inr (print_help w)
      else parse_arguments argv args' force_enabled version w
  end.

(** [main], lines 271-285, on [sys.argv]. *)
Definition main (argv : list string) (w : world) : ending * world :=
  match parse_arguments argv (tl argv) false None w with
  | inl (force_enabled, version) =>
      match install_vexos force_enabled version w with
      | (Ret _, w') => (Returned, w')
      | (Raise e, w') => (Raised e, w')
      end
  | inr stop => stop
  end.

(** The spellings of the flags. *)
Definition is_force_flag (arg : string) : bool :=
  String.eqb arg "-f" || String.eqb arg "--force".
Definition is_version_flag (arg : string) : bool :=
  String.eqb arg "-v" || String.eqb arg "--version".
Definition is_help_flag (arg : string) : bool :=
  String.eqb arg "-h" || String.eqb arg "--help".

(** A world whose manifest records the given JSON value as its version. *)
Definition version_value_world (j : json) (latest : StructuredVersion) : world :=
  mkWorld true
    [("vexos", Dir true [("manifest.json",
                     File true true (Text (JsonText (JDict [("version", j)]))))])]
    (server latest) [].

(** Neither [None] nor a [str]. *)
Definition is_other_value (v : json) : bool :=
  match v with
  | JNull | JStr _ => false
  | _ => true
  end.

(** ** What a run may touch *)

(** The first component of a relative path. *)
Definition root (path : string) : string := hd "" (components path).

(** The path lies at or below the artifact or the install target. *)
Definition own_path (path : string) : Prop :=
  root path = "vexos" \/ root path = "vexos.vexos".

(** An event that keeps to the program's own: a line printed, a request
    to an address under the base URL, or a call that changes the disk and
    is given no path but the artifact, the install target or a path below
    the install target. *)
Definition own_event (e : event) : Prop :=
  match e with
  | EPrint _ => True
  | EGet url => String.prefix vexos_base_url url = true
  | ERemove path | ERmtree path | EWrite path => own_path path
  | EUnpack filename extract_dir => own_path filename /\ own_path extract_dir
  | EMove src dst => own_path src /\ own_path dst
  end.

(** Code that keeps to its own: it only adds to the trace, and what it
    adds are events of its own. *)
Definition confined {A : Type} (m : M A) : Prop :=
  forall w,
    exists evs,
      trace (snd (m w)) = (trace w ++ evs)%list /\ Forall own_event evs.

(** The artifact can be written: a writable file, or missing where it can
    be made. *)
Definition artifact_writable (w : world) : bool :=
  match artifact w with
  | Some (File _ wr _) => wr
  | Some (Dir _ _) => false
  | None => cwd_writable w
  end.

(** What the artifact holds. *)
Definition artifact_content (w : world) : option content :=
  match artifact w with
  | Some (File _ _ c) => Some c
  | _ => None
  end.

(** A server that cannot be reached. *)
Definition offline (url : string) : result response :=
  Raise RequestsConnectionError.

(** A version installed, a readable stale artifact, no network. *)
Definition offline_world (installed : StructuredVersion) : world :=
  mkWorld true
    [("vexos.vexos", File true true Binary);
     ("vexos", Dir true [("manifest.json", manifest_file (render installed))])]
    offline [].

(** Code that leaves alone the entry of the working directory with the
    given name. *)
Definition untouched (name : string) {A : Type} (m : M A) : Prop :=
  forall w, assoc name (cwd (snd (m w))) = assoc name (cwd w).

(** The content has the signature of a zip archive. *)
Definition is_archive (c : content) : bool :=
  match c with
  | Zip _ | EmptyZip | CorruptZip => true
  | Text _ | Binary => false
  end.

(** A version installed and, staged, a file that is no archive. *)
Definition bad_artifact_world (installed : StructuredVersion) : world :=
  mkWorld true
    [("vexos.vexos", File true true (Text NotJson));
     ("vexos", Dir true [("manifest.json", manifest_file (render installed))])]
    offline [].

Example ex_split : split "_" "VEXOS_V5_1_0_13_0" = ["VEXOS"; "V5"; "1"; "0"; "13"; "0"].
Proof. reflexivity. Qed.
Example ex_semver : vexos_to_semver "VEXOS_V5_1_0_13_0" = Ret "1.0.13.0".
Proof. reflexivity. Qed.
Example ex_out1 : is_outdated "1.0.0.0" "VEXOS_V5_1_0_0_1" = Ret true.
Proof. reflexivity. Qed.
Example ex_out2 : is_outdated "1.9.0.0" "VEXOS_V5_1_10_0_0" = Ret false.
Proof. reflexivity. Qed.
Example ex_out3 : is_outdated "1.0" "VEXOS_V5_1_0_0_0" = Raise IndexError.
Proof. reflexivity. Qed.
Example ex_tok : token_of (mkVersion 1 10 0 0) = "VEXOS_V5_1_10_0_0".
Proof. reflexivity. Qed.

(** * Properties *)

(** ** Splitting and comparing strings *)

Lemma split_nonempty (sep : ascii) (s : string) : split sep s <> [].
Proof.
  destruct s as [|c s]; simpl; [discriminate|].
  destruct (Ascii.eqb c sep); [discriminate|].
  destruct (split sep s); discriminate.
Qed.

(** Splitting goes through a separator that joins two strings. *)
Lemma split_app (sep : ascii) (a b : string) :
  split sep (a ++ String sep b) = (split sep a ++ split sep b)%list.
Proof.
  induction a as [|c a IH]; simpl.
  - now rewrite Ascii.eqb_refl.
  - destruct (Ascii.eqb c sep); [now rewrite IH|].
    rewrite IH.
    destruct (split sep a) as [|f fs] eqn:E; [now apply split_nonempty in E|].
    reflexivity.
Qed.

Lemma split_none (sep : ascii) (a : string) :
  occurs sep a = false -> split sep a = [a].
Proof.
  induction a as [|c a IH]; simpl; [reflexivity|].
  intros H. apply orb_false_iff in H as [Hc Ha].
  rewrite Hc, (IH Ha). reflexivity.
Qed.

Lemma split_cons (sep : ascii) (a b : string) :
  occurs sep a = false ->
  split sep (a ++ String sep b) = a :: split sep b.
Proof.
  intros H. now rewrite split_app, (split_none _ _ H).
Qed.

Lemma ascii_compare_refl (c : ascii) : Ascii.compare c c = Eq.
Proof.
  unfold Ascii.compare. apply BinNat.N.compare_refl.
Qed.

Lemma string_compare_refl (s : string) : String.compare s s = Eq.
Proof.
  induction s as [|c s IH]; simpl; [reflexivity|].
  now rewrite ascii_compare_refl.
Qed.

Lemma str_lt_irrefl (s : string) : str_lt s s = false.
Proof.
  unfold str_lt, String.ltb. now rewrite string_compare_refl.
Qed.

Lemma str_gt_irrefl (s : string) : str_gt s s = false.
Proof.
  unfold str_gt, String.ltb. now rewrite string_compare_refl.
Qed.

(** ** Numerals *)

Lemma all_digits_uint (d : Decimal.uint) :
  all_digits (NilEmpty.string_of_uint d) = true.
Proof.
  induction d; simpl; auto.
Qed.

Lemma all_digits_numeral (n : nat) : all_digits (numeral n) = true.
Proof.
  unfold numeral, NilZero.string_of_uint.
  destruct (Nat.to_uint n) eqn:E; try reflexivity;
    rewrite <- E at 1; rewrite E; apply all_digits_uint.
Qed.

Lemma numeral_nonempty (n : nat) : numeral n <> "".
Proof.
  unfold numeral, NilZero.string_of_uint.
  destruct (Nat.to_uint n); simpl; discriminate.
Qed.

Lemma numeral_is_nonneg_integer (n : nat) : is_nonneg_integer (numeral n) = true.
Proof.
  unfold is_nonneg_integer. rewrite all_digits_numeral.
  destruct (String.eqb_spec (numeral n) ""); [now apply numeral_nonempty in e|].
  reflexivity.
Qed.

Lemma all_digits_occurs (c : ascii) (s : string) :
  is_digit c = false -> all_digits s = true -> occurs c s = false.
Proof.
  intros Hc. induction s as [|c' s IH]; simpl; [reflexivity|].
  intros H. apply andb_true_iff in H as [Hd Hs].
  rewrite (IH Hs), orb_false_r.
  destruct (Ascii.eqb_spec c' c); [congruence | reflexivity].
Qed.

Lemma numeral_no_dot (n : nat) : occurs "." (numeral n) = false.
Proof. apply all_digits_occurs; [reflexivity | apply all_digits_numeral]. Qed.

Lemma numeral_no_underscore (n : nat) : occurs "_" (numeral n) = false.
Proof. apply all_digits_occurs; [reflexivity | apply all_digits_numeral]. Qed.

(** ** Tokens and their dotted rendering *)

Lemma split_render (v : StructuredVersion) :
  split "." (render v)
  = [numeral (major v); numeral (minor v); numeral (patch v); numeral (build v)].
Proof.
  unfold render. cbn [append].
  rewrite !split_cons by apply numeral_no_dot.
  now rewrite split_none by apply numeral_no_dot.
Qed.

Lemma split_token_of (v : StructuredVersion) :
  split "_" (token_of v)
  = ["VEXOS"; "V5"; numeral (major v); numeral (minor v);
     numeral (patch v); numeral (build v)].
Proof.
  unfold token_of.
  change (split "_"
            ("VEXOS" ++ String "_" ("V5" ++ String "_"
               (numeral (major v) ++ String "_" (numeral (minor v) ++ String "_"
                  (numeral (patch v) ++ String "_" (numeral (build v)))))))
          = ["VEXOS"; "V5"; numeral (major v); numeral (minor v);
             numeral (patch v); numeral (build v)]).
  rewrite (split_cons "_" "VEXOS") by reflexivity.
  rewrite (split_cons "_" "V5") by reflexivity.
  rewrite !split_cons by apply numeral_no_underscore.
  now rewrite split_none by apply numeral_no_underscore.
Qed.

Lemma vexos_to_semver_fields (token f2 f3 f4 f5 : string) :
  split "_" token = ["VEXOS"; "V5"; f2; f3; f4; f5] ->
  vexos_to_semver token = Ret (f2 ++ "." ++ f3 ++ "." ++ f4 ++ "." ++ f5).
Proof.
  intros H. unfold vexos_to_semver. rewrite H. reflexivity.
Qed.

Lemma vexos_to_semver_inv (token semver : string) :
  vexos_to_semver token = Ret semver ->
  exists f2 f3 f4 f5,
    split "_" token = ["VEXOS"; "V5"; f2; f3; f4; f5]
    /\ semver = f2 ++ "." ++ f3 ++ "." ++ f4 ++ "." ++ f5.
Proof.
  unfold vexos_to_semver.
  destruct (split "_" token) as [|a [|b [|c [|d [|e [|f [|g l]]]]]]];
    cbn; try discriminate.
  destruct (String.eqb_spec a "VEXOS"); cbn; [|discriminate].
  destruct (String.eqb_spec b "V5"); cbn; [|discriminate].
  intros [= <-]. subst. now exists c, d, e, f.
Qed.

Lemma vexos_to_semver_raises (token : string) (e : exn) :
  vexos_to_semver token = Raise e -> e = TypeError.
Proof.
  unfold vexos_to_semver.
  destruct (split "_" token) as [|a [|b [|c [|d [|f [|g [|h l]]]]]]];
    cbn; try (now intros [= <-]).
  destruct (String.eqb a "VEXOS"); cbn; [|now intros [= <-]].
  destruct (String.eqb b "V5"); cbn; [discriminate | now intros [= <-]].
Qed.

Lemma vexos_to_semver_token_of (v : StructuredVersion) :
  vexos_to_semver (token_of v) = Ret (render v).
Proof.
  now rewrite (vexos_to_semver_fields _ _ _ _ _ (split_token_of v)).
Qed.

(** ** [vexos_to_semver] and [is_outdated] *)

Lemma compare_at_equal (cs ls : list string) (i : nat) (c : string)
    (next : result bool) :
  nth_error cs i = Some c -> nth_error ls i = Some c ->
  compare_at cs ls i next = next.
Proof.
  intros Hc Hl. unfold compare_at, index. rewrite Hc, Hl. cbn.
  now rewrite str_gt_irrefl, str_lt_irrefl.
Qed.

Lemma compare_at_missing (cs ls : list string) (i : nat) (next : result bool) :
  nth_error cs i = None -> compare_at cs ls i next = Raise IndexError.
Proof.
  intros Hc. unfold compare_at, index. now rewrite Hc.
Qed.

Lemma compare_at_returns (cs ls : list string) (i : nat) (next : result bool) :
  i < List.length cs -> i < List.length ls ->
  (exists b, next = Ret b) ->
  exists b, compare_at cs ls i next = Ret b.
Proof.
  intros Hc Hl [b Hb]. unfold compare_at, index.
  destruct (nth_error cs i) as [c|] eqn:Ec;
    [|apply nth_error_None in Ec; lia].
  destruct (nth_error ls i) as [l|] eqn:El;
    [|apply nth_error_None in El; lia].
  cbn. destruct (str_gt c l); [now exists false|].
  destruct (str_lt c l); [now exists true | now exists b].
Qed.

Lemma split_length_pos (sep : ascii) (s : string) :
  1 <= List.length (split sep s).
Proof.
  pose proof (split_nonempty sep s) as H.
  destruct (split sep s); [congruence | simpl; lia].
Qed.

(** What [vexos_to_semver] returns has at least four dotted fields. *)
Lemma semver_length (token semver : string) :
  vexos_to_semver token = Ret semver ->
  4 <= List.length (split "." semver).
Proof.
  intros H. apply vexos_to_semver_inv in H as (f2 & f3 & f4 & f5 & _ & ->).
  cbn [append]. rewrite !split_app, !length_app.
  pose proof (split_length_pos "." f2). pose proof (split_length_pos "." f3).
  pose proof (split_length_pos "." f4). pose proof (split_length_pos "." f5).
  lia.
Qed.

(** With four fields or more in the installed version and a token that
    parses, [is_outdated] returns a boolean. *)
Lemma is_outdated_returns (current latest semver : string) :
  vexos_to_semver latest = Ret semver ->
  4 <= List.length (split "." current) ->
  exists b, is_outdated current latest = Ret b.
Proof.
  intros Hs Hc. pose proof (semver_length _ _ Hs) as Hl.
  unfold is_outdated. rewrite Hs. cbn [rbind].
  repeat (apply compare_at_returns; [lia | lia |]).
  now exists false.
Qed.

Lemma of_uint_acc_compare (d1 d2 : Decimal.uint) (a1 a2 : nat) :
  String.length (NilEmpty.string_of_uint d1)
  = String.length (NilEmpty.string_of_uint d2) ->
  Nat.compare (Nat.of_uint_acc d1 a1) (Nat.of_uint_acc d2 a2)
  = match Nat.compare a1 a2 with
    | Eq => String.compare (NilEmpty.string_of_uint d1)
              (NilEmpty.string_of_uint d2)
    | c => c
    end.
Proof.
  revert d2 a1 a2.
  induction d1 as [|d1 IH|d1 IH|d1 IH|d1 IH|d1 IH|d1 IH|d1 IH|d1 IH|d1 IH|d1 IH];
    intros [|d2|d2|d2|d2|d2|d2|d2|d2|d2|d2] a1 a2 Hlen;
    try discriminate Hlen.
  1: { cbn. now destruct (Nat.compare a1 a2). }
  all: injection Hlen as Hlen; cbn [Nat.of_uint_acc];
    rewrite (IH d2 _ _ Hlen), !Nat.tail_mul_spec;
    cbn [NilEmpty.string_of_uint String.compare];
    match goal with
    | |- context [Ascii.compare ?x ?y] =>
        let c := eval vm_compute in (Ascii.compare x y) in
        change (Ascii.compare x y) with c
    end;
    cbv iota;
    destruct (Nat.compare_spec a1 a2);
    match goal with
    | |- context [Nat.compare ?x ?y] => destruct (Nat.compare_spec x y)
    end; try reflexivity; lia.
Qed.

Lemma to_uint_not_nil (n : nat) : Nat.to_uint n <> Decimal.Nil.
Proof.
  intros H. pose proof (Unsigned.of_to n) as Hn. rewrite H in Hn.
  cbn in Hn. subst n. discriminate H.
Qed.

Lemma numeral_nil_empty (n : nat) :
  numeral n = NilEmpty.string_of_uint (Nat.to_uint n).
Proof.
  unfold numeral, NilZero.string_of_uint.
  pose proof (to_uint_not_nil n) as H.
  now destruct (Nat.to_uint n).
Qed.

(** Numerals of one length are ordered as the numbers they denote. *)
Lemma numeral_compare (n m : nat) :
  String.length (numeral n) = String.length (numeral m) ->
  String.compare (numeral n) (numeral m) = Nat.compare n m.
Proof.
  rewrite !numeral_nil_empty. intros H.
  rewrite <- (Unsigned.of_to n) at 2. rewrite <- (Unsigned.of_to m) at 2.
  unfold Nat.of_uint. now rewrite (of_uint_acc_compare _ _ 0 0 H).
Qed.

Lemma compare_at_numerals (cs ls : list string) (i n m : nat)
    (next : result bool) :
  nth_error cs i = Some (numeral n) -> nth_error ls i = Some (numeral m) ->
  String.length (numeral n) = String.length (numeral m) ->
  compare_at cs ls i next
  = match Nat.compare n m with
    | Lt => Ret true
    | Eq => next
    | Gt => Ret false
    end.
Proof.
  intros Hc Hl Hlen. unfold compare_at, index. rewrite Hc, Hl. cbn [rbind].
  unfold str_gt, str_lt, String.ltb.
  rewrite (numeral_compare n m Hlen), (numeral_compare m n (eq_sym Hlen)).
  rewrite (Nat.compare_antisym n m).
  now destruct (Nat.compare n m).
Qed.

(** Where the numerals of corresponding components have the same length,
    [is_outdated] decides as the integer order does. *)
Lemma is_outdated_same_width (a b : StructuredVersion) :
  String.length (numeral (major a)) = String.length (numeral (major b)) ->
  String.length (numeral (minor a)) = String.length (numeral (minor b)) ->
  String.length (numeral (patch a)) = String.length (numeral (patch b)) ->
  String.length (numeral (build a)) = String.length (numeral (build b)) ->
  is_outdated (render a) (token_of b) = Ret (spec_isOutdated a b).
Proof.
  intros H1 H2 H3 H4. unfold is_outdated.
  rewrite vexos_to_semver_token_of. cbn [rbind]. rewrite !split_render.
  rewrite (compare_at_numerals _ _ 3 (build a) (build b)) by easy.
  rewrite (compare_at_numerals _ _ 2 (patch a) (patch b)) by easy.
  rewrite (compare_at_numerals _ _ 1 (minor a) (minor b)) by easy.
  rewrite (compare_at_numerals _ _ 0 (major a) (major b)) by easy.
  unfold spec_isOutdated, spec_compare.
  destruct (Nat.compare (major a) (major b)); try reflexivity.
  destruct (Nat.compare (minor a) (minor b)); try reflexivity.
  destruct (Nat.compare (patch a) (patch b)); try reflexivity.
  destruct (Nat.compare (build a) (build b)); reflexivity.
Qed.

(** C1.  The claim asks for a comparison of the components as integers;
    [is_outdated] compares them as text.  Installed 1.9.0.0 against the
    candidate 1.10.0.0: the code answers "not outdated" ("9" > "10" as
    strings), where the integer order of the specification says
    outdated. *)
Theorem is_outdated_compares_components_as_text :
  is_outdated (render (mkVersion 1 9 0 0)) (token_of (mkVersion 1 10 0 0))
    = Ret false
  /\ spec_isOutdated (mkVersion 1 9 0 0) (mkVersion 1 10 0 0) = true.
Proof. split; reflexivity. Qed.

(** C5, the claim as stated fails: a token whose trailing fields are no
    integers is parsed all the same. *)
Lemma vexos_to_semver_accepts_non_integers :
  split "_" "VEXOS_V5_a_b_c_d" = ["VEXOS"; "V5"; "a"; "b"; "c"; "d"]
  /\ is_nonneg_integer "a" = false
  /\ vexos_to_semver "VEXOS_V5_a_b_c_d" = Ret "a.b.c.d".
Proof. repeat split; reflexivity. Qed.

(** C5, amended.  [vexos_to_semver] returns exactly for the tokens that
    split into six underscore-delimited fields of which the first two are
    VEXOS and V5, and then yields the four trailing fields joined by dots,
    whatever these fields are; on every other token it raises (the
    [TypeError] of raising a [str]).  The token of a structured version is
    parsed into its rendering. *)
Theorem vexos_to_semver_spec (token : string) :
  (forall semver,
      vexos_to_semver token = Ret semver <->
      exists f2 f3 f4 f5,
        split "_" token = ["VEXOS"; "V5"; f2; f3; f4; f5]
        /\ semver = f2 ++ "." ++ f3 ++ "." ++ f4 ++ "." ++ f5)
  /\ (vexos_to_semver token = Raise TypeError <->
      ~ exists f2 f3 f4 f5, split "_" token = ["VEXOS"; "V5"; f2; f3; f4; f5])
  /\ (forall v, token = token_of v -> vexos_to_semver token = Ret (render v)).
Proof.
  split; [|split].
  - intros semver. split; [apply vexos_to_semver_inv|].
    intros (f2 & f3 & f4 & f5 & H & ->). now apply vexos_to_semver_fields.
  - split.
    + intros H (f2 & f3 & f4 & f5 & Hs).
      rewrite (vexos_to_semver_fields _ _ _ _ _ Hs) in H. discriminate.
    + intros H. destruct (vexos_to_semver token) as [semver|e] eqn:E.
      * exfalso. apply H.
        apply vexos_to_semver_inv in E as (f2 & f3 & f4 & f5 & Hs & _).
        now exists f2, f3, f4, f5.
      * now rewrite (vexos_to_semver_raises _ _ E).
  - intros v ->. apply vexos_to_semver_token_of.
Qed.

(** C8.  A version is never outdated against itself: the dotted rendering
    of [v] as the installed version and the token of [v] as the candidate
    give [False]. *)
Theorem is_outdated_irreflexive (v : StructuredVersion) :
  is_outdated (render v) (token_of v) = Ret false.
Proof.
  unfold is_outdated.
  rewrite vexos_to_semver_token_of. cbn [rbind]. rewrite split_render.
  repeat (erewrite compare_at_equal by reflexivity).
  reflexivity.
Qed.

(** C10.  An installed version with fewer than four dotted fields, all of
    them equal to the candidate's fields at the same places, makes
    [is_outdated] raise [IndexError]. *)
Theorem is_outdated_short_installed_version (current latest semver : string) :
  vexos_to_semver latest = Ret semver ->
  List.length (split "." current) < 4 ->
  (forall i, i < List.length (split "." current) ->
             nth_error (split "." current) i = nth_error (split "." semver) i) ->
  is_outdated current latest = Raise IndexError.
Proof.
  intros Hs Hlen Heq. unfold is_outdated. rewrite Hs. cbn [rbind].
  pose proof (split_length_pos "." current) as Hpos.
  assert (Hstep : forall i next,
             i < List.length (split "." current) ->
             compare_at (split "." current) (split "." semver) i next = next).
  { intros i next Hi.
    destruct (nth_error (split "." current) i) as [c|] eqn:Ec;
      [|apply nth_error_None in Ec; lia].
    apply (compare_at_equal _ _ _ c); [assumption|].
    now rewrite <- Heq. }
  assert (Hstop : forall i next,
             List.length (split "." current) <= i ->
             compare_at (split "." current) (split "." semver) i next
             = Raise IndexError).
  { intros i next Hi. apply compare_at_missing. now apply nth_error_None. }
  destruct (List.length (split "." current)) as [|[|[|[|n]]]]; try lia.
  - rewrite Hstep by lia. now rewrite Hstop by lia.
  - rewrite !Hstep by lia. now rewrite Hstop by lia.
  - rewrite !Hstep by lia. now rewrite Hstop by lia.
Qed.

Lemma is_outdated_short_installed_version_witness :
  is_outdated "1.0" "VEXOS_V5_1_0_0_0" = Raise IndexError.
Proof.
  apply (is_outdated_short_installed_version "1.0" "VEXOS_V5_1_0_0_0" "1.0.0.0").
  - reflexivity.
  - simpl. lia.
  - intros [|[|i]] H; try reflexivity. simpl in H. lia.
Defined.

(** ** Running effectful code *)

Lemma bind_ret {A B : Type} (m : M A) (k : A -> M B) (w w1 : world) (a : A) :
  m w = (Ret a, w1) -> bind m k w = k a w1.
Proof. intros H. unfold bind. now rewrite H. Qed.

Lemma bind_raise {A B : Type} (m : M A) (k : A -> M B) (w w1 : world) (e : exn) :
  m w = (Raise e, w1) -> bind m k w = (Raise e, w1).
Proof. intros H. unfold bind. now rewrite H. Qed.

Lemma logged_logged (w : world) (a b : list event) :
  logged (logged w a) b = logged w (a ++ b).
Proof. unfold logged. cbn. now rewrite app_assoc. Qed.

Lemma logged_nil (w : world) : logged w [] = w.
Proof. destruct w. unfold logged. cbn. now rewrite app_nil_r. Qed.

Lemma run_print (line : string) (w : world) :
  print line w = (Ret tt, logged w [EPrint line]).
Proof. reflexivity. Qed.

(** Run a leading [print]. *)
Ltac step_print := erewrite bind_ret by apply run_print.

Lemma read_installed_version_spec (w : world) :
  read_installed_version w =
    match manifest w with
    | Some (File true _ c) =>
        match decode c with
        | Some (JsonText (JDict items)) =>
            match assoc "version" items with
            | Some v => (Ret v, w)
            | None => (Raise TypeError, w)
            end
        | Some _ => (Raise TypeError, w)
        | None => (Raise UnicodeDecodeError, w)
        end
    | _ => (Ret JNull, w)
    end.
Proof.
  unfold read_installed_version, get_installed_version, try_except, bind,
    read_text, manifest.
  destruct (lookup (components "vexos/manifest.json") (cwd w))
    as [[[|] wr c|dw es]|]; try reflexivity.
  destruct (decode c) as [[|j]|]; try reflexivity.
  destruct j; try reflexivity.
  cbn. destruct (assoc "version" items); reflexivity.
Qed.

Lemma manifest_logged (w : world) (evs : list event) :
  manifest (logged w evs) = manifest w.
Proof. reflexivity. Qed.

(** Choosing the version prints and may query the catalog; the disk is
    left alone. *)
Lemma resolve_version_planning (version : option string) (w : world) :
  exists r evs,
    resolve_version version w = (r, logged w evs)
    /\ forallb planning_event evs = true.
Proof.
  destruct version as [v|].
  - exists (Ret v), [EPrint ("Version Specified: " ++ v)]. split; reflexivity.
  - unfold resolve_version, get_latest_version, requests_get, try_except, bind,
      print, log, lift, raise_strM, raise_str, ret.
    cbn [remote logged].
    destruct (remote w vexos_catalog_url) as [resp|e].
    + destruct (startswith (r_text resp) "VEXOS_V5_"); cbn [negb].
      * destruct (vexos_to_semver (r_text resp)) as [semver|e];
          rewrite ?logged_logged; do 2 eexists; split; try reflexivity.
      * rewrite ?logged_logged; do 2 eexists; split; try reflexivity.
    + destruct e; cbn [exn_eqb]; rewrite ?logged_logged;
        do 2 eexists; split; try reflexivity.
Qed.

(** ** Entries of a directory *)

Lemma lookup_single (name : string) (es : entries) :
  lookup [name] es = assoc name es.
Proof. cbn. now destruct (assoc name es). Qed.

Lemma assoc_put_entry_same (name : string) (n : node) (es : entries) :
  assoc name (put_entry name n es) = Some n.
Proof.
  induction es as [|[k n'] es IH]; cbn.
  - now rewrite String.eqb_refl.
  - destruct (String.eqb name k) eqn:E; cbn; now rewrite E.
Qed.

Lemma assoc_put_entry_other (name name' : string) (n : node) (es : entries) :
  name <> name' -> assoc name (put_entry name' n es) = assoc name es.
Proof.
  intros Hne. apply String.eqb_neq in Hne.
  induction es as [|[k n'] es IH]; cbn.
  - now rewrite Hne.
  - destruct (String.eqb name' k) eqn:E; cbn.
    + apply String.eqb_eq in E. subst k. now rewrite Hne.
    + now rewrite IH.
Qed.

Lemma assoc_remove_entry_same (name : string) (es : entries) :
  assoc name (remove_entry name es) = None.
Proof.
  induction es as [|[k n'] es IH]; cbn; [reflexivity|].
  destruct (String.eqb name k) eqn:E; cbn; [assumption | now rewrite E].
Qed.

Lemma assoc_remove_entry_other (name name' : string) (es : entries) :
  name <> name' -> assoc name (remove_entry name' es) = assoc name es.
Proof.
  intros Hne. apply String.eqb_neq in Hne.
  induction es as [|[k n'] es IH]; cbn; [reflexivity|].
  destruct (String.eqb name' k) eqn:E; cbn.
  - apply String.eqb_eq in E. subst k. now rewrite Hne.
  - now rewrite IH.
Qed.

Lemma assoc_set_entry_same (name : string) (e : option node) (es : entries) :
  assoc name (set_entry name e es) = e.
Proof.
  destruct e; cbn; [apply assoc_put_entry_same | apply assoc_remove_entry_same].
Qed.

Lemma assoc_set_entry_other (name name' : string) (e : option node) (es : entries) :
  name <> name' -> assoc name (set_entry name' e es) = assoc name es.
Proof.
  destruct e; cbn; [apply assoc_put_entry_other | apply assoc_remove_entry_other].
Qed.

Lemma put_entry_same (name : string) (n : node) (es : entries) :
  assoc name es = Some n -> put_entry name n es = es.
Proof.
  induction es as [|[k n'] es IH]; cbn; [discriminate|].
  destruct (String.eqb name k) eqn:E.
  - now intros [= ->].
  - intros H. now rewrite IH.
Qed.

Lemma remove_entry_absent (name : string) (es : entries) :
  assoc name es = None -> remove_entry name es = es.
Proof.
  induction es as [|[k n'] es IH]; cbn; [reflexivity|].
  destruct (String.eqb name k) eqn:E; [discriminate|].
  intros H. now rewrite IH.
Qed.

Lemma set_entry_same (name : string) (es : entries) :
  set_entry name (assoc name es) es = es.
Proof.
  destruct (assoc name es) eqn:E; cbn;
    [now apply put_entry_same | now apply remove_entry_absent].
Qed.

(** ** The calls on the two paths of the working directory *)

Lemma run_change_top {A : Type} (path name : string)
    (k : bool -> option node -> option node * result A) (w : world) :
  components path = [name] ->
  change path k w
  = (snd (k (cwd_writable w) (assoc name (cwd w))),
     mkWorld (cwd_writable w)
       (set_entry name (fst (k (cwd_writable w) (assoc name (cwd w)))) (cwd w))
       (remote w) (trace w)).
Proof.
  intros H. unfold change. rewrite H. cbn.
  now destruct (k (cwd_writable w) (assoc name (cwd w))).
Qed.

Lemma artifact_assoc (w : world) : artifact w = assoc "vexos.vexos" (cwd w).
Proof. apply lookup_single. Qed.

Lemma target_assoc (w : world) : target w = assoc "vexos" (cwd w).
Proof. apply lookup_single. Qed.

Lemma remove_file_result (w : bool) (e : option node) :
  snd (remove_file w e) = Ret tt \/ snd (remove_file w e) = Raise OSError.
Proof. destruct e as [[r wr c|dw es]|], w; cbn; auto. Qed.

Lemma remove_tree_result (w : bool) (e : option node) :
  snd (remove_tree w e) = Ret tt \/ snd (remove_tree w e) = Raise OSError.
Proof.
  destruct e as [[r wr c|dw es]|]; cbn [remove_tree snd]; auto.
  destruct (remove_node w (Dir dw es)); cbn; auto.
Qed.

(** [shutil.rmtree] on the entries of a directory. *)
Lemma remove_node_dir (pw dw : bool) (es : entries) :
  remove_node pw (Dir dw es)
  = match clear_entries dw es with
    | [] => if pw then None else Some (Dir dw [])
    | rest => Some (Dir dw rest)
    end.
Proof.
  cbn [remove_node].
  match goal with
  | |- match ?f es with _ => _ end = _ =>
      assert (H : forall l, f l = clear_entries dw l)
  end.
  { induction l as [|[name n'] l IH]; cbn [clear_entries]; [reflexivity|].
    destruct (remove_node dw n'); [reflexivity | exact IH]. }
  now rewrite H.
Qed.

(** A tree of writable directories can be removed. *)
Lemma all_writable_removable (n : node) :
  all_writable n = true -> remove_node true n = None.
Proof.
  revert n. fix IH 1. intros [r wr c|dw es]; [reflexivity|].
  cbn [all_writable]. intros H. apply andb_true_iff in H as [-> H].
  rewrite remove_node_dir.
  enough (Hc : clear_entries true es = []) by now rewrite Hc.
  induction es as [|[name n'] es IHes]; [reflexivity|].
  apply andb_true_iff in H as [Hn Hes].
  cbn [clear_entries]. rewrite (IH n' Hn). now apply IHes.
Qed.

(** What stays of a directory is a directory, with its permission. *)
Lemma remove_node_stays (pw dw : bool) (es : entries) (n : node) :
  remove_node pw (Dir dw es) = Some n -> exists es', n = Dir dw es'.
Proof.
  rewrite remove_node_dir.
  destruct (clear_entries dw es) as [|x rest].
  - destruct pw; [discriminate|]. intros [= <-]. now eexists.
  - intros [= <-]. now eexists.
Qed.

(** A tree that can be removed goes where the directory that holds it is
    writable; elsewhere it is emptied and stays. *)
Lemma remove_node_removable (pw dw : bool) (es : entries) :
  removable (Dir dw es) = true ->
  remove_node pw (Dir dw es) = if pw then None else Some (Dir dw []).
Proof.
  unfold removable. rewrite !remove_node_dir.
  now destruct (clear_entries dw es).
Qed.

Lemma remove_node_not_removable (pw : bool) (n : node) :
  removable n = false -> exists n', remove_node pw n = Some n'.
Proof.
  unfold removable. destruct n as [r wr c|dw es]; [discriminate|].
  rewrite !remove_node_dir.
  destruct (clear_entries dw es); [discriminate|]. intros _. now eexists.
Qed.

(** A handler for [IOError] with [pass] around a call that raises nothing
    but [OSError]. *)
Lemma try_pass (body : M unit) (w : world) :
  (fst (body w) = Ret tt \/ fst (body w) = Raise OSError) ->
  try_except body IOError pass w = (Ret tt, snd (body w)).
Proof.
  unfold try_except. destruct (body w) as [[[]|e] w']; cbn.
  - reflexivity.
  - intros [H|H]; [discriminate|]. injection H as ->. reflexivity.
Qed.

Lemma run_os_remove_top (w : world) :
  os_remove "vexos.vexos" w
  = (snd (remove_file (cwd_writable w) (artifact w)),
     mkWorld (cwd_writable w)
       (set_entry "vexos.vexos"
          (fst (remove_file (cwd_writable w) (artifact w))) (cwd w))
       (remote w) (trace w ++ [ERemove "vexos.vexos"])).
Proof.
  unfold os_remove. rewrite artifact_assoc.
  erewrite bind_ret by reflexivity.
  now rewrite (run_change_top _ "vexos.vexos") by reflexivity.
Qed.

Lemma run_shutil_rmtree_top (w : world) :
  shutil_rmtree "vexos" w
  = (snd (remove_tree (cwd_writable w) (target w)),
     mkWorld (cwd_writable w)
       (set_entry "vexos"
          (fst (remove_tree (cwd_writable w) (target w))) (cwd w))
       (remote w) (trace w ++ [ERmtree "vexos"])).
Proof.
  unfold shutil_rmtree. rewrite target_assoc.
  erewrite bind_ret by reflexivity.
  now rewrite (run_change_top _ "vexos") by reflexivity.
Qed.

(** What [resolve_conflicts] does, in full: it tries both deletions and
    returns. *)
Lemma run_resolve_conflicts (w : world) :
  resolve_conflicts w
  = (Ret tt,
     mkWorld (cwd_writable w)
       (set_entry "vexos" (fst (remove_tree (cwd_writable w) (target w)))
          (set_entry "vexos.vexos"
             (fst (remove_file (cwd_writable w) (artifact w))) (cwd w)))
       (remote w)
       (trace w ++ [ERemove "vexos.vexos"; ERmtree "vexos"])).
Proof.
  unfold resolve_conflicts.
  erewrite bind_ret.
  2:{ rewrite try_pass; [reflexivity|].
      rewrite run_os_remove_top. apply remove_file_result. }
  rewrite try_pass.
  2:{ rewrite run_shutil_rmtree_top. apply remove_tree_result. }
  rewrite !run_shutil_rmtree_top, !run_os_remove_top. cbn [snd fst].
  unfold target at 1. cbn [cwd cwd_writable remote trace].
  change (components "vexos") with ["vexos"]. rewrite lookup_single.
  rewrite assoc_set_entry_other by discriminate.
  rewrite <- target_assoc, <- app_assoc. reflexivity.
Qed.

(** ** Conflicts *)

(** C4, the claim as stated fails: the working directory does not allow
    the artifact to be removed; [os.remove] raises on the existing path,
    and [resolve_conflicts] returns as if nothing had happened, the
    artifact still in place. *)
Lemma resolve_conflicts_hides_failed_deletion :
  artifact_exists (readonly_world (mkVersion 1 0 0 0) (mkVersion 1 0 0 1)) = true
  /\ fst (os_remove "vexos.vexos"
            (readonly_world (mkVersion 1 0 0 0) (mkVersion 1 0 0 1)))
     = Raise OSError
  /\ fst (resolve_conflicts (readonly_world (mkVersion 1 0 0 0) (mkVersion 1 0 0 1)))
     = Ret tt
  /\ artifact_exists
       (snd (resolve_conflicts
               (readonly_world (mkVersion 1 0 0 0) (mkVersion 1 0 0 1))))
     = true.
Proof. repeat split; reflexivity. Qed.

(** C4, amended.  [resolve_conflicts] tries to delete the staged artifact
    and to wipe the install target and swallows the failure of either
    deletion, be the path absent or present: it never raises.  An artifact
    that is a file in a working directory that allows removals is gone
    afterwards; any other artifact path is left exactly as it was.  A
    target that is a directory whose whole tree can be removed, in a
    working directory that allows removals, is gone afterwards; a target
    whose deletion fails (a file, a tree in which a directory keeps an
    entry, or a working directory that does not allow the removal) is
    still in place afterwards, a tree possibly emptied in part. *)
Theorem resolve_conflicts_never_raises (w : world) :
  fst (resolve_conflicts w) = Ret tt
  /\ (artifact_is_file w = true -> cwd_writable w = true ->
      artifact (snd (resolve_conflicts w)) = None)
  /\ (artifact_is_file w && cwd_writable w = false ->
      artifact (snd (resolve_conflicts w)) = artifact w)
  /\ (target_removable w = true ->
      target (snd (resolve_conflicts w)) = None)
  /\ (forall n, target w = Some n -> target_removable w = false ->
      exists n',
        target (snd (resolve_conflicts w)) = Some n'
        /\ match n with
           | File _ _ _ => n' = n
           | Dir dw _ => exists es', n' = Dir dw es'
           end).
Proof.
  rewrite run_resolve_conflicts. cbn [fst snd].
  rewrite !artifact_assoc, !target_assoc. cbn [cwd].
  rewrite assoc_set_entry_other by discriminate.
  rewrite !assoc_set_entry_same.
  unfold artifact_is_file, target_removable.
  rewrite artifact_assoc, target_assoc.
  split; [reflexivity|]. split; [|split; [|split]].
  - intros Hf Hw. rewrite Hw.
    destruct (assoc "vexos.vexos" (cwd w)) as [[r wr c|dw es]|];
      try discriminate. reflexivity.
  - intros H.
    destruct (assoc "vexos.vexos" (cwd w)) as [[r wr c|dw es]|];
      try reflexivity.
    cbn in H. now rewrite H.
  - intros H.
    destruct (assoc "vexos" (cwd w)) as [[r wr c|dw es]|]; try discriminate.
    apply andb_true_iff in H as [Hr Hw]. rewrite Hw.
    unfold remove_tree. now rewrite (remove_node_removable true dw es Hr).
  - intros n Hn H. rewrite Hn in *. clear Hn.
    destruct n as [r wr c|dw es]; [now eexists|].
    unfold remove_tree.
    destruct (removable (Dir dw es)) eqn:Hr.
    + cbn in H. rewrite H, (remove_node_removable false dw es Hr).
      eexists. split; [reflexivity | now eexists].
    + destruct (remove_node_not_removable (cwd_writable w) _ Hr) as [n' Hn'].
      rewrite Hn'. exists n'. split; [reflexivity|].
      exact (remove_node_stays _ _ _ _ Hn').
Qed.

(** A tree with a directory that keeps its entry: the removal fails
    there, [resolve_conflicts] returns all the same, and the target is
    still in place. *)
Example resolve_conflicts_keeps_protected_tree :
  resolve_conflicts
    (mkWorld true
       [("vexos", Dir true [("logs", Dir false [("run.log", File true true Binary)])])]
       offline [])
  = (Ret tt,
     mkWorld true
       [("vexos", Dir true [("logs", Dir false [("run.log", File true true Binary)])])]
       offline [ERemove "vexos.vexos"; ERmtree "vexos"]).
Proof. reflexivity. Qed.


Lemma run_package_already_downloaded (w : world) :
  package_already_downloaded w = (Ret (artifact_readable w), w).
Proof.
  unfold package_already_downloaded, try_except, bind, open_rb,
    artifact_readable, artifact.
  now destruct (lookup (components "vexos.vexos") (cwd w)) as [[[|] wr c|dw es]|].
Qed.

(** Without force, a readable artifact ends the run at the conflict
    check. *)
Lemma conflict_check_skips (version : string) (installed_version : json)
    (w : world) :
  artifact_readable w = true ->
  install_from_conflict_check false version installed_version w
  = (Ret tt, logged w [EPrint "Checking for conflicts...";
                       EPrint "VexOS package already downloaded.";
                       EPrint "Please delete the file and try again."]).
Proof.
  intros H. unfold install_from_conflict_check.
  step_print.
  erewrite bind_ret by apply run_package_already_downloaded.
  change (artifact_readable (logged w ?e)) with (artifact_readable w).
  rewrite H. cbn [negb].
  step_print.
  now rewrite run_print, !logged_logged.
Qed.

(** With force, a readable artifact has [resolve_conflicts] run, and the
    installation goes on from the world it leaves. *)
Lemma conflict_check_resolves (version : string) (installed_version : json)
    (w : world) :
  artifact_readable w = true ->
  install_from_conflict_check true version installed_version w
  = install_steps version installed_version (after_resolve w).
Proof.
  intros H. unfold install_from_conflict_check, after_resolve.
  step_print.
  erewrite bind_ret by apply run_package_already_downloaded.
  change (artifact_readable (logged w ?e)) with (artifact_readable w).
  rewrite H. cbn [negb].
  step_print.
  step_print.
  rewrite !logged_logged. cbn [app].
  erewrite bind_ret by apply run_resolve_conflicts.
  now rewrite run_resolve_conflicts.
Qed.

Lemma call_is_outdated_str (installed_version : json) (version : string)
    (b : bool) :
  call_is_outdated installed_version version = Ret b ->
  exists current, installed_version = JStr current.
Proof.
  destruct installed_version; try discriminate. intros _. now eexists.
Qed.

(** Without force and with a readable artifact, the staleness check and
    what follows print and stop. *)
Lemma outdated_check_stops (version : string) (installed_version : json)
    (w : world) :
  artifact_readable w = true ->
  exists r evs,
    install_from_outdated_check false version installed_version w
    = (r, logged w evs)
    /\ forallb planning_event evs = true
    /\ (r = Ret tt ->
        exists evs0 line,
          evs = (evs0 ++ [EPrint line])%list
          /\ (line = "Your VexOS installation is up to date."
              \/ line = "Please delete the file and try again.")).
Proof.
  intros H. unfold install_from_outdated_check.
  destruct (is_not_None installed_version).
  - destruct (call_is_outdated installed_version version) as [[|]|e] eqn:E;
      unfold bind, lift; cbn [andb negb].
    + destruct (call_is_outdated_str _ _ _ E) as [current ->]. cbn [str_add].
      rewrite run_print, conflict_check_skips, logged_logged by exact H.
      do 2 eexists. split; [reflexivity|]. split; [reflexivity|].
      intros _. eexists [_; _; _], _. split; [reflexivity | now right].
    + rewrite run_print. do 2 eexists. split; [reflexivity|].
      split; [reflexivity|]. intros _.
      exists [], "Your VexOS installation is up to date.".
      split; [reflexivity | now left].
    + exists (Raise e), []. rewrite logged_nil. repeat split. discriminate.
  - erewrite bind_ret by apply run_print.
    step_print.
    rewrite conflict_check_skips, !logged_logged by exact H.
    do 2 eexists. split; [reflexivity|]. split; [reflexivity|].
    intros _. eexists [_; _; _; _], _. split; [reflexivity | now right].
Qed.

Lemma read_installed_version_pure (w : world) :
  snd (read_installed_version w) = w.
Proof.
  rewrite read_installed_version_spec.
  destruct (manifest w) as [[[|] wr c|dw es]|]; try reflexivity.
  destruct (decode c) as [[|[|b|n|s|l|items]]|];
    try destruct (assoc "version" items); reflexivity.
Qed.

(** C6.  The claim, like the comment of [package_already_downloaded]
    ("Check if File Exists"), takes every artifact file that exists for a
    conflict; the code tests whether the file can be opened for reading.
    An artifact that exists without read permission is therefore no
    conflict for the code: without force the run does not stop, it
    requests the package, overwrites the artifact, prints no request to
    delete it, and fails at the extraction, which cannot read the file
    either.  For an artifact that can be opened for reading the conflict
    check does what is asked of it, see [staged_artifact_is_conflict]
    below. *)
Lemma unreadable_artifact_is_no_conflict :
  artifact_exists (unreadable_artifact_world (mkVersion 1 0 0 1)) = true
  /\ fst (package_already_downloaded (unreadable_artifact_world (mkVersion 1 0 0 1)))
     = Ret false
  /\ fst (install_vexos false None
            (unreadable_artifact_world (mkVersion 1 0 0 1))) = Raise TypeError
  /\ requested (package_url "VEXOS_V5_1_0_0_1")
       (snd (install_vexos false None
               (unreadable_artifact_world (mkVersion 1 0 0 1)))) = true
  /\ printed "Please delete the file and try again."
       (snd (install_vexos false None
               (unreadable_artifact_world (mkVersion 1 0 0 1)))) = false
  /\ artifact (snd (install_vexos false None
                      (unreadable_artifact_world (mkVersion 1 0 0 1))))
     = Some (File false true (package "1.0.0.1")).
Proof. repeat split; reflexivity. Qed.

(** An artifact that can be opened for reading at planning time is a
    conflict whatever the state of the install target.  Without
    force the run fetches no package and leaves the disk alone: it only
    prints and, for the latest version, queries the catalog; when it
    returns, it has stopped as up to date or at the conflict, and otherwise
    it has raised while planning.  With force, the conflict check has
    [resolve_conflicts] run before the download, and the artifact is gone
    after it where the working directory allows removals. *)
Theorem staged_artifact_is_conflict (version : option string) (v : string)
    (installed_version : json) (w : world) :
  artifact_readable w = true ->
  (exists r evs,
      install_vexos false version w = (r, logged w evs)
      /\ forallb planning_event evs = true
      /\ (r = Ret tt ->
          exists evs0 line,
            evs = (evs0 ++ [EPrint line])%list
            /\ (line = "Your VexOS installation is up to date."
                \/ line = "Please delete the file and try again.")))
  /\ (install_from_conflict_check true v installed_version w
      = install_steps v installed_version (after_resolve w)
      /\ trace (after_resolve w)
         = (trace w ++ [EPrint "Checking for conflicts...";
                        EPrint "VexOS package already downloaded.";
                        EPrint "Conflicts found. Deleting old files...";
                        ERemove "vexos.vexos"; ERmtree "vexos"])%list
      /\ (cwd_writable w = true -> artifact (after_resolve w) = None)).
Proof.
  intros H. split.
  - unfold install_vexos.
    destruct (resolve_version_planning version w) as (r1 & evs1 & Hr & Hp1).
    destruct r1 as [v'|e].
    2:{ exists (Raise e), evs1. rewrite (bind_raise _ _ _ _ _ Hr).
        repeat split; [assumption | discriminate]. }
    rewrite (bind_ret _ _ _ _ _ Hr).
    pose proof (read_installed_version_pure (logged w evs1)) as Hread.
    destruct (read_installed_version (logged w evs1)) as [[inst|e] w'] eqn:E;
      cbn in Hread; subst w'.
    2:{ exists (Raise e), evs1. rewrite (bind_raise _ _ _ _ _ E).
        repeat split; [assumption | discriminate]. }
    rewrite (bind_ret _ _ _ _ _ E).
    destruct (outdated_check_stops v' inst (logged w evs1) H)
      as (r & evs2 & Hrun & Hp2 & Hskip).
    exists r, (evs1 ++ evs2)%list. rewrite Hrun, logged_logged.
    split; [reflexivity|]. split.
    + rewrite forallb_app, Hp1, Hp2. reflexivity.
    + intros Hret. destruct (Hskip Hret) as (evs0 & line & -> & Hline).
      exists (evs1 ++ evs0)%list, line. now rewrite app_assoc.
  - split; [now apply conflict_check_resolves|].
    unfold after_resolve.
    rewrite run_resolve_conflicts. cbn [snd trace logged].
    split; [now rewrite <- app_assoc|].
    intros Hw. unfold artifact_readable in H.
    rewrite artifact_assoc. cbn [cwd cwd_writable logged].
    rewrite assoc_set_entry_other by discriminate.
    rewrite assoc_set_entry_same, Hw.
    change (artifact (logged w ?e)) with (artifact w).
    destruct (artifact w) as [[[|] wr c|dw es]|]; try discriminate. reflexivity.
Qed.

Lemma staged_artifact_is_conflict_witness :
  (exists r evs,
      install_vexos false None (stale_artifact_world (mkVersion 1 0 0 1))
      = (r, logged (stale_artifact_world (mkVersion 1 0 0 1)) evs)
      /\ forallb planning_event evs = true
      /\ (r = Ret tt ->
          exists evs0 line,
            evs = (evs0 ++ [EPrint line])%list
            /\ (line = "Your VexOS installation is up to date."
                \/ line = "Please delete the file and try again.")))
  /\ (install_from_conflict_check true "VEXOS_V5_1_0_0_1" JNull
        (stale_artifact_world (mkVersion 1 0 0 1))
      = install_steps "VEXOS_V5_1_0_0_1" JNull
          (after_resolve (stale_artifact_world (mkVersion 1 0 0 1)))
      /\ trace (after_resolve (stale_artifact_world (mkVersion 1 0 0 1)))
         = (trace (stale_artifact_world (mkVersion 1 0 0 1))
              ++ [EPrint "Checking for conflicts...";
                  EPrint "VexOS package already downloaded.";
                  EPrint "Conflicts found. Deleting old files...";
                  ERemove "vexos.vexos"; ERmtree "vexos"])%list
      /\ (cwd_writable (stale_artifact_world (mkVersion 1 0 0 1)) = true ->
          artifact (after_resolve (stale_artifact_world (mkVersion 1 0 0 1)))
          = None)).
Proof.
  apply (staged_artifact_is_conflict None "VEXOS_V5_1_0_0_1" JNull
           (stale_artifact_world (mkVersion 1 0 0 1))).
  reflexivity.
Defined.

(** ** The manifest *)



(** Bytes in the place of the manifest: those of the archive without a
    member decode and are no JSON, those of [Binary] do not decode. *)
Example manifest_of_other_bytes :
  fst (read_installed_version
         (mkWorld true
            [("vexos", Dir true [("manifest.json", File true true EmptyZip)])]
            offline []))
  = Raise TypeError
  /\ fst (read_installed_version
            (mkWorld true
               [("vexos", Dir true [("manifest.json", File true true Binary)])]
               offline []))
     = Raise UnicodeDecodeError.
Proof. split; reflexivity. Qed.


(** ** The staleness check *)

(** When [is_outdated] answers [False] and force is off, the run stops as
    up to date, the disk untouched. *)
Lemma not_outdated_skips (version : string) (installed_version : json)
    (w : world) :
  call_is_outdated installed_version version = Ret false ->
  install_from_outdated_check false version installed_version w
  = (Ret tt, logged w [EPrint "Your VexOS installation is up to date."]).
Proof.
  intros H. destruct (call_is_outdated_str _ _ _ H) as [current ->].
  unfold install_from_outdated_check. cbn [is_not_None].
  unfold bind, lift. rewrite H. reflexivity.
Qed.

(** The examples of the specification: 1.0.0.1 offered to 1.0.0.0 is
    installed, 1.0.0.0 offered to 1.0.0.1 is not. *)
Example newer_build_is_installed :
  fst (install_vexos false None
         (installed_world (mkVersion 1 0 0 0) (mkVersion 1 0 0 1))) = Ret tt
  /\ manifest (snd (install_vexos false None
                      (installed_world (mkVersion 1 0 0 0) (mkVersion 1 0 0 1))))
     = Some (manifest_file "1.0.0.1").
Proof. split; vm_compute; reflexivity. Qed.

(** A fresh system and the latest version: the run ends with the target
    populated, its manifest at the version of the catalog, and no artifact
    left. *)
Example fresh_install :
  fst (install_vexos false None (fresh_world (mkVersion 1 0 13 0))) = Ret tt
  /\ manifest (snd (install_vexos false None (fresh_world (mkVersion 1 0 13 0))))
     = Some (manifest_file "1.0.13.0")
  /\ artifact (snd (install_vexos false None (fresh_world (mkVersion 1 0 13 0))))
     = None.
Proof. repeat split; vm_compute; reflexivity. Qed.

Example older_build_is_skipped :
  install_vexos false None (installed_world (mkVersion 1 0 0 1) (mkVersion 1 0 0 0))
  = (Ret tt,
     logged (installed_world (mkVersion 1 0 0 1) (mkVersion 1 0 0 0))
       [EPrint "Getting Latest Version..."; EGet vexos_catalog_url;
        EPrint "Latest Version: 1.0.0.0";
        EPrint "Your VexOS installation is up to date."]).
Proof. vm_compute. reflexivity. Qed.

(** C7.  The staleness check inherits the comparison of C1.  With 1.9.0.0
    installed, the newer 1.10.0.0 in the catalog and no force, the run
    stops as up to date where the claim has it proceed; with 1.10.0.0
    installed and the older 1.9.0.0 in the catalog, it installs the older
    version where the claim has it skip. *)
Theorem staleness_check_compares_as_text :
  (spec_isOutdated (mkVersion 1 9 0 0) (mkVersion 1 10 0 0) = true
   /\ install_vexos false None
        (installed_world (mkVersion 1 9 0 0) (mkVersion 1 10 0 0))
      = (Ret tt,
         logged (installed_world (mkVersion 1 9 0 0) (mkVersion 1 10 0 0))
           [EPrint "Getting Latest Version..."; EGet vexos_catalog_url;
            EPrint "Latest Version: 1.10.0.0";
            EPrint "Your VexOS installation is up to date."]))
  /\ (spec_isOutdated (mkVersion 1 10 0 0) (mkVersion 1 9 0 0) = false
      /\ fst (install_vexos false None
                (installed_world (mkVersion 1 10 0 0) (mkVersion 1 9 0 0)))
         = Ret tt
      /\ requested (package_url "VEXOS_V5_1_9_0_0")
           (snd (install_vexos false None
                   (installed_world (mkVersion 1 10 0 0) (mkVersion 1 9 0 0))))
         = true
      /\ manifest
           (snd (install_vexos false None
                   (installed_world (mkVersion 1 10 0 0) (mkVersion 1 9 0 0))))
         = Some (manifest_file "1.9.0.0")).
Proof. repeat split; vm_compute; reflexivity. Qed.

(** ** The cleanup *)

Lemma remove_file_fails (w : bool) (e : option node) (x : exn) :
  snd (remove_file w e) = Raise x ->
  fst (remove_file w e) = e /\ x = OSError.
Proof.
  destruct e as [[r wr c|dw es]|], w; cbn; try discriminate;
    now intros [= <-].
Qed.

(** A removal of the artifact that fails leaves the disk as it was. *)
Lemma run_os_remove_fails (w : world) (x : exn) (evs : list event) :
  fst (os_remove "vexos.vexos" w) = Raise x ->
  os_remove "vexos.vexos" (logged w evs)
  = (Raise x, logged w (evs ++ [ERemove "vexos.vexos"]))
  /\ x = OSError.
Proof.
  rewrite !run_os_remove_top. cbn [fst].
  change (artifact (logged w evs)) with (artifact w).
  cbn [cwd cwd_writable remote trace logged].
  intros H. destruct (remove_file_fails _ _ _ H) as [Hsame ->].
  rewrite H, Hsame, artifact_assoc, set_entry_same.
  now rewrite <- app_assoc.
Qed.

(** C2, the claim as stated fails: the working directory does not allow
    the artifact to be removed.  The run downloads and extracts the new
    version, reaches the cleanup, and raises there: no summary. *)
Lemma cleanup_failure_fails_the_install :
  fst (install_vexos true None
         (readonly_world (mkVersion 1 0 0 0) (mkVersion 1 0 0 1)))
  = Raise OSError
  /\ manifest (snd (install_vexos true None
                      (readonly_world (mkVersion 1 0 0 0) (mkVersion 1 0 0 1))))
     = Some (manifest_file "1.0.0.1")
  /\ printed "Cleaning up..."
       (snd (install_vexos true None
               (readonly_world (mkVersion 1 0 0 0) (mkVersion 1 0 0 1)))) = true
  /\ printed "VexOS successfully installed."
       (snd (install_vexos true None
               (readonly_world (mkVersion 1 0 0 0) (mkVersion 1 0 0 1)))) = false.
Proof. repeat split; vm_compute; reflexivity. Qed.

(** C2, amended.  The cleanup is not best-effort.  For every run that
    reaches the cleanup, a failure to delete the artifact is raised to the
    caller as the [OSError] it is: the run ends at the failed removal,
    before "Cleaned up." and the summary, with the disk as the extraction
    left it. *)
Theorem cleanup_failure_aborts (version : string) (installed_version : json)
    (w w1 : world) (x : exn) :
  fetch_and_extract version w = (Ret tt, w1) ->
  fst (os_remove "vexos.vexos" w1) = Raise x ->
  install_steps version installed_version w
  = (Raise OSError,
     logged w1 [EPrint "Cleaning up..."; ERemove "vexos.vexos"])
  /\ x = OSError.
Proof.
  intros Hrun Hrm.
  destruct (run_os_remove_fails w1 x [EPrint "Cleaning up..."] Hrm) as [H ->].
  split; [|reflexivity].
  unfold install_steps. rewrite (bind_ret _ _ _ _ _ Hrun).
  unfold cleanup_and_summary.
  step_print.
  now rewrite (bind_raise _ _ _ _ _ H).
Qed.

Lemma cleanup_failure_aborts_witness :
  install_steps "VEXOS_V5_1_0_0_1" (JStr "1.0.0.0")
    (readonly_world (mkVersion 1 0 0 0) (mkVersion 1 0 0 1))
  = (Raise OSError,
     logged (snd (fetch_and_extract "VEXOS_V5_1_0_0_1"
                    (readonly_world (mkVersion 1 0 0 0) (mkVersion 1 0 0 1))))
       [EPrint "Cleaning up..."; ERemove "vexos.vexos"])
  /\ OSError = OSError.
Proof.
  apply (cleanup_failure_aborts "VEXOS_V5_1_0_0_1" (JStr "1.0.0.0")
           (readonly_world (mkVersion 1 0 0 0) (mkVersion 1 0 0 1))
           (snd (fetch_and_extract "VEXOS_V5_1_0_0_1"
                   (readonly_world (mkVersion 1 0 0 0) (mkVersion 1 0 0 1))))
           OSError).
  - vm_compute. reflexivity.
  - vm_compute. reflexivity.
Defined.

(** ** The extraction *)

Lemma raises_only_bind {A B : Type} (e0 : exn) (m : M A) (k : A -> M B) :
  raises_only e0 m -> (forall a, raises_only e0 (k a)) ->
  raises_only e0 (bind m k).
Proof.
  intros Hm Hk w e. unfold bind.
  destruct (m w) as [[a|e'] w'] eqn:E.
  - apply Hk.
  - cbn. intros [= <-]. apply (Hm w). rewrite E. reflexivity.
Qed.

Lemma raises_only_log (e0 : exn) (ev : event) : raises_only e0 (log ev).
Proof. intros w e. discriminate. Qed.

Lemma raises_only_for_each {A : Type} (e0 : exn) (l : list A)
    (body : A -> M unit) :
  (forall x, raises_only e0 (body x)) -> raises_only e0 (for_each l body).
Proof.
  intros Hb. induction l as [|x l IH]; cbn [for_each].
  - intros w e. discriminate.
  - apply raises_only_bind; auto.
Qed.

Lemma at_path_raises {A : Type} (p : list string) (pw : bool) (es : entries)
    (k : bool -> option node -> option node * result A) (e : exn) :
  (forall w o x, snd (k w o) = Raise x -> x = OSError) ->
  snd (at_path p pw es k) = Raise e -> e = OSError.
Proof.
  intros Hk. revert pw es.
  induction p as [|name p IH]; intros pw es; cbn [at_path].
  - now intros [= <-].
  - destruct p as [|name' p'].
    + specialize (Hk pw (assoc name es)).
      destruct (k pw (assoc name es)) as [o r]. cbn in *. apply Hk.
    + destruct (assoc name es) as [[r wr c|dw' es']|]; try (now intros [= <-]).
      specialize (IH dw' es').
      destruct (at_path (name' :: p') dw' es' k) as [es2 r]. apply IH.
Qed.

Lemma raises_only_change {A : Type} (path : string)
    (k : bool -> option node -> option node * result A) :
  (forall w o x, snd (k w o) = Raise x -> x = OSError) ->
  raises_only OSError (change path k).
Proof.
  intros Hk w e. unfold change.
  pose proof (at_path_raises (components path) (cwd_writable w) (cwd w) k e Hk) as H.
  destruct (at_path (components path) (cwd_writable w) (cwd w) k) as [es r].
  exact H.
Qed.

Lemma raises_only_os_listdir (path : string) :
  raises_only OSError (os_listdir path).
Proof.
  intros w e. unfold os_listdir.
  destruct (lookup (components path) (cwd w)) as [[r wr c|dw es]|]; cbn;
    try discriminate; now intros [= <-].
Qed.

Lemma raises_only_shutil_rmtree (path : string) :
  raises_only OSError (shutil_rmtree path).
Proof.
  apply raises_only_bind; [apply raises_only_log|]. intros _.
  apply raises_only_change. intros w o x H.
  destruct (remove_tree_result w o) as [E|E]; rewrite E in H; congruence.
Qed.

Lemma raises_only_shutil_move (src dst : string) :
  raises_only OSError (shutil_move src dst).
Proof.
  apply raises_only_bind; [apply raises_only_log|]. intros _ w e.
  cbv beta zeta.
  destruct (lookup (components dst) (cwd w)) as [[r wr c|ddw des]|];
    try (cbn; now intros [= <-]).
  destruct (lookup (components src) (cwd w)) as [n|];
    [|cbn; now intros [= <-]].
  destruct (assoc (last (components src) "") des); [cbn; now intros [= <-]|].
  destruct (parent_writable (components src) w && ddw && movable n);
    [|cbn; now intros [= <-]].
  apply raises_only_bind; [|intros _]; apply raises_only_change;
    cbn; discriminate.
Qed.

Lemma rmtree_phase (w : world) :
  target_available w = true ->
  exists w0,
    try_except (shutil_rmtree "vexos") IOError pass w = (Ret tt, w0)
    /\ artifact w0 = artifact w
    /\ cwd_writable w0 = cwd_writable w
    /\ ((target w0 = None /\ cwd_writable w0 = true)
        \/ exists dw, target w0 = Some (Dir dw []) /\ cwd_writable w0 = false).
Proof.
  intros H. eexists. split.
  { rewrite try_pass; [reflexivity|].
    rewrite run_shutil_rmtree_top. apply remove_tree_result. }
  rewrite run_shutil_rmtree_top. cbn [snd].
  rewrite !artifact_assoc, !target_assoc. cbn [cwd cwd_writable].
  rewrite assoc_set_entry_other by discriminate.
  rewrite assoc_set_entry_same.
  split; [reflexivity|]. split; [reflexivity|].
  unfold target_available in H. rewrite target_assoc in H.
  destruct (assoc "vexos" (cwd w)) as [[r wr c|dw es]|]; try discriminate.
  - unfold remove_tree. rewrite (remove_node_removable _ dw es H).
    destruct (cwd_writable w); cbn; eauto.
  - rewrite H. cbn. auto.
Qed.

(** Unpacking from scratch is unpacking on top of an empty directory
    that is writable. *)
Lemma unpack_node_empty (pw dz : bool) (zs : entries) :
  unpack_node true (Dir dz zs) None
  = unpack_node pw (Dir dz zs) (Some (Dir true [])).
Proof. reflexivity. Qed.

Lemma unpack_phase (w0 : world) (wr : bool) (zs : entries) :
  artifact w0 = Some (File true wr (Zip zs)) ->
  ((target w0 = None /\ cwd_writable w0 = true)
   \/ exists dw, target w0 = Some (Dir dw []) /\ cwd_writable w0 = false) ->
  exists w1 dw,
    shutil_unpack_archive "vexos.vexos" "vexos" w0
    = ((if snd (unpack_node true (Dir true zs) (Some (Dir dw [])))
        then Ret tt else Raise OSError), w1)
    /\ target w1 = fst (unpack_node true (Dir true zs) (Some (Dir dw [])))
    /\ artifact w1 = artifact w0
    /\ cwd_writable w1 = cwd_writable w0
    /\ (target w0 = None -> dw = true).
Proof.
  intros Ha Ht.
  assert (Hk : exists dw,
             unpack_to zs (cwd_writable w0) (target w0)
             = (fst (unpack_node true (Dir true zs) (Some (Dir dw []))),
                if snd (unpack_node true (Dir true zs) (Some (Dir dw [])))
                then Ret tt else Raise OSError)
             /\ (target w0 = None -> dw = true)).
  { destruct Ht as [[-> ->]|(dw & -> & _)]; unfold unpack_to.
    - exists true. rewrite (unpack_node_empty true).
      split; [|reflexivity].
      now destruct (unpack_node true (Dir true zs) (Some (Dir true []))).
    - exists dw. split; [|discriminate].
      change (unpack_node (cwd_writable w0) (Dir true zs) (Some (Dir dw [])))
        with (unpack_node true (Dir true zs) (Some (Dir dw []))).
      now destruct (unpack_node true (Dir true zs) (Some (Dir dw []))). }
  destruct Hk as (dw & Hk & Hdw).
  unfold shutil_unpack_archive.
  erewrite bind_ret by reflexivity.
  change (lookup (components "vexos.vexos") (cwd (logged w0 ?e)))
    with (artifact w0).
  rewrite Ha, (run_change_top _ "vexos") by reflexivity.
  cbn [cwd cwd_writable logged]. rewrite <- target_assoc, Hk. cbn [fst snd].
  eexists. exists dw. split; [reflexivity|].
  rewrite target_assoc, !artifact_assoc. cbn [cwd cwd_writable].
  rewrite assoc_set_entry_same, assoc_set_entry_other by discriminate.
  repeat split; try reflexivity; try exact Hdw.
  now rewrite <- artifact_assoc.
Qed.

Lemma unpack_node_single (pw dz dw : bool) (name : string) (z : node) :
  unpack_node pw (Dir dz [(name, z)]) (Some (Dir dw []))
  = (Some (Dir dw (set_entry name (fst (unpack_node dw z None)) [])),
     snd (unpack_node dw z None)).
Proof.
  cbn. destruct (unpack_node dw z None) as [e ok]. now destruct ok.
Qed.

Lemma unpack_node_dir (pw dz : bool) (zs : entries) (old : option node) :
  (exists dw es, fst (unpack_node pw (Dir dz zs) old) = Some (Dir dw es))
  \/ snd (unpack_node pw (Dir dz zs) old) = false.
Proof.
  cbn. destruct old as [[r wr c|dw es]|]; [now right| |].
  - match goal with
    | |- context [let (_, _) := ?x in _] => destruct x as [es' ok]
    end; left; now do 2 eexists.
  - destruct pw; [|now right].
    match goal with
    | |- context [let (_, _) := ?x in _] => destruct x as [es' ok]
    end; left; now do 2 eexists.
Qed.

(** The flattening from its second listing on, lines 58-61. *)
Lemma flatten_rest_raises (path : string) :
  raises_only OSError
    (files <- os_listdir path ;;
     for_each files (fun file => shutil_move (os_path_join path file) "vexos") ;;
     shutil_rmtree path).
Proof.
  apply raises_only_bind; [apply raises_only_os_listdir|]. intros files.
  apply raises_only_bind; [|intros _; apply raises_only_shutil_rmtree].
  apply raises_only_for_each. intros file. apply raises_only_shutil_move.
Qed.

Lemma run_os_listdir_target (w : world) (dw : bool) (es : entries) :
  target w = Some (Dir dw es) ->
  os_listdir "vexos" w = (Ret (map fst es), w).
Proof.
  intros H. unfold os_listdir. fold (target w). now rewrite H.
Qed.

Lemma try_unpack (ok : bool) (w0 w1 : world) (msg : string) :
  shutil_unpack_archive "vexos.vexos" "vexos" w0
  = ((if ok then Ret tt else Raise OSError), w1) ->
  try_except (shutil_unpack_archive "vexos.vexos" "vexos") IOError
    (raise_strM msg) w0
  = ((if ok then Ret tt else Raise TypeError), w1).
Proof.
  intros H. unfold try_except. rewrite H. now destruct ok.
Qed.

(** C9.  With the artifact in place and the target a directory that can
    be emptied or missing where it can be made: an archive that unpacks to
    an empty directory makes [extract_vexos] raise [IndexError], at the
    indexing of the first entry; an archive whose top level is a single
    directory gets past the indexing, and the extraction returns or raises
    another error ([OSError] from the moves, [TypeError] from a failed
    unpacking). *)
Theorem extract_vexos_first_entry (w : world) (wr : bool) (zs : entries) :
  artifact w = Some (File true wr (Zip zs)) ->
  target_available w = true ->
  (zs = [] -> fst (extract_vexos w) = Raise IndexError)
  /\ (forall name dz children,
         zs = [(name, Dir dz children)] ->
         fst (extract_vexos w) <> Raise IndexError
         /\ (fst (extract_vexos w) = Ret tt
             \/ fst (extract_vexos w) = Raise OSError
             \/ fst (extract_vexos w) = Raise TypeError)).
Proof.
  intros Ha Ht.
  destruct (rmtree_phase w Ht) as (w0 & Hrm & Ha0 & _ & Ht0).
  rewrite <- Ha0 in Ha.
  destruct (unpack_phase w0 wr zs Ha Ht0) as (w1 & dw & Hun & Ht1 & _).
  apply (try_unpack _ _ _
           "ERROR: Failed to extract VexOS. Please check your permissions.")
    in Hun.
  unfold extract_vexos. rewrite (bind_ret _ _ _ _ _ Hrm).
  split.
  - intros ->.
    change (unpack_node true (Dir true []) (Some (Dir dw [])))
      with (Some (Dir dw []), true) in Hun, Ht1.
    cbn [fst snd] in Hun, Ht1.
    rewrite (bind_ret _ _ _ _ _ Hun).
    unfold flatten_vexos.
    erewrite bind_ret by (eapply run_os_listdir_target; eassumption).
    reflexivity.
  - intros name dz children ->.
    rewrite unpack_node_single in Hun, Ht1. cbn [fst snd] in Hun, Ht1.
    destruct (unpack_node_dir dw dz children None) as [(dw' & es & Hes)|Hfail].
    + destruct (snd (unpack_node dw (Dir dz children) None)).
      * rewrite (bind_ret _ _ _ _ _ Hun).
        rewrite Hes in Ht1. cbn in Ht1.
        unfold flatten_vexos.
        erewrite bind_ret by (eapply run_os_listdir_target; eassumption).
        cbn [map fst]. erewrite bind_ret by reflexivity.
        cbv beta zeta.
        pose proof (flatten_rest_raises (os_path_join "vexos" name) w1) as Hr.
        match type of Hr with
        | forall e, ?x = _ -> _ => destruct x as [[]|e] eqn:Ef
        end; [split; [discriminate | auto]|].
        rewrite (Hr e eq_refl). split; [discriminate | auto].
      * rewrite (bind_raise _ _ _ _ _ Hun).
        split; [discriminate | auto].
    + rewrite Hfail in Hun.
      rewrite (bind_raise _ _ _ _ _ Hun).
      split; [discriminate | auto].
Qed.

Lemma extract_vexos_first_entry_witness :
  fst (extract_vexos (staged_world [])) = Raise IndexError
  /\ (fst (extract_vexos
             (staged_world [("VEXOS_V5", Dir true [("boot.bin", File true true Binary)])]))
      <> Raise IndexError
      /\ (fst (extract_vexos
                 (staged_world [("VEXOS_V5", Dir true [("boot.bin", File true true Binary)])]))
          = Ret tt
          \/ fst (extract_vexos
                    (staged_world [("VEXOS_V5", Dir true [("boot.bin", File true true Binary)])]))
             = Raise OSError
          \/ fst (extract_vexos
                    (staged_world [("VEXOS_V5", Dir true [("boot.bin", File true true Binary)])]))
             = Raise TypeError)).
Proof.
  split.
  - refine (proj1 (extract_vexos_first_entry (staged_world []) true [] _ _) _);
      reflexivity.
  - refine (proj2 (extract_vexos_first_entry
                     (staged_world [("VEXOS_V5", Dir true [("boot.bin", File true true Binary)])])
                     true [("VEXOS_V5", Dir true [("boot.bin", File true true Binary)])] _ _)
                  "VEXOS_V5" true [("boot.bin", File true true Binary)] _);
      reflexivity.
Defined.

(** * More of the code *)

(** ** The order of [is_outdated] *)

Lemma ascii_compare_trans (a b c : ascii) :
  Ascii.compare a b = Lt -> Ascii.compare b c = Lt -> Ascii.compare a c = Lt.
Proof.
  unfold Ascii.compare. rewrite !BinNat.N.compare_lt_iff.
  apply BinNat.N.lt_trans.
Qed.

Lemma string_compare_trans (a b c : string) :
  String.compare a b = Lt -> String.compare b c = Lt -> String.compare a c = Lt.
Proof.
  revert b c. induction a as [|x a IH]; intros [|y b] [|z c]; cbn;
    try discriminate; try reflexivity.
  destruct (Ascii.compare x y) eqn:Exy; try discriminate;
    destruct (Ascii.compare y z) eqn:Eyz; try discriminate; intros Hab Hbc.
  - apply Ascii.compare_eq_iff in Exy, Eyz. subst.
    rewrite ascii_compare_refl. now apply (IH b c).
  - apply Ascii.compare_eq_iff in Exy. subst. now rewrite Eyz.
  - apply Ascii.compare_eq_iff in Eyz. subst. now rewrite Exy.
  - now rewrite (ascii_compare_trans _ _ _ Exy Eyz).
Qed.

Lemma text_compare_antisym (cs ls : list string) :
  List.length cs = List.length ls ->
  text_compare ls cs = CompOpp (text_compare cs ls).
Proof.
  revert ls. induction cs as [|c cs IH]; intros [|l ls] H; try discriminate H;
    cbn; [reflexivity|].
  rewrite (String.compare_antisym l c).
  destruct (String.compare c l); cbn; auto.
Qed.

Lemma text_compare_trans (xs ys zs : list string) :
  List.length xs = List.length ys -> List.length ys = List.length zs ->
  text_compare xs ys = Lt -> text_compare ys zs = Lt -> text_compare xs zs = Lt.
Proof.
  revert ys zs.
  induction xs as [|x xs IH]; intros [|y ys] [|z zs] H1 H2;
    try discriminate H1; try discriminate H2; cbn; [discriminate|].
  destruct (String.compare x y) eqn:Exy; try discriminate;
    destruct (String.compare y z) eqn:Eyz; try discriminate; intros Hab Hbc.
  - apply String.compare_eq_iff in Exy, Eyz. subst.
    rewrite string_compare_refl. apply (IH ys zs); auto.
  - apply String.compare_eq_iff in Exy. subst. now rewrite Eyz.
  - apply String.compare_eq_iff in Eyz. subst. now rewrite Exy.
  - now rewrite (string_compare_trans _ _ _ Exy Eyz).
Qed.

Lemma text_compare_eq (cs ls : list string) :
  List.length cs = List.length ls -> text_compare cs ls = Eq -> cs = ls.
Proof.
  revert ls. induction cs as [|c cs IH]; intros [|l ls] H; try discriminate H;
    cbn; [reflexivity|].
  destruct (String.compare c l) eqn:E; try discriminate.
  apply String.compare_eq_iff in E. subst. intros H'. f_equal. auto.
Qed.

(** One block of [is_outdated] on two fields that are there. *)
Lemma compare_at_text (cs ls : list string) (i : nat) (c l : string)
    (next : result bool) :
  nth_error cs i = Some c -> nth_error ls i = Some l ->
  compare_at cs ls i next
  = match String.compare c l with
    | Lt => Ret true
    | Eq => next
    | Gt => Ret false
    end.
Proof.
  intros Hc Hl. unfold compare_at, index. rewrite Hc, Hl. cbn [rbind].
  unfold str_gt, str_lt, String.ltb. rewrite (String.compare_antisym l c).
  destruct (String.compare c l); reflexivity.
Qed.

(** On a rendered version and a token, [is_outdated] is the order of the
    numerals as text. *)
Lemma is_outdated_text (a b : StructuredVersion) :
  is_outdated (render a) (token_of b)
  = Ret match text_compare (numerals a) (numerals b) with
        | Lt => true
        | _ => false
        end.
Proof.
  unfold is_outdated. rewrite vexos_to_semver_token_of. cbn [rbind].
  rewrite !split_render.
  rewrite (compare_at_text _ _ 3 (numeral (build a)) (numeral (build b))) by easy.
  rewrite (compare_at_text _ _ 2 (numeral (patch a)) (numeral (patch b))) by easy.
  rewrite (compare_at_text _ _ 1 (numeral (minor a)) (numeral (minor b))) by easy.
  rewrite (compare_at_text _ _ 0 (numeral (major a)) (numeral (major b))) by easy.
  unfold numerals. cbn [text_compare].
  destruct (String.compare (numeral (major a)) (numeral (major b))); try reflexivity.
  destruct (String.compare (numeral (minor a)) (numeral (minor b))); try reflexivity.
  destruct (String.compare (numeral (patch a)) (numeral (patch b))); try reflexivity.
  destruct (String.compare (numeral (build a)) (numeral (build b))); reflexivity.
Qed.

Lemma string_of_uint_inj (d d' : Decimal.uint) :
  NilEmpty.string_of_uint d = NilEmpty.string_of_uint d' -> d = d'.
Proof.
  intros H. apply (f_equal NilEmpty.uint_of_string) in H.
  rewrite !NilEmpty.usu in H. now injection H.
Qed.

Lemma numeral_inj (n m : nat) : numeral n = numeral m -> n = m.
Proof.
  rewrite !numeral_nil_empty. intros H.
  apply Unsigned.to_uint_inj. now apply string_of_uint_inj.
Qed.

Lemma numerals_inj (a b : StructuredVersion) : numerals a = numerals b -> a = b.
Proof.
  destruct a, b. unfold numerals. cbn. intros [= H1 H2 H3 H4].
  apply numeral_inj in H1, H2, H3, H4. now subst.
Qed.

Lemma is_outdated_same_width_witness :
  is_outdated (render (mkVersion 1 10 3 0)) (token_of (mkVersion 1 12 0 0))
  = Ret (spec_isOutdated (mkVersion 1 10 3 0) (mkVersion 1 12 0 0)).
Proof.
  apply (is_outdated_same_width (mkVersion 1 10 3 0) (mkVersion 1 12 0 0));
    reflexivity.
Defined.

Lemma is_outdated_returns_witness :
  exists b, is_outdated "1.0.0.0.rc1" "VEXOS_V5_1_0_13_0" = Ret b.
Proof.
  apply (is_outdated_returns "1.0.0.0.rc1" "VEXOS_V5_1_0_13_0" "1.0.13.0").
  - reflexivity.
  - simpl. lia.
Defined.

(** [is_outdated] never finds two versions outdated against each other. *)
Theorem is_outdated_asymmetric (a b : StructuredVersion) :
  is_outdated (render a) (token_of b) = Ret true ->
  is_outdated (render b) (token_of a) = Ret false.
Proof.
  rewrite !is_outdated_text.
  rewrite (text_compare_antisym (numerals a) (numerals b)) by reflexivity.
  destruct (text_compare (numerals a) (numerals b)); cbn; congruence.
Qed.

Lemma is_outdated_asymmetric_witness :
  is_outdated (render (mkVersion 1 0 0 1)) (token_of (mkVersion 1 0 0 0))
  = Ret false.
Proof.
  apply (is_outdated_asymmetric (mkVersion 1 0 0 0) (mkVersion 1 0 0 1)).
  reflexivity.
Defined.

(** [is_outdated] is transitive: outdated against a version that is itself
    outdated against a third is outdated against the third. *)
Theorem is_outdated_transitive (a b c : StructuredVersion) :
  is_outdated (render a) (token_of b) = Ret true ->
  is_outdated (render b) (token_of c) = Ret true ->
  is_outdated (render a) (token_of c) = Ret true.
Proof.
  rewrite !is_outdated_text. intros Hab Hbc.
  destruct (text_compare (numerals a) (numerals b)) eqn:Eab; try discriminate.
  destruct (text_compare (numerals b) (numerals c)) eqn:Ebc; try discriminate.
  now rewrite (text_compare_trans (numerals a) (numerals b) (numerals c)
                 eq_refl eq_refl Eab Ebc).
Qed.

Lemma is_outdated_transitive_witness :
  is_outdated (render (mkVersion 1 0 0 0)) (token_of (mkVersion 1 2 0 0))
  = Ret true.
Proof.
  apply (is_outdated_transitive (mkVersion 1 0 0 0) (mkVersion 1 1 0 0)
           (mkVersion 1 2 0 0)); reflexivity.
Defined.

(** Two versions of which neither is outdated against the other are the
    same version. *)
Theorem is_outdated_connected (a b : StructuredVersion) :
  is_outdated (render a) (token_of b) = Ret false ->
  is_outdated (render b) (token_of a) = Ret false ->
  a = b.
Proof.
  rewrite !is_outdated_text.
  rewrite (text_compare_antisym (numerals a) (numerals b)) by reflexivity.
  intros Hab Hba. apply numerals_inj, text_compare_eq; [reflexivity|].
  destruct (text_compare (numerals a) (numerals b)); cbn in *; congruence.
Qed.

Lemma is_outdated_connected_witness : mkVersion 1 0 13 0 = mkVersion 1 0 13 0.
Proof.
  apply (is_outdated_connected (mkVersion 1 0 13 0) (mkVersion 1 0 13 0));
    reflexivity.
Defined.

(** ** The command line *)

Lemma parse_arguments_step (argv args : list string) (arg : string)
    (force_enabled : bool) (version : option string) (w : world) :
  parse_arguments argv (arg :: args) force_enabled version w
  = if is_force_flag arg then parse_arguments argv args true version w
    else if is_version_flag arg then
      match index argv (list_index arg argv + 1) with
      | Ret v => parse_arguments argv args true (Some v) w
      | Raise e => inr (Raised e, w)
      end
    else if is_help_flag arg then inr (print_help w)
    else parse_arguments argv args force_enabled version w.
Proof. reflexivity. Qed.

Lemma flags_disjoint (arg : string) :
  (is_force_flag arg = true ->
   is_version_flag arg = false /\ is_help_flag arg = false)
  /\ (is_version_flag arg = true -> is_help_flag arg = false).
Proof.
  unfold is_force_flag, is_version_flag, is_help_flag. split.
  - intros H. apply orb_true_iff in H as [H|H]; apply String.eqb_eq in H;
      subst; split; reflexivity.
  - intros H. apply orb_true_iff in H as [H|H]; apply String.eqb_eq in H;
      subst; reflexivity.
Qed.

Lemma list_index_app_le (x : string) (pre rest : list string) :
  list_index x (pre ++ x :: rest) <= List.length pre.
Proof.
  induction pre as [|y pre IH]; cbn.
  - now rewrite String.eqb_refl.
  - destruct (String.eqb y x); lia.
Qed.

Lemma list_index_absent (x : string) (l : list string) :
  ~ In x l -> list_index x l = List.length l.
Proof.
  induction l as [|y l IH]; cbn; [reflexivity|]. intros H.
  destruct (String.eqb_spec y x); [exfalso; auto|].
  rewrite IH; auto.
Qed.

Lemma parse_arguments_help (argv pre args : list string)
    (force_enabled : bool) (version : option string) (w : world) :
  argv = (pre ++ args)%list ->
  existsb is_help_flag args = true ->
  parse_arguments argv args force_enabled version w = inr (print_help w).
Proof.
  revert pre force_enabled version.
  induction args as [|arg args IH]; intros pre f v Hargv Hhelp;
    [discriminate|].
  assert (Hnext : argv = ((pre ++ [arg]) ++ args)%list)
    by now rewrite <- app_assoc.
  rewrite parse_arguments_step. cbn [existsb] in Hhelp.
  destruct (flags_disjoint arg) as [Hf Hv].
  destruct (is_force_flag arg) eqn:Ef.
  { destruct (Hf eq_refl) as [_ Hh]. rewrite Hh in Hhelp.
    now apply (IH (pre ++ [arg])%list). }
  destruct (is_version_flag arg) eqn:Ev.
  { rewrite (Hv eq_refl) in Hhelp. cbn in Hhelp.
    assert (Hlt : list_index arg argv + 1 < List.length argv).
    { rewrite Hargv at 1. pose proof (list_index_app_le arg pre args).
      rewrite Hargv, length_app. cbn [List.length].
      destruct args; [discriminate | cbn; lia]. }
    unfold index. destruct (nth_error argv (list_index arg argv + 1)) eqn:E;
      [|apply nth_error_None in E; lia].
    now apply (IH (pre ++ [arg])%list). }
  destruct (is_help_flag arg); [reflexivity|].
  now apply (IH (pre ++ [arg])%list).
Qed.

Lemma run_print_all (ls : list string) (w : world) :
  for_each ls print w = (Ret tt, logged w (map EPrint ls)).
Proof.
  revert w. induction ls as [|l ls IH]; intros w; cbn [for_each map].
  - now rewrite logged_nil.
  - erewrite bind_ret by apply run_print. now rewrite IH, logged_logged.
Qed.

Lemma run_print_help (w : world) :
  print_help w = (Exited 0, logged w (map EPrint help_lines)).
Proof. unfold print_help. now rewrite run_print_all. Qed.

(** A help flag anywhere among the arguments wins: [main] prints the help
    and exits with code 0, whatever other flags there are; nothing is
    installed and the disk is left alone. *)
Theorem main_help_wins (argv : list string) (w : world) :
  existsb is_help_flag (tl argv) = true ->
  main argv w = (Exited 0, logged w (map EPrint help_lines))
  /\ cwd (snd (main argv w)) = cwd w.
Proof.
  intros H. unfold main.
  assert (Hargv : argv = (firstn 1 argv ++ tl argv)%list).
  { destruct argv; reflexivity. }
  rewrite (parse_arguments_help argv (firstn 1 argv) (tl argv) _ _ _ Hargv H).
  rewrite run_print_help. split; reflexivity.
Qed.

Lemma main_help_wins_witness :
  main ["vexos_dl.py"; "-v"; "VEXOS_V5_1_0_13_0"; "--help"]
    (fresh_world (mkVersion 1 0 13 0))
  = (Exited 0, logged (fresh_world (mkVersion 1 0 13 0)) (map EPrint help_lines))
  /\ cwd (snd (main ["vexos_dl.py"; "-v"; "VEXOS_V5_1_0_13_0"; "--help"]
                 (fresh_world (mkVersion 1 0 13 0))))
     = cwd (fresh_world (mkVersion 1 0 13 0)).
Proof.
  apply (main_help_wins ["vexos_dl.py"; "-v"; "VEXOS_V5_1_0_13_0"; "--help"]).
  vm_compute. reflexivity.
Defined.

Lemma parse_arguments_forces (argv args : list string)
    (force_enabled : bool) (version : option string) (w : world)
    (f : bool) (v : option string) :
  (version <> None -> force_enabled = true) ->
  parse_arguments argv args force_enabled version w = inl (f, v) ->
  v <> None -> f = true.
Proof.
  revert force_enabled version.
  induction args as [|arg args IH]; intros f0 v0 Hinv; cbn [parse_arguments].
  - intros [= <- <-]. exact Hinv.
  - destruct (_ || _).
    { apply IH. reflexivity. }
    destruct (_ || _).
    { destruct (index argv _); [|discriminate]. apply IH. reflexivity. }
    destruct (_ || _); [discriminate|]. now apply IH.
Qed.

(** A version on the command line always comes with force: whenever the
    arguments are read through and a version was given, [install_vexos] is
    called with [force] on. *)
Theorem main_version_forces (argv : list string) (w : world) (f : bool)
    (v : string) :
  parse_arguments argv (tl argv) false None w = inl (f, Some v) ->
  f = true
  /\ main argv w
     = match install_vexos true (Some v) w with
       | (Ret _, w') => (Returned, w')
       | (Raise e, w') => (Raised e, w')
       end.
Proof.
  intros H.
  assert (Hf : f = true).
  { apply (parse_arguments_forces _ _ _ _ _ _ _ (fun H0 => False_ind _ (H0 eq_refl)) H).
    discriminate. }
  split; [exact Hf|]. unfold main. rewrite H, Hf. reflexivity.
Qed.

Lemma main_version_forces_witness :
  true = true
  /\ main ["vexos_dl.py"; "--version"; "VEXOS_V5_1_0_13_0"]
       (fresh_world (mkVersion 1 0 13 0))
     = match install_vexos true (Some "VEXOS_V5_1_0_13_0")
               (fresh_world (mkVersion 1 0 13 0)) with
       | (Ret _, w') => (Returned, w')
       | (Raise e, w') => (Raised e, w')
       end.
Proof.
  apply (main_version_forces ["vexos_dl.py"; "--version"; "VEXOS_V5_1_0_13_0"]
           (fresh_world (mkVersion 1 0 13 0)) true "VEXOS_V5_1_0_13_0").
  reflexivity.
Defined.

Lemma parse_arguments_plain (argv pre rest : list string)
    (force_enabled : bool) (version : option string) (w : world) :
  (forall a, In a pre -> is_version_flag a = false /\ is_help_flag a = false) ->
  exists f,
    parse_arguments argv (pre ++ rest) force_enabled version w
    = parse_arguments argv rest f version w.
Proof.
  revert force_enabled.
  induction pre as [|a pre IH]; intros f0 Hpre; cbn [app].
  - now exists f0.
  - rewrite parse_arguments_step.
    destruct (Hpre a (or_introl eq_refl)) as [Hv Hh]. rewrite Hv, Hh.
    destruct (is_force_flag a); apply IH; intros b Hb; apply Hpre; now right.
Qed.

(** A version flag that ends the command line, first of its spelling and
    with no help asked before it, has no value to take: [main] raises
    [IndexError] and nothing is done. *)
Theorem main_version_without_value (prog flag : string) (pre : list string)
    (w : world) :
  is_version_flag flag = true ->
  prog <> flag ->
  (forall a, In a pre -> is_version_flag a = false /\ is_help_flag a = false) ->
  main (prog :: pre ++ [flag]) w = (Raised IndexError, w).
Proof.
  intros Hflag Hprog Hpre. unfold main. cbn [tl].
  destruct (parse_arguments_plain (prog :: pre ++ [flag]) pre [flag]
              false None w Hpre) as [f ->].
  rewrite parse_arguments_step.
  destruct (flags_disjoint flag) as [Hf _].
  destruct (is_force_flag flag); [destruct (Hf eq_refl); congruence|].
  rewrite Hflag.
  assert (Hidx : list_index flag (prog :: pre ++ [flag])
                 = List.length (prog :: pre)).
  { cbn [list_index]. destruct (String.eqb_spec prog flag); [contradiction|].
    cbn [List.length]. f_equal.
    clear -Hpre Hflag. induction pre as [|a pre IH]; cbn.
    - now rewrite String.eqb_refl.
    - destruct (String.eqb_spec a flag) as [->|_].
      + destruct (Hpre flag (or_introl eq_refl)). congruence.
      + f_equal. apply IH. intros b Hb. apply Hpre. now right. }
  unfold index. rewrite Hidx.
  destruct (nth_error _ _) eqn:E; [|reflexivity].
  assert (List.length (prog :: pre) + 1 < List.length (prog :: pre ++ [flag]))
    by (apply nth_error_Some; congruence).
  cbn [List.length] in *. rewrite length_app in *. cbn in *. lia.
Qed.

Lemma main_version_without_value_witness :
  main ["vexos_dl.py"; "-f"; "--version"] (fresh_world (mkVersion 1 0 13 0))
  = (Raised IndexError, fresh_world (mkVersion 1 0 13 0)).
Proof.
  apply (main_version_without_value "vexos_dl.py" "--version" ["-f"]).
  - reflexivity.
  - discriminate.
  - intros a [<-|[]]. split; reflexivity.
Defined.

Lemma parse_arguments_first (argv args : list string)
    (force_enabled : bool) (version : option string) (w : world)
    (f : bool) (v : string) :
  ~ In "--version" args ->
  (forall v0, version = Some v0 ->
              nth_error argv (list_index "-v" argv + 1) = Some v0) ->
  parse_arguments argv args force_enabled version w = inl (f, Some v) ->
  nth_error argv (list_index "-v" argv + 1) = Some v.
Proof.
  revert force_enabled version.
  induction args as [|arg args IH]; intros f0 v0 Hno Hinv;
    cbn [parse_arguments].
  - intros [= _ ->]. now apply Hinv.
  - assert (Hno' : ~ In "--version" args) by (intros H; apply Hno; now right).
    destruct (_ || _); [now apply IH|].
    destruct (String.eqb_spec arg "-v") as [->|_].
    + cbn [orb]. unfold index.
      destruct (nth_error argv (list_index "-v" argv + 1)) as [x|] eqn:E;
        [|discriminate].
      apply IH; [assumption|]. now intros ? [= <-].
    + destruct (String.eqb_spec arg "--version") as [->|_].
      * exfalso. apply Hno. now left.
      * cbn [orb]. destruct (_ || _); [discriminate|]. now apply IH.
Qed.

(** However often [-v] is given, the version installed is the argument
    that follows its first occurrence: a later [-v] does not override an
    earlier one. *)
Theorem main_first_version_counts (argv : list string) (w : world)
    (f : bool) (v : string) :
  ~ In "--version" argv ->
  parse_arguments argv (tl argv) false None w = inl (f, Some v) ->
  nth_error argv (list_index "-v" argv + 1) = Some v.
Proof.
  intros Hno. apply parse_arguments_first; [|discriminate].
  intros H. apply Hno. destruct argv; [contradiction | now right].
Qed.

Lemma main_first_version_counts_witness :
  nth_error ["vexos_dl.py"; "-v"; "VEXOS_V5_1_0_12_0"; "-v"; "VEXOS_V5_1_0_13_0"]
    (list_index "-v"
       ["vexos_dl.py"; "-v"; "VEXOS_V5_1_0_12_0"; "-v"; "VEXOS_V5_1_0_13_0"] + 1)
  = Some "VEXOS_V5_1_0_12_0".
Proof.
  apply (main_first_version_counts
           ["vexos_dl.py"; "-v"; "VEXOS_V5_1_0_12_0"; "-v"; "VEXOS_V5_1_0_13_0"]
           (fresh_world (mkVersion 1 0 13 0)) true "VEXOS_V5_1_0_12_0").
  - intros H. cbn in H. intuition discriminate.
  - reflexivity.
Defined.

(** ** More on [is_outdated] and the catalog *)

Lemma index_firstn {A : Type} (n i : nat) (l : list A) :
  i < n -> index (firstn n l) i = index l i.
Proof.
  intros H. unfold index. now rewrite nth_error_firstn, (proj2 (Nat.ltb_lt i n) H).
Qed.

Lemma compare_at_firstn (cs cs' ls : list string) (i : nat)
    (next : result bool) :
  i < 4 -> firstn 4 cs = firstn 4 cs' ->
  compare_at cs ls i next = compare_at cs' ls i next.
Proof.
  intros Hi H. unfold compare_at.
  now rewrite <- (index_firstn 4 i cs), <- (index_firstn 4 i cs'), H by assumption.
Qed.

(** [is_outdated] reads the first four dotted fields of the installed
    version and nothing after them: two installed versions with the same
    first four fields get the same answer, be it a boolean or an error. *)
Theorem is_outdated_reads_four_fields (current current' latest : string) :
  firstn 4 (split "." current) = firstn 4 (split "." current') ->
  is_outdated current latest = is_outdated current' latest.
Proof.
  intros H. unfold is_outdated.
  destruct (vexos_to_semver latest) as [semver|e]; [|reflexivity].
  cbn [rbind].
  rewrite (compare_at_firstn _ _ _ 3 _ ltac:(lia) H).
  rewrite (compare_at_firstn _ _ _ 2 _ ltac:(lia) H).
  rewrite (compare_at_firstn _ _ _ 1 _ ltac:(lia) H).
  now rewrite (compare_at_firstn _ _ _ 0 _ ltac:(lia) H).
Qed.

Lemma is_outdated_reads_four_fields_witness :
  is_outdated "1.0.13.0-beta.2" "VEXOS_V5_1_1_0_0"
  = is_outdated "1.0.13.0-beta" "VEXOS_V5_1_1_0_0".
Proof.
  apply is_outdated_reads_four_fields. reflexivity.
Defined.

(** A string whose splitting starts with two given fields starts with
    these fields, each followed by the separator. *)
Lemma split_head (sep : ascii) (s f : string) (rest : list string) :
  split sep s = f :: rest -> rest <> [] ->
  exists s', s = f ++ String sep s' /\ split sep s' = rest.
Proof.
  revert f rest. induction s as [|c s IH]; intros f rest; cbn.
  - intros [= <- <-] H. congruence.
  - destruct (Ascii.eqb_spec c sep) as [->|Hc].
    + intros [= <- <-] _. now exists s.
    + destruct (split sep s) as [|g gs] eqn:E; [now apply split_nonempty in E|].
      intros [= <- <-] Hne.
      destruct (IH g gs eq_refl Hne) as (s' & -> & Hs'). now exists s'.
Qed.

Lemma vexos_to_semver_prefix (token semver : string) :
  vexos_to_semver token = Ret semver -> startswith token "VEXOS_V5_" = true.
Proof.
  intros H. apply vexos_to_semver_inv in H as (f2 & f3 & f4 & f5 & Hs & _).
  apply split_head in Hs as (s1 & -> & Hs); [|discriminate].
  apply split_head in Hs as (s2 & -> & _); [|discriminate].
  unfold startswith. cbn. now destruct s2.
Qed.

Lemma run_get_latest_version (w : world) (catalog : response)
    (semver : string) :
  remote w vexos_catalog_url = Ret catalog ->
  vexos_to_semver (r_text catalog) = Ret semver ->
  get_latest_version w = (Ret (r_text catalog), logged w [EGet vexos_catalog_url]).
Proof.
  intros Hr Hs. unfold get_latest_version, requests_get, try_except, bind, log.
  cbn [remote logged]. rewrite Hr, (vexos_to_semver_prefix _ _ Hs). reflexivity.
Qed.

(** The format check of [get_latest_version] lets through every token that
    [vexos_to_semver] parses: a catalog that holds such a token is returned
    as it is, after the one request, the disk left alone. *)
Theorem get_latest_version_accepts_tokens (w : world) (catalog : response)
    (semver : string) :
  remote w vexos_catalog_url = Ret catalog ->
  vexos_to_semver (r_text catalog) = Ret semver ->
  get_latest_version w = (Ret (r_text catalog), logged w [EGet vexos_catalog_url]).
Proof. exact (run_get_latest_version w catalog semver). Qed.

Lemma get_latest_version_accepts_tokens_witness :
  get_latest_version (fresh_world (mkVersion 1 0 13 0))
  = (Ret "VEXOS_V5_1_0_13_0",
     logged (fresh_world (mkVersion 1 0 13 0)) [EGet vexos_catalog_url]).
Proof.
  apply (get_latest_version_accepts_tokens (fresh_world (mkVersion 1 0 13 0))
           (mkResponse "VEXOS_V5_1_0_13_0" (Text NotJson)) "1.0.13.0");
    vm_compute; reflexivity.
Defined.

(** ** What the manifest holds *)

(** With a manifest that gives a version, the run goes on to the staleness
    check with the value as it is. *)
Lemma install_vexos_with_manifest (force : bool) (version : option string)
    (w w1 : world) (v : string) (wr : bool) (items : list (string * json))
    (j : json) :
  resolve_version version w = (Ret v, w1) ->
  manifest w = Some (File true wr (Text (JsonText (JDict items)))) ->
  assoc "version" items = Some j ->
  install_vexos force version w = install_from_outdated_check force v j w1.
Proof.
  intros Hv Hm Hj.
  destruct (resolve_version_planning version w) as (r & evs & Hr & _).
  rewrite Hr in Hv. injection Hv as -> <-.
  unfold install_vexos. rewrite (bind_ret _ _ _ _ _ Hr).
  pose proof (read_installed_version_spec (logged w evs)) as Hread.
  rewrite manifest_logged, Hm in Hread. cbn [decode] in Hread.
  rewrite Hj in Hread.
  now rewrite (bind_ret _ _ _ _ _ Hread).
Qed.

(** A manifest whose "version" is [null] counts as no installation: the
    run goes on as a fresh install, to the conflict check. *)
Theorem null_version_is_no_installation (force : bool)
    (version : option string) (w w1 : world) (v : string) (wr : bool)
    (items : list (string * json)) :
  resolve_version version w = (Ret v, w1) ->
  manifest w = Some (File true wr (Text (JsonText (JDict items)))) ->
  assoc "version" items = Some JNull ->
  install_vexos force version w
  = (print "No VexOS installation found." ;;
     print "Fresh installation will be performed." ;;
     install_from_conflict_check force v JNull) w1.
Proof.
  intros Hv Hm Hj.
  now rewrite (install_vexos_with_manifest _ _ _ _ _ _ _ _ Hv Hm Hj).
Qed.

Lemma null_version_is_no_installation_witness :
  install_vexos false (Some "VEXOS_V5_1_0_13_0")
    (version_value_world JNull (mkVersion 1 0 13 0))
  = (print "No VexOS installation found." ;;
     print "Fresh installation will be performed." ;;
     install_from_conflict_check false "VEXOS_V5_1_0_13_0" JNull)
      (logged (version_value_world JNull (mkVersion 1 0 13 0))
         [EPrint "Version Specified: VEXOS_V5_1_0_13_0"]).
Proof.
  apply (null_version_is_no_installation false (Some "VEXOS_V5_1_0_13_0")
           (version_value_world JNull (mkVersion 1 0 13 0)) _ _ true
           [("version", JNull)]); reflexivity.
Defined.

(** A manifest whose "version" is a number, a boolean, a list or an object
    stops the run at the staleness check with [AttributeError], whatever
    the force: nothing is fetched and the disk is left alone. *)
Theorem other_version_value_aborts (force : bool) (version : option string)
    (w w1 : world) (v : string) (wr : bool) (items : list (string * json))
    (j : json) :
  resolve_version version w = (Ret v, w1) ->
  manifest w = Some (File true wr (Text (JsonText (JDict items)))) ->
  assoc "version" items = Some j ->
  is_other_value j = true ->
  install_vexos force version w = (Raise AttributeError, w1)
  /\ cwd w1 = cwd w.
Proof.
  intros Hv Hm Hj Ho.
  rewrite (install_vexos_with_manifest _ _ _ _ _ _ _ _ Hv Hm Hj).
  split.
  - destruct j; try discriminate Ho; reflexivity.
  - destruct (resolve_version_planning version w) as (r & evs & Hr & _).
    rewrite Hr in Hv. now injection Hv as _ <-.
Qed.

Lemma other_version_value_aborts_witness :
  install_vexos true (Some "VEXOS_V5_1_0_13_0")
    (version_value_world (JNum 1) (mkVersion 1 0 13 0))
  = (Raise AttributeError,
     logged (version_value_world (JNum 1) (mkVersion 1 0 13 0))
       [EPrint "Version Specified: VEXOS_V5_1_0_13_0"])
  /\ cwd (logged (version_value_world (JNum 1) (mkVersion 1 0 13 0))
            [EPrint "Version Specified: VEXOS_V5_1_0_13_0"])
     = cwd (version_value_world (JNum 1) (mkVersion 1 0 13 0)).
Proof.
  apply (other_version_value_aborts true (Some "VEXOS_V5_1_0_13_0")
           (version_value_world (JNum 1) (mkVersion 1 0 13 0)) _
           "VEXOS_V5_1_0_13_0" true [("version", JNum 1)] (JNum 1));
    reflexivity.
Defined.

(** With a version installed, an explicit version that does not parse is
    turned down at the staleness check, whatever the force: the run raises
    before anything is fetched or changed. *)
Theorem malformed_version_with_installation (force : bool) (version : string)
    (w : world) (wr : bool) (items : list (string * json)) (current : string)
    (e : exn) :
  manifest w = Some (File true wr (Text (JsonText (JDict items)))) ->
  assoc "version" items = Some (JStr current) ->
  vexos_to_semver version = Raise e ->
  install_vexos force (Some version) w
  = (Raise TypeError, logged w [EPrint ("Version Specified: " ++ version)]).
Proof.
  intros Hm Hj He.
  rewrite (install_vexos_with_manifest force (Some version) w
             (logged w [EPrint ("Version Specified: " ++ version)]) version
             wr items (JStr current) eq_refl Hm Hj).
  unfold install_from_outdated_check. cbn [is_not_None call_is_outdated].
  unfold is_outdated. rewrite He, (vexos_to_semver_raises _ _ He). reflexivity.
Qed.

Lemma malformed_version_with_installation_witness :
  install_vexos true (Some "1.0.13.0")
    (installed_world (mkVersion 1 0 12 0) (mkVersion 1 0 13 0))
  = (Raise TypeError,
     logged (installed_world (mkVersion 1 0 12 0) (mkVersion 1 0 13 0))
       [EPrint ("Version Specified: " ++ "1.0.13.0")]).
Proof.
  apply (malformed_version_with_installation true "1.0.13.0"
           (installed_world (mkVersion 1 0 12 0) (mkVersion 1 0 13 0)) true
           [("version", JStr "1.0.12.0")] "1.0.12.0" TypeError); reflexivity.
Defined.

(** ** What a run may touch *)

Lemma confined_same {A : Type} (m : M A) :
  (forall w, trace (snd (m w)) = trace w) -> confined m.
Proof.
  intros H w. exists []. rewrite H, app_nil_r. split; [reflexivity | constructor].
Qed.

Lemma confined_ret {A : Type} (a : A) : confined (ret a).
Proof. now apply confined_same. Qed.

Lemma confined_lift {A : Type} (r : result A) : confined (lift r).
Proof. now apply confined_same. Qed.

Lemma confined_log (e : event) : own_event e -> confined (log e).
Proof. intros H w. exists [e]. split; [reflexivity | now repeat constructor]. Qed.

Lemma confined_after {A : Type} (m : M A) (w w' w2 : world) :
  confined m -> snd (m w) = w' ->
  (exists evs, trace w2 = (trace w' ++ evs)%list /\ Forall own_event evs) ->
  exists evs, trace w2 = (trace w ++ evs)%list /\ Forall own_event evs.
Proof.
  intros Hm <- (evs2 & Ht & H2).
  destruct (Hm w) as (evs1 & Ht1 & H1).
  exists (evs1 ++ evs2)%list. rewrite Ht, Ht1, app_assoc.
  split; [reflexivity | now apply Forall_app].
Qed.

Lemma confined_bind {A B : Type} (m : M A) (k : A -> M B) :
  confined m -> (forall a, confined (k a)) -> confined (bind m k).
Proof.
  intros Hm Hk w. unfold bind.
  destruct (m w) as [[a|e] w'] eqn:E.
  - apply (confined_after m w w' _ Hm); [now rewrite E | apply Hk].
  - pose proof (Hm w) as H. now rewrite E in H.
Qed.

Lemma confined_try_except {A : Type} (body : M A) (cls : exn -> bool)
    (handler : M A) :
  confined body -> confined handler -> confined (try_except body cls handler).
Proof.
  intros Hb Hh w. unfold try_except.
  destruct (body w) as [[a|e] w'] eqn:E.
  - pose proof (Hb w) as H. now rewrite E in H.
  - destruct (cls e).
    + apply (confined_after body w w' _ Hb); [now rewrite E | apply Hh].
    + pose proof (Hb w) as H. now rewrite E in H.
Qed.

Lemma confined_for_each {A : Type} (l : list A) (body : A -> M unit) :
  (forall x, In x l -> confined (body x)) -> confined (for_each l body).
Proof.
  induction l as [|x l IH]; intros Hb; cbn [for_each].
  - apply confined_ret.
  - apply confined_bind; [apply Hb; now left|].
    intros _. apply IH. intros y Hy. apply Hb. now right.
Qed.

Lemma at_path_cons {A : Type} (name : string) (p' : list string) (pw : bool)
    (es : entries) (k : bool -> option node -> option node * result A) :
  at_path (name :: p') pw es k
  = match p' with
    | [] =>
        let (e', r) := k pw (assoc name es) in (set_entry name e' es, r)
    | _ :: _ =>
        match assoc name es with
        | Some (Dir dw es') =>
            let (es2, r) := at_path p' dw es' k in
            (put_entry name (Dir dw es2) es, r)
        | _ => (es, Raise OSError)
        end
    end.
Proof. now destruct p'. Qed.

Lemma at_path_frame {A : Type} (p : list string) (pw : bool) (es : entries)
    (k : bool -> option node -> option node * result A) (name : string) :
  name <> hd "" p ->
  assoc name (fst (at_path p pw es k)) = assoc name es.
Proof.
  destruct p as [|name0 p']; [reflexivity|]. cbn [hd]. intros Hne.
  rewrite at_path_cons. destruct p' as [|name1 p'].
  - destruct (k pw (assoc name0 es)) as [e' r]. cbn.
    now apply assoc_set_entry_other.
  - destruct (assoc name0 es) as [[r wr c|dw' es']|]; try reflexivity.
    destruct (at_path (name1 :: p') dw' es' k) as [es2 r]. cbn.
    now apply assoc_put_entry_other.
Qed.

Lemma confined_change {A : Type} (path : string)
    (k : bool -> option node -> option node * result A) :
  confined (change path k).
Proof.
  apply confined_same. intros w. unfold change.
  now destruct (at_path (components path) (cwd_writable w) (cwd w) k).
Qed.

Lemma root_join (a b : string) : root (os_path_join a b) = root a.
Proof.
  unfold root, os_path_join, components. cbn [append].
  rewrite split_app.
  pose proof (split_nonempty "/" a). now destruct (split "/" a).
Qed.

Lemma own_target : own_path "vexos".
Proof. now left. Qed.

Lemma own_artifact : own_path "vexos.vexos".
Proof. now right. Qed.

Lemma own_join (a b : string) : own_path a -> own_path (os_path_join a b).
Proof. unfold own_path. now rewrite root_join. Qed.

Lemma prefix_app (a b : string) : String.prefix a (a ++ b) = true.
Proof.
  induction a as [|c a IH]; cbn.
  - now destruct b.
  - now destruct (ascii_dec c c).
Qed.

Lemma confined_os_remove (path : string) :
  own_path path -> confined (os_remove path).
Proof.
  intros H. apply confined_bind; [now apply confined_log|].
  intros _. apply confined_change.
Qed.

Lemma confined_shutil_rmtree (path : string) :
  own_path path -> confined (shutil_rmtree path).
Proof.
  intros H. apply confined_bind; [now apply confined_log|].
  intros _. apply confined_change.
Qed.

Lemma confined_write_bytes (path : string) (c : content) :
  own_path path -> confined (write_bytes path c).
Proof.
  intros H. apply confined_bind; [now apply confined_log|].
  intros _. apply confined_change.
Qed.

Lemma confined_os_listdir (path : string) : confined (os_listdir path).
Proof.
  apply confined_same. intros w. unfold os_listdir.
  now destruct (lookup (components path) (cwd w)) as [[r wr c|dw es]|].
Qed.

Lemma confined_requests_get (url : string) :
  String.prefix vexos_base_url url = true -> confined (requests_get url).
Proof.
  intros H. apply confined_bind; [now apply confined_log|]. intros _.
  now apply confined_same.
Qed.

Lemma confined_shutil_unpack_archive (filename extract_dir : string) :
  own_path filename -> own_path extract_dir ->
  confined (shutil_unpack_archive filename extract_dir).
Proof.
  intros Hf Hd. apply confined_bind; [now apply confined_log|]. intros _ w.
  destruct (lookup (components filename) (cwd w)) as [[[|] wr [t| | | |zs]|dw es]|];
    try (apply (confined_lift (Ret tt) w));
    try (apply (confined_lift (Raise OSError) w));
    try (apply (confined_lift (Raise BadZipFile) w)).
  apply confined_change.
Qed.

Lemma confined_shutil_move (src dst : string) :
  own_path src -> own_path dst -> confined (shutil_move src dst).
Proof.
  intros Hs Hd. apply confined_bind; [now apply confined_log|]. intros _ w.
  cbv beta zeta.
  destruct (lookup (components dst) (cwd w)) as [[r wr c|ddw des]|];
    try (apply (confined_lift (Raise OSError) w)).
  destruct (lookup (components src) (cwd w)) as [n|];
    [|apply (confined_lift (Raise OSError) w)].
  destruct (assoc (last (components src) "") des);
    [apply (confined_lift (Raise OSError) w)|].
  destruct (parent_writable (components src) w && ddw && movable n);
    [|apply (confined_lift (Raise OSError) w)].
  apply confined_bind; [|intros _]; apply confined_change.
Qed.

Lemma confined_print (line : string) : confined (print line).
Proof. now apply confined_log. Qed.

Lemma confined_raise_strM {A : Type} (msg : string) :
  confined (@raise_strM A msg).
Proof. apply confined_lift. Qed.

Lemma confined_download_vexos (vexos_version : string) :
  confined (download_vexos vexos_version).
Proof.
  apply confined_bind.
  - apply confined_try_except;
      [apply confined_requests_get, prefix_app | apply confined_raise_strM].
  - intros vexos_package. apply confined_try_except;
      [apply confined_write_bytes, own_artifact | apply confined_raise_strM].
Qed.

Lemma confined_flatten_vexos : confined flatten_vexos.
Proof.
  apply confined_bind; [apply confined_os_listdir|]. intros names.
  apply confined_bind; [apply confined_lift|]. intros vexos_subfolder.
  apply confined_bind; [apply confined_os_listdir|]. intros files.
  apply confined_bind.
  - apply confined_for_each. intros file _.
    apply confined_shutil_move; [|apply own_target].
    apply own_join, own_join, own_target.
  - intros _. apply confined_shutil_rmtree, own_join, own_target.
Qed.

Lemma confined_extract_vexos : confined extract_vexos.
Proof.
  apply confined_bind.
  { apply confined_try_except;
      [apply confined_shutil_rmtree, own_target | apply confined_ret]. }
  intros _. apply confined_bind; [|intros _; apply confined_flatten_vexos].
  apply confined_try_except;
    [apply confined_shutil_unpack_archive; [apply own_artifact | apply own_target]
    | apply confined_raise_strM].
Qed.

Lemma confined_get_latest_version : confined get_latest_version.
Proof.
  apply confined_bind.
  - apply confined_try_except;
      [apply confined_requests_get, prefix_app | apply confined_raise_strM].
  - intros catalog. destruct (negb _);
      [apply confined_raise_strM | apply confined_ret].
Qed.

Lemma confined_read_installed_version : confined read_installed_version.
Proof.
  apply confined_same. intros w. now rewrite read_installed_version_pure.
Qed.

Lemma confined_package_already_downloaded : confined package_already_downloaded.
Proof.
  apply confined_same. intros w. now rewrite run_package_already_downloaded.
Qed.

Lemma confined_resolve_conflicts : confined resolve_conflicts.
Proof.
  apply confined_bind.
  - apply confined_try_except;
      [apply confined_os_remove, own_artifact | apply confined_ret].
  - intros _. apply confined_try_except;
      [apply confined_shutil_rmtree, own_target | apply confined_ret].
Qed.

Lemma confined_install_steps (version : string) (installed_version : json) :
  confined (install_steps version installed_version).
Proof.
  unfold install_steps, fetch_and_extract, cleanup_and_summary, summary.
  repeat first
    [ apply confined_print
    | apply confined_download_vexos
    | apply confined_extract_vexos
    | apply confined_os_remove, own_artifact
    | apply confined_lift
    | apply confined_bind; [|intros ?]
    | destruct (is_not_None installed_version) ].
Qed.

Lemma confined_install_from_conflict_check (force : bool) (version : string)
    (installed_version : json) :
  confined (install_from_conflict_check force version installed_version).
Proof.
  unfold install_from_conflict_check.
  apply confined_bind; [apply confined_print|]. intros _.
  apply confined_bind; [apply confined_package_already_downloaded|].
  intros [|]; [|apply confined_install_steps].
  apply confined_bind; [apply confined_print|]. intros _.
  destruct (negb force); [apply confined_print|].
  apply confined_bind; [apply confined_print|]. intros _.
  apply confined_bind; [apply confined_resolve_conflicts|]. intros _.
  apply confined_install_steps.
Qed.

Lemma confined_install_from_outdated_check (force : bool) (version : string)
    (installed_version : json) :
  confined (install_from_outdated_check force version installed_version).
Proof.
  unfold install_from_outdated_check.
  destruct (is_not_None installed_version).
  - apply confined_bind; [apply confined_lift|]. intros outdated.
    destruct (negb outdated && negb force); [apply confined_print|].
    apply confined_bind; [apply confined_lift|]. intros outdated'.
    apply confined_bind; [|intros _; apply confined_install_from_conflict_check].
    destruct (negb outdated' && force); [apply confined_print|].
    apply confined_bind; [apply confined_lift | intros ?; apply confined_print].
  - apply confined_bind; [apply confined_print|]. intros _.
    apply confined_bind; [apply confined_print|]. intros _.
    apply confined_install_from_conflict_check.
Qed.

Lemma confined_resolve_version (version : option string) :
  confined (resolve_version version).
Proof.
  destruct version as [v|]; cbn [resolve_version].
  - apply confined_bind; [apply confined_print | intros _; apply confined_ret].
  - apply confined_bind; [apply confined_print|]. intros _.
    apply confined_bind; [apply confined_get_latest_version|]. intros v.
    apply confined_bind; [apply confined_lift|]. intros semver.
    apply confined_bind; [apply confined_print | intros _; apply confined_ret].
Qed.

Lemma confined_install_vexos (force : bool) (version : option string) :
  confined (install_vexos force version).
Proof.
  apply confined_bind; [apply confined_resolve_version|]. intros v.
  apply confined_bind; [apply confined_read_installed_version|]. intros inst.
  apply confined_install_from_outdated_check.
Qed.

(** Whatever its arguments and however it ends, [main] asks nothing of the
    file system and of the network but on its own account: every call it
    makes that changes the disk ([os.remove], [shutil.rmtree], [open] for
    writing, [shutil.unpack_archive], [shutil.move]) is given the path of
    the artifact, of the install target or of something below the install
    target, and every request goes to an address under the base URL.  The
    statement is about the paths the program names; what the file system
    makes of such a path is not part of it. *)
Theorem main_keeps_to_its_paths (argv : list string) (w : world) :
  exists evs,
    trace (snd (main argv w)) = (trace w ++ evs)%list
    /\ Forall own_event evs.
Proof.
  unfold main.
  destruct (parse_arguments argv (tl argv) false None w) as [[f v]|stop] eqn:E.
  - destruct (confined_install_vexos f v w) as (evs & Ht & Hown).
    exists evs. now destruct (install_vexos f v w) as [[[]|e] w'].
  - assert (Hstop : stop = print_help w \/ exists e, stop = (Raised e, w)).
    { clear -E. revert E. generalize false, (@None string).
      induction (tl argv) as [|arg args IH]; intros f v; cbn [parse_arguments];
        [discriminate|].
      destruct (_ || _); [apply IH|].
      destruct (_ || _).
      { destruct (index argv _); [apply IH|]. intros [= <-]. right. now eexists. }
      destruct (_ || _); [intros [= <-]; now left | apply IH]. }
    destruct Hstop as [-> | [e ->]].
    + rewrite run_print_help. cbn [snd trace logged]. eexists.
      split; [reflexivity|]. apply Forall_forall.
      intros ev Hev. apply in_map_iff in Hev as (line & <- & _). exact I.
    + cbn. exists []. rewrite app_nil_r. split; [reflexivity | constructor].
Qed.

(** The install run itself, whatever the force, the version and the
    outcome: the calls that change the disk name the artifact, the install
    target or a path below the install target, and the requests go to the
    catalog or to the package of the version, under the base URL. *)
Theorem install_vexos_keeps_to_its_paths (force : bool)
    (version : option string) (w : world) :
  exists evs,
    trace (snd (install_vexos force version w)) = (trace w ++ evs)%list
    /\ Forall own_event evs.
Proof. apply confined_install_vexos. Qed.

(** ** The download *)

Lemma run_write_artifact (c : content) (w : world) :
  write_bytes "vexos.vexos" c w
  = (snd (write_file c (cwd_writable w) (artifact w)),
     mkWorld (cwd_writable w)
       (set_entry "vexos.vexos"
          (fst (write_file c (cwd_writable w) (artifact w))) (cwd w))
       (remote w) (trace w ++ [EWrite "vexos.vexos"])).
Proof.
  unfold write_bytes. rewrite artifact_assoc.
  erewrite bind_ret by reflexivity.
  now rewrite (run_change_top _ "vexos.vexos") by reflexivity.
Qed.

Lemma run_request (url msg : string) (w : world) :
  try_except (requests_get url) (exn_eqb RequestsConnectionError)
    (raise_strM msg) w
  = (match remote w url with
     | Ret r => Ret r
     | Raise x => Raise (if exn_eqb RequestsConnectionError x then TypeError else x)
     end,
     logged w [EGet url]).
Proof.
  unfold try_except, requests_get, bind, log. cbn [remote logged].
  destruct (remote w url) as [r|x]; [reflexivity|]. now destruct x.
Qed.

Lemma run_download_vexos (vexos_version : string) (w : world) :
  download_vexos vexos_version w
  = match remote w (package_url vexos_version) with
    | Ret resp =>
        try_except (write_bytes "vexos.vexos" (r_content resp)) IOError
          (raise_strM "ERROR: Failed to save ${vexos_version} to file. Please check your permissions.")
          (logged w [EGet (package_url vexos_version)])
    | Raise x =>
        (Raise (if exn_eqb RequestsConnectionError x then TypeError else x),
         logged w [EGet (package_url vexos_version)])
    end.
Proof.
  unfold download_vexos. fold (package_url vexos_version).
  destruct (remote w (package_url vexos_version)) as [resp|x] eqn:E.
  - erewrite bind_ret by (rewrite run_request, E; reflexivity). reflexivity.
  - erewrite bind_raise by (rewrite run_request, E; reflexivity). reflexivity.
Qed.

Lemma write_file_refused (c : content) (w : world) :
  artifact_writable w = false ->
  write_file c (cwd_writable w) (artifact w) = (artifact w, Raise OSError).
Proof.
  unfold artifact_writable.
  destruct (artifact w) as [[r wr c'|dw es]|]; cbn; intros H;
    try discriminate; now rewrite ?H.
Qed.

(** A download that fails at the request, or because the artifact cannot
    be opened for writing, has changed nothing on the disk.  When the
    request raises, no write is tried: a connection error comes out as
    [TypeError], any other error of the request as it is.  When the
    artifact cannot be opened for writing (a file without write
    permission, a directory, or no file in a working directory that takes
    no new entry), the download raises [TypeError].  A write that fails
    after the file was opened is not covered. *)
Theorem download_vexos_fails_clean (vexos_version : string) (w : world) :
  (exists x, remote w (package_url vexos_version) = Raise x)
  \/ artifact_writable w = false ->
  exists e,
    fst (download_vexos vexos_version w) = Raise e
    /\ cwd (snd (download_vexos vexos_version w)) = cwd w
    /\ (forall x, remote w (package_url vexos_version) = Raise x ->
        e = (if exn_eqb RequestsConnectionError x then TypeError else x)
        /\ trace (snd (download_vexos vexos_version w))
           = (trace w ++ [EGet (package_url vexos_version)])%list)
    /\ (forall r, remote w (package_url vexos_version) = Ret r -> e = TypeError).
Proof.
  intros H. rewrite run_download_vexos.
  destruct (remote w (package_url vexos_version)) as [resp|x] eqn:Er.
  - destruct H as [[x Hx]|Hw]; [discriminate|].
    unfold try_except. rewrite run_write_artifact.
    change (artifact (logged w ?evs)) with (artifact w).
    cbn [cwd cwd_writable logged].
    rewrite (write_file_refused _ _ Hw).
    cbn [fst snd cwd IOError raise_strM raise_str lift].
    exists TypeError. rewrite artifact_assoc, set_entry_same.
    repeat split; auto; discriminate.
  - eexists. cbn [fst snd cwd logged trace].
    split; [reflexivity|]. split; [reflexivity|].
    split; [|discriminate]. intros y [= <-]. split; reflexivity.
Qed.

Lemma download_vexos_fails_clean_witness :
  exists e,
    fst (download_vexos "VEXOS_V5_1_0_13_0" (offline_world (mkVersion 1 0 0 0)))
    = Raise e
    /\ cwd (snd (download_vexos "VEXOS_V5_1_0_13_0"
                   (offline_world (mkVersion 1 0 0 0))))
       = cwd (offline_world (mkVersion 1 0 0 0))
    /\ (forall x,
          remote (offline_world (mkVersion 1 0 0 0))
            (package_url "VEXOS_V5_1_0_13_0") = Raise x ->
          e = (if exn_eqb RequestsConnectionError x then TypeError else x)
          /\ trace (snd (download_vexos "VEXOS_V5_1_0_13_0"
                           (offline_world (mkVersion 1 0 0 0))))
             = (trace (offline_world (mkVersion 1 0 0 0))
                  ++ [EGet (package_url "VEXOS_V5_1_0_13_0")])%list)
    /\ (forall r,
          remote (offline_world (mkVersion 1 0 0 0))
            (package_url "VEXOS_V5_1_0_13_0") = Ret r ->
          e = TypeError).
Proof.
  apply (download_vexos_fails_clean "VEXOS_V5_1_0_13_0"
           (offline_world (mkVersion 1 0 0 0))).
  left. exists RequestsConnectionError. reflexivity.
Defined.

Lemma write_file_succeeds (c : content) (w : world) :
  artifact_writable w = true ->
  exists r wr,
    write_file c (cwd_writable w) (artifact w) = (Some (File r wr c), Ret tt)
    /\ (artifact_readable w = true -> r = true)
    /\ (artifact w = None -> r = true /\ wr = true).
Proof.
  unfold artifact_writable, artifact_readable.
  destruct (artifact w) as [[r wr c'|dw es]|]; cbn; intros H; try discriminate.
  - subst wr. exists r, true. repeat split; try discriminate.
    now destruct r.
  - rewrite H. exists true, true. repeat split; reflexivity.
Qed.

(** The world after the artifact was written with some content. *)
Lemma run_download_vexos_ok (vexos_version : string) (w : world)
    (resp : response) :
  remote w (package_url vexos_version) = Ret resp ->
  artifact_writable w = true ->
  exists r wr,
    download_vexos vexos_version w
    = (Ret tt,
       mkWorld (cwd_writable w)
         (put_entry "vexos.vexos" (File r wr (r_content resp)) (cwd w))
         (remote w)
         (trace w ++ [EGet (package_url vexos_version); EWrite "vexos.vexos"]))
    /\ (artifact_readable w = true -> r = true)
    /\ (artifact w = None -> r = true /\ wr = true).
Proof.
  intros Hr Hw. rewrite run_download_vexos, Hr.
  unfold try_except. rewrite run_write_artifact.
  change (artifact (logged w ?evs)) with (artifact w).
  cbn [cwd cwd_writable logged remote trace].
  destruct (write_file_succeeds (r_content resp) w Hw) as (r & wr & -> & H1 & H2).
  exists r, wr. cbn [fst snd set_entry]. rewrite <- app_assoc.
  split; [reflexivity | split; assumption].
Qed.

(** Whatever the server answers to the request of the package is staged:
    where the artifact can be written, [download_vexos] returns with the
    artifact holding the content of the response, be it a firmware archive
    or an error page, and with the install target as it was. *)
Theorem download_vexos_stages_the_response (vexos_version : string)
    (w : world) (resp : response) :
  remote w (package_url vexos_version) = Ret resp ->
  artifact_writable w = true ->
  fst (download_vexos vexos_version w) = Ret tt
  /\ artifact_content (snd (download_vexos vexos_version w))
     = Some (r_content resp)
  /\ target (snd (download_vexos vexos_version w)) = target w
  /\ trace (snd (download_vexos vexos_version w))
     = (trace w ++ [EGet (package_url vexos_version); EWrite "vexos.vexos"])%list.
Proof.
  intros Hr Hw.
  destruct (run_download_vexos_ok vexos_version w resp Hr Hw)
    as (r & wr & -> & _). cbn [fst snd trace].
  repeat split.
  - unfold artifact_content. rewrite artifact_assoc. cbn [cwd].
    now rewrite assoc_put_entry_same.
  - rewrite !target_assoc. cbn [cwd].
    now rewrite assoc_put_entry_other by discriminate.
Qed.

Lemma download_vexos_stages_the_response_witness :
  fst (download_vexos "VEXOS_V5_9_9_9_9" (fresh_world (mkVersion 1 0 13 0)))
  = Ret tt
  /\ artifact_content
       (snd (download_vexos "VEXOS_V5_9_9_9_9" (fresh_world (mkVersion 1 0 13 0))))
     = Some (r_content (mkResponse "Not Found" (Text NotJson)))
  /\ target (snd (download_vexos "VEXOS_V5_9_9_9_9" (fresh_world (mkVersion 1 0 13 0))))
     = target (fresh_world (mkVersion 1 0 13 0))
  /\ trace (snd (download_vexos "VEXOS_V5_9_9_9_9" (fresh_world (mkVersion 1 0 13 0))))
     = (trace (fresh_world (mkVersion 1 0 13 0))
          ++ [EGet (package_url "VEXOS_V5_9_9_9_9"); EWrite "vexos.vexos"])%list.
Proof.
  apply (download_vexos_stages_the_response "VEXOS_V5_9_9_9_9"
           (fresh_world (mkVersion 1 0 13 0)) (mkResponse "Not Found" (Text NotJson)));
    vm_compute; reflexivity.
Defined.

(** ** The flattening *)

Lemma assoc_None {A : Type} (k : string) (l : list (string * A)) :
  assoc k l = None <-> ~ In k (map fst l).
Proof.
  induction l as [|[k' a] l IH]; cbn; [tauto|].
  destruct (String.eqb_spec k k') as [->|Hne].
  - split; [discriminate | intros H; exfalso; auto].
  - rewrite IH. split; [intros H [E|E]; [congruence | auto] | auto].
Qed.

Lemma put_entry_absent (name : string) (n : node) (es : entries) :
  assoc name es = None -> put_entry name n es = (es ++ [(name, n)])%list.
Proof.
  induction es as [|[k n'] es IH]; cbn; [reflexivity|].
  destruct (String.eqb name k); [discriminate|].
  intros H. now rewrite IH.
Qed.

Lemma put_entry_twice (name : string) (n n' : node) (es : entries) :
  put_entry name n' (put_entry name n es) = put_entry name n' es.
Proof.
  induction es as [|[k m] es IH]; cbn.
  - now rewrite String.eqb_refl.
  - destruct (String.eqb name k) eqn:E; cbn; rewrite E; [reflexivity|].
    now rewrite IH.
Qed.

Lemma components_join (a b : string) :
  components (os_path_join a b) = (components a ++ components b)%list.
Proof. unfold components, os_path_join. cbn [append]. apply split_app. Qed.

Lemma components_name (name : string) :
  occurs "/" name = false -> components name = [name].
Proof. apply split_none. Qed.

Lemma at_path_single {A : Type} (name : string) (pw : bool) (es : entries)
    (k : bool -> option node -> option node * result A) :
  at_path [name] pw es k
  = (set_entry name (fst (k pw (assoc name es))) es, snd (k pw (assoc name es))).
Proof. cbn. now destruct (k pw (assoc name es)). Qed.

Lemma at_path_below {A : Type} (name : string) (p : list string)
    (pw dw : bool) (es es' : entries)
    (k : bool -> option node -> option node * result A) :
  p <> [] -> assoc name es = Some (Dir dw es') ->
  at_path (name :: p) pw es k
  = (put_entry name (Dir dw (fst (at_path p dw es' k))) es,
     snd (at_path p dw es' k)).
Proof.
  intros Hp H. rewrite at_path_cons, H.
  destruct p; [congruence|]. now destruct (at_path _ dw es' k).
Qed.

(** A change below the install target. *)
Lemma run_change_below {A : Type} (path : string) (p : list string)
    (k : bool -> option node -> option node * result A) (w : world)
    (dw : bool) (top : entries) :
  components path = "vexos" :: p -> p <> [] ->
  assoc "vexos" (cwd w) = Some (Dir dw top) ->
  change path k w
  = (snd (at_path p dw top k),
     mkWorld (cwd_writable w)
       (put_entry "vexos" (Dir dw (fst (at_path p dw top k))) (cwd w))
       (remote w) (trace w)).
Proof.
  intros Hc Hp Ht. unfold change.
  now rewrite Hc, (at_path_below _ _ _ _ _ _ _ Hp Ht).
Qed.

(** One pass of the loop of [extract_vexos], in a tree of writable
    directories: the first entry left in the subfolder goes to the end of
    the target. *)
Lemma run_move_up (w : world) (name f : string) (n : node)
    (rest done : entries) :
  occurs "/" name = false -> occurs "/" f = false ->
  assoc "vexos" (cwd w)
  = Some (Dir true ((name, Dir true ((f, n) :: rest)) :: done)) ->
  movable n = true ->
  f <> name -> assoc f done = None -> assoc f rest = None ->
  shutil_move (os_path_join (os_path_join "vexos" name) f) "vexos" w
  = (Ret tt,
     mkWorld (cwd_writable w)
       (put_entry "vexos"
          (Dir true ((name, Dir true rest) :: done ++ [(f, n)])) (cwd w))
       (remote w)
       (trace w ++ [EMove (os_path_join (os_path_join "vexos" name) f) "vexos"])).
Proof.
  intros Hname Hf Ht Hmov Hne Hdone Hrest.
  assert (Hsrc : components (os_path_join (os_path_join "vexos" name) f)
                 = ["vexos"; name; f]).
  { now rewrite !components_join, (components_name _ Hname),
      (components_name _ Hf). }
  assert (Hdst : components (os_path_join "vexos" f) = ["vexos"; f]).
  { now rewrite components_join, (components_name _ Hf). }
  apply String.eqb_neq in Hne.
  unfold shutil_move. erewrite bind_ret by reflexivity. cbv beta zeta.
  set (w1 := logged w [EMove (os_path_join (os_path_join "vexos" name) f) "vexos"]).
  assert (Ht1 : assoc "vexos" (cwd w1)
                = Some (Dir true ((name, Dir true ((f, n) :: rest)) :: done)))
    by exact Ht.
  assert (Hpw : parent_writable ["vexos"; name; f] w1 = true).
  { unfold parent_writable. cbn [removelast lookup]. rewrite Ht1.
    cbn [assoc]. now rewrite String.eqb_refl. }
  rewrite Hsrc, Hpw. change (components "vexos") with ["vexos"].
  cbn [lookup last]. rewrite Ht1.
  cbn [assoc lookup]. rewrite String.eqb_refl. cbn [assoc].
  rewrite String.eqb_refl, Hne, Hdone, Hmov. cbn [andb].
  erewrite bind_ret.
  2:{ rewrite (run_change_below _ [name; f] _ w1 _ _ Hsrc ltac:(discriminate) Ht1).
      rewrite (at_path_below name [f] true true _ ((f, n) :: rest))
        by (try discriminate; cbn; now rewrite String.eqb_refl).
      rewrite at_path_single. cbn [fst snd assoc set_entry remove_entry put_entry].
      rewrite !String.eqb_refl. reflexivity. }
  rewrite (run_change_below _ [f] _ _ true
             ((name, Dir true (remove_entry f rest)) :: done)
             Hdst ltac:(discriminate)).
  2:{ cbn [cwd]. apply assoc_put_entry_same. }
  rewrite at_path_single. cbn [fst snd set_entry cwd cwd_writable remote trace].
  rewrite put_entry_twice, (remove_entry_absent _ _ Hrest).
  rewrite (put_entry_absent f n ((name, Dir true rest) :: done)).
  2:{ cbn. now rewrite Hne. }
  reflexivity.
Qed.

(** The loop of [extract_vexos]: every entry of the subfolder ends up in
    the target, after those that were there, in the order of the listing. *)
Lemma run_move_all (name : string) (rest done : entries) (w : world) :
  occurs "/" name = false ->
  (forall f, In f (map fst rest) -> occurs "/" f = false) ->
  Forall (fun e => movable (snd e) = true) rest ->
  NoDup (map fst (done ++ rest)) ->
  ~ In name (map fst rest) ->
  assoc "vexos" (cwd w) = Some (Dir true ((name, Dir true rest) :: done)) ->
  exists tr,
    for_each (map fst rest)
      (fun file =>
         shutil_move (os_path_join (os_path_join "vexos" name) file) "vexos") w
    = (Ret tt,
       mkWorld (cwd_writable w)
         (put_entry "vexos" (Dir true ((name, Dir true []) :: done ++ rest))
            (cwd w))
         (remote w) tr).
Proof.
  intros Hname. revert done w.
  induction rest as [|[f n] rest IH]; intros done w Hslash Hmov Hnd Hnot Ht.
  - exists (trace w). cbn [map for_each]. rewrite app_nil_r.
    rewrite (put_entry_same _ _ _ Ht). now destruct w.
  - cbn [map fst for_each].
    assert (Hf : f <> name) by (intros ->; apply Hnot; now left).
    rewrite map_app in Hnd. cbn [map fst] in Hnd.
    pose proof (NoDup_remove_2 _ _ _ Hnd) as Hfresh.
    apply NoDup_remove_1 in Hnd.
    assert (Hdone : assoc f done = None).
    { apply assoc_None. intros H. apply Hfresh, in_or_app. now left. }
    assert (Hrest : assoc f rest = None).
    { apply assoc_None. intros H. apply Hfresh, in_or_app. now right. }
    inversion Hmov as [|x l Hn Hmov']; subst x l. cbn [snd] in Hn.
    erewrite bind_ret.
    2:{ apply (run_move_up w name f n rest done); auto.
        apply Hslash. now left. }
    destruct (IH (done ++ [(f, n)])%list
                (mkWorld (cwd_writable w)
                   (put_entry "vexos"
                      (Dir true ((name, Dir true rest) :: done ++ [(f, n)]))
                      (cwd w))
                   (remote w)
                   (trace w ++ [EMove (os_path_join (os_path_join "vexos" name) f)
                                  "vexos"])))
      as [tr Hrun].
    + intros g Hg. apply Hslash. now right.
    + exact Hmov'.
    + rewrite <- app_assoc, map_app. cbn [app map fst].
      apply (proj2 (NoDup_Add (Add_app f (map fst done) (map fst rest)))).
      now split.
    + intros H. apply Hnot. now right.
    + cbn [cwd]. apply assoc_put_entry_same.
    + exists tr. rewrite Hrun. cbn [cwd cwd_writable remote].
      now rewrite put_entry_twice, <- app_assoc.
Qed.

(** The flattening of a target that holds one directory, in a tree of
    writable directories: the entries of that directory become the entries
    of the target. *)
Lemma run_flatten_vexos (w : world) (name : string) (es : entries) :
  occurs "/" name = false ->
  (forall f, In f (map fst es) -> occurs "/" f = false) ->
  Forall (fun e => movable (snd e) = true) es ->
  NoDup (map fst es) ->
  ~ In name (map fst es) ->
  target w = Some (Dir true [(name, Dir true es)]) ->
  exists tr,
    flatten_vexos w
    = (Ret tt,
       mkWorld (cwd_writable w) (put_entry "vexos" (Dir true es) (cwd w))
         (remote w) tr).
Proof.
  intros Hname Hslash Hmov Hnd Hnot Ht.
  assert (Hsub : components (os_path_join "vexos" name) = ["vexos"; name]).
  { now rewrite components_join, (components_name _ Hname). }
  pose proof Ht as Ha. rewrite target_assoc in Ha.
  unfold flatten_vexos.
  erewrite bind_ret by (eapply run_os_listdir_target; eassumption).
  cbn [map fst]. erewrite bind_ret by reflexivity. cbv beta zeta.
  erewrite bind_ret.
  2:{ unfold os_listdir. rewrite Hsub. cbn [lookup]. rewrite Ha.
      cbn [assoc]. rewrite String.eqb_refl. reflexivity. }
  destruct (run_move_all name es [] w Hname Hslash Hmov Hnd Hnot Ha) as [tr Hrun].
  rewrite (bind_ret _ _ _ _ _ Hrun). cbn [app].
  unfold shutil_rmtree. erewrite bind_ret by reflexivity.
  rewrite (run_change_below _ [name] _ _ true ((name, Dir true []) :: es) Hsub
             ltac:(discriminate)).
  2:{ cbn [cwd logged]. apply assoc_put_entry_same. }
  rewrite at_path_single. cbn [assoc]. rewrite String.eqb_refl.
  cbn [remove_tree remove_node fst snd set_entry remove_entry cwd cwd_writable
       remote logged].
  rewrite String.eqb_refl, put_entry_twice.
  rewrite (remove_entry_absent name es) by now apply assoc_None.
  now eexists.
Qed.

(** ** What the extraction leaves alone *)

Lemma untouched_read (name : string) {A : Type} (m : M A) :
  (forall w, cwd (snd (m w)) = cwd w) -> untouched name m.
Proof. intros H w. now rewrite H. Qed.

Lemma untouched_bind (name : string) {A B : Type} (m : M A) (k : A -> M B) :
  untouched name m -> (forall a, untouched name (k a)) ->
  untouched name (bind m k).
Proof.
  intros Hm Hk w. unfold bind. specialize (Hm w).
  destruct (m w) as [[a|e] w']; cbn in *; [|assumption].
  now rewrite Hk.
Qed.

Lemma untouched_try_except (name : string) {A : Type} (body : M A)
    (cls : exn -> bool) (handler : M A) :
  untouched name body -> untouched name handler ->
  untouched name (try_except body cls handler).
Proof.
  intros Hb Hh w. unfold try_except. specialize (Hb w).
  destruct (body w) as [[a|e] w']; cbn in *; [assumption|].
  destruct (cls e); [now rewrite Hh | assumption].
Qed.

Lemma untouched_for_each (name : string) {A : Type} (l : list A)
    (body : A -> M unit) :
  (forall x, untouched name (body x)) -> untouched name (for_each l body).
Proof.
  intros Hb. induction l as [|x l IH]; cbn [for_each].
  - now apply untouched_read.
  - apply untouched_bind; auto.
Qed.

Lemma untouched_change (name : string) {A : Type} (path : string)
    (k : bool -> option node -> option node * result A) :
  name <> root path -> untouched name (change path k).
Proof.
  intros Hne w. unfold change.
  pose proof (at_path_frame (components path) (cwd_writable w) (cwd w) k name Hne)
    as H.
  now destruct (at_path (components path) (cwd_writable w) (cwd w) k).
Qed.

Lemma untouched_log (name : string) (e : event) : untouched name (log e).
Proof. now apply untouched_read. Qed.

Lemma untouched_shutil_rmtree (name path : string) :
  name <> root path -> untouched name (shutil_rmtree path).
Proof.
  intros H. apply untouched_bind; [apply untouched_log|].
  intros _. now apply untouched_change.
Qed.

Lemma untouched_shutil_unpack_archive (name filename extract_dir : string) :
  name <> root extract_dir ->
  untouched name (shutil_unpack_archive filename extract_dir).
Proof.
  intros H. apply untouched_bind; [apply untouched_log|]. intros _ w.
  destruct (lookup (components filename) (cwd w)) as [[[|] wr [t| | | |zs]|es]|];
    try reflexivity.
  now apply untouched_change.
Qed.

Lemma untouched_shutil_move (name src dst : string) :
  name <> root src -> name <> root dst -> untouched name (shutil_move src dst).
Proof.
  intros Hs Hd. apply untouched_bind; [apply untouched_log|]. intros _ w.
  cbv beta zeta.
  destruct (lookup (components dst) (cwd w)) as [[r wr c|ddw des]|]; try reflexivity.
  destruct (lookup (components src) (cwd w)) as [n|]; [|reflexivity].
  destruct (assoc (last (components src) "") des); [reflexivity|].
  destruct (parent_writable (components src) w && ddw && movable n);
    [|reflexivity].
  apply untouched_bind; [|intros _]; apply untouched_change;
    [assumption | now rewrite root_join].
Qed.

Lemma os_listdir_reads (path : string) (w : world) :
  cwd (snd (os_listdir path w)) = cwd w.
Proof.
  unfold os_listdir.
  now destruct (lookup (components path) (cwd w)) as [[r wr c|dw es]|].
Qed.

Lemma untouched_extract_vexos (name : string) :
  name <> "vexos" -> untouched name extract_vexos.
Proof.
  intros H.
  assert (Hr : name <> root "vexos") by exact H.
  apply untouched_bind.
  { apply untouched_try_except;
      [now apply untouched_shutil_rmtree | now apply untouched_read]. }
  intros _. apply untouched_bind.
  { apply untouched_try_except;
      [now apply untouched_shutil_unpack_archive | now apply untouched_read]. }
  intros _. unfold flatten_vexos.
  apply untouched_bind; [apply untouched_read; intros w0; apply os_listdir_reads|]. intros names.
  apply untouched_bind; [now apply untouched_read|]. intros sub.
  apply untouched_bind; [apply untouched_read; intros w0; apply os_listdir_reads|]. intros files.
  apply untouched_bind.
  - apply untouched_for_each. intros file.
    apply untouched_shutil_move; [now rewrite !root_join | assumption].
  - intros _. apply untouched_shutil_rmtree. now rewrite root_join.
Qed.

(** ** Unpacking *)

Lemma unpack_node_nil (pw dz dw : bool) (es0 : entries) :
  unpack_node pw (Dir dz []) (Some (Dir dw es0)) = (Some (Dir dw es0), true).
Proof. reflexivity. Qed.

Lemma unpack_node_cons (pw dz dw : bool) (name : string) (z : node)
    (zs es0 : entries) :
  unpack_node pw (Dir dz ((name, z) :: zs)) (Some (Dir dw es0))
  = if snd (unpack_node dw z (assoc name es0)) then
      unpack_node pw (Dir dz zs)
        (Some (Dir dw (set_entry name (fst (unpack_node dw z (assoc name es0))) es0)))
    else
      (Some (Dir dw (set_entry name (fst (unpack_node dw z (assoc name es0))) es0)),
       false).
Proof.
  cbn. destruct (unpack_node dw z (assoc name es0)) as [e' ok].
  now destruct ok.
Qed.

Lemma keys_put_entry (name : string) (n : node) (es : entries) (k : string) :
  In k (map fst (put_entry name n es)) <-> k = name \/ In k (map fst es).
Proof.
  induction es as [|[k' n'] es IH]; cbn.
  - intuition.
  - destruct (String.eqb_spec name k') as [->|Hne]; cbn; [intuition|].
    rewrite IH. intuition.
Qed.

Lemma keys_remove_entry (name : string) (es : entries) (k : string) :
  In k (map fst (remove_entry name es)) -> In k (map fst es).
Proof.
  induction es as [|[k' n'] es IH]; cbn; [auto|].
  destruct (String.eqb name k'); cbn; intuition.
Qed.

Lemma NoDup_put_entry (name : string) (n : node) (es : entries) :
  NoDup (map fst es) -> NoDup (map fst (put_entry name n es)).
Proof.
  induction es as [|[k' n'] es IH]; cbn; intros H.
  - constructor; [intros [] | constructor].
  - inversion H as [|? ? Hk Hes]; subst.
    destruct (String.eqb_spec name k') as [->|Hne]; cbn; [assumption|].
    constructor; [|auto].
    rewrite keys_put_entry. intros [->|Hin]; [congruence | contradiction].
Qed.

Lemma NoDup_remove_entry (name : string) (es : entries) :
  NoDup (map fst es) -> NoDup (map fst (remove_entry name es)).
Proof.
  induction es as [|[k' n'] es IH]; cbn; intros H; [constructor|].
  inversion H as [|? ? Hk Hes]; subst.
  destruct (String.eqb name k'); cbn; [auto|].
  constructor; [|auto]. intros Hin. now apply keys_remove_entry in Hin.
Qed.

(** The entries that unpacking leaves have distinct names, taken from the
    archive or from what was there. *)
Lemma unpack_keys (pw dz dw dw' : bool) (zs es0 es : entries) (ok : bool) :
  unpack_node pw (Dir dz zs) (Some (Dir dw es0)) = (Some (Dir dw' es), ok) ->
  NoDup (map fst es0) ->
  NoDup (map fst es)
  /\ (forall k, In k (map fst es) -> In k (map fst es0) \/ In k (map fst zs)).
Proof.
  revert es0. induction zs as [|[name z] zs IH]; intros es0.
  - rewrite unpack_node_nil. intros [= _ <- _] H. auto.
  - rewrite unpack_node_cons. intros Hrun Hnd.
    set (e' := fst (unpack_node dw z (assoc name es0))) in *.
    assert (Hnd' : NoDup (map fst (set_entry name e' es0))).
    { destruct e'; cbn; [now apply NoDup_put_entry | now apply NoDup_remove_entry]. }
    assert (Hk : forall k, In k (map fst (set_entry name e' es0)) ->
                           In k (map fst es0) \/ k = name).
    { intros k. destruct e'; cbn.
      - rewrite keys_put_entry. tauto.
      - intros H. left. now apply keys_remove_entry in H. }
    destruct (snd (unpack_node dw z (assoc name es0))).
    + destruct (IH _ Hrun Hnd') as [H1 H2]. split; [assumption|].
      intros k Hin. cbn [map fst In].
      destruct (H2 k Hin) as [H|H]; [|tauto].
      destruct (Hk k H); subst; tauto.
    + injection Hrun as _ <- _. split; [assumption|].
      intros k Hin. cbn [map fst In]. destruct (Hk k Hin); subst; tauto.
Qed.

(** What unpacking creates can be renamed: a directory it makes is
    writable. *)
Lemma unpack_node_movable (pw : bool) (z : node) (old : option node)
    (n : node) (ok : bool) :
  unpack_node pw z old = (Some n, ok) ->
  (forall o, old = Some o -> movable o = true) ->
  movable n = true.
Proof.
  destruct z as [zr zw c|dz zs]; cbn [unpack_node].
  - destruct old as [[r wr c'|dw es]|].
    + destruct wr; now intros [= <- _].
    + intros [= <- _] H. now apply H.
    + destruct pw; [now intros [= <- _] | discriminate].
  - destruct old as [[r wr c'|dw es]|].
    + now intros [= <- _].
    + match goal with
      | |- context [let (_, _) := ?x in _] => destruct x as [es' ok']
      end.
      intros [= <- _] H. now apply (H (Dir dw es)).
    + destruct pw; [|discriminate].
      match goal with
      | |- context [let (_, _) := ?x in _] => destruct x as [es' ok']
      end.
      now intros [= <- _].
Qed.

Lemma Forall_assoc (P : node -> Prop) (name : string) (es : entries) (n : node) :
  Forall (fun e => P (snd e)) es -> assoc name es = Some n -> P n.
Proof.
  induction es as [|[k m] es IH]; cbn; [discriminate|].
  intros H. inversion H as [|? ? Hm Hes]; subst.
  destruct (String.eqb name k); [now intros [= <-] | auto].
Qed.

Lemma Forall_set_entry (P : node -> Prop) (name : string) (e : option node)
    (es : entries) :
  Forall (fun e => P (snd e)) es ->
  (forall n, e = Some n -> P n) ->
  Forall (fun e => P (snd e)) (set_entry name e es).
Proof.
  intros Hes He. destruct e as [n|]; cbn.
  - specialize (He n eq_refl).
    induction es as [|[k m] es IH]; cbn.
    + now repeat constructor.
    + inversion Hes as [|? ? Hm Hes']; subst.
      destruct (String.eqb name k); constructor; auto.
  - clear He. induction es as [|[k m] es IH]; cbn; [constructor|].
    inversion Hes as [|? ? Hm Hes']; subst.
    destruct (String.eqb name k); [auto | constructor; auto].
Qed.

Lemma unpack_movable (pw dz dw dw' : bool) (zs es0 es : entries) (ok : bool) :
  unpack_node pw (Dir dz zs) (Some (Dir dw es0)) = (Some (Dir dw' es), ok) ->
  Forall (fun e => movable (snd e) = true) es0 ->
  Forall (fun e => movable (snd e) = true) es.
Proof.
  revert es0. induction zs as [|[name z] zs IH]; intros es0.
  - rewrite unpack_node_nil. now intros [= _ <- _].
  - rewrite unpack_node_cons. intros Hrun Hes0.
    assert (H : Forall (fun e => movable (snd e) = true)
                  (set_entry name (fst (unpack_node dw z (assoc name es0))) es0)).
    { apply (Forall_set_entry (fun n => movable n = true));
        [assumption|]. intros n Hn.
      destruct (unpack_node dw z (assoc name es0)) as [e' ok'] eqn:E.
      cbn in Hn. subst e'.
      apply (unpack_node_movable _ _ _ _ _ E).
      intros o Ho.
      exact (Forall_assoc (fun n => movable n = true) _ _ _ Hes0 Ho). }
    destruct (snd (unpack_node dw z (assoc name es0))).
    + now apply (IH _ Hrun).
    + now injection Hrun as _ <- _.
Qed.

(** ** The extraction as a whole *)

(** The extraction of an archive whose top level is one directory, in
    full, where the old target can be removed. *)
Lemma run_extract_vexos (w : world) (wr dz : bool) (name : string)
    (children es : entries) :
  artifact w = Some (File true wr (Zip [(name, Dir dz children)])) ->
  cwd_writable w = true ->
  target_available w = true ->
  unpack_node true (Dir dz children) None = (Some (Dir true es), true) ->
  occurs "/" name = false ->
  (forall f, In f (map fst children) -> occurs "/" f = false) ->
  ~ In name (map fst children) ->
  exists w',
    extract_vexos w = (Ret tt, w')
    /\ target w' = Some (Dir true es)
    /\ artifact w' = artifact w
    /\ cwd_writable w' = cwd_writable w.
Proof.
  intros Ha Hw Ht Hun0 Hname Hslash Hnot.
  pose proof Hun0 as Hun. rewrite (unpack_node_empty true) in Hun.
  destruct (unpack_keys _ _ _ _ children [] es true Hun (NoDup_nil _))
    as [Hnd Hkeys].
  pose proof (unpack_movable _ _ _ _ children [] es true Hun (Forall_nil _))
    as Hmov.
  assert (Hkeys' : forall k, In k (map fst es) -> In k (map fst children)).
  { intros k Hk. destruct (Hkeys k Hk) as [[]|]; assumption. }
  destruct (rmtree_phase w Ht) as (w0 & Hrm & Ha0 & Hw0 & Ht0).
  rewrite <- Ha0 in Ha.
  destruct (unpack_phase w0 wr _ Ha Ht0) as (w1 & dw & Hrun & Ht1 & _ & Hw1 & Hdw).
  assert (dw = true) as ->.
  { destruct Ht0 as [[H0 _]|(dw0 & _ & H0)]; [auto | congruence]. }
  apply (try_unpack _ _ _
           "ERROR: Failed to extract VexOS. Please check your permissions.")
    in Hrun.
  rewrite unpack_node_single, Hun0 in Hrun, Ht1.
  cbn [fst snd set_entry put_entry] in *.
  assert (Hnot' : ~ In name (map fst es))
    by (intros Hin; now apply Hnot, Hkeys').
  assert (Hslash' : forall f, In f (map fst es) -> occurs "/" f = false)
    by (intros f Hf; now apply Hslash, Hkeys').
  destruct (run_flatten_vexos w1 name es Hname Hslash' Hmov Hnd Hnot' Ht1)
    as [tr Hflat].
  assert (Hall : extract_vexos w
                 = (Ret tt,
                    mkWorld (cwd_writable w1)
                      (put_entry "vexos" (Dir true es) (cwd w1))
                      (remote w1) tr)).
  { unfold extract_vexos.
    now rewrite (bind_ret _ _ _ _ _ Hrm), (bind_ret _ _ _ _ _ Hrun), Hflat. }
  eexists. split; [exact Hall|]. split; [|split].
  - rewrite target_assoc. cbn [cwd]. apply assoc_put_entry_same.
  - pose proof (untouched_extract_vexos "vexos.vexos" ltac:(discriminate) w) as H.
    rewrite Hall in H. now rewrite !artifact_assoc.
  - cbn [cwd_writable]. congruence.
Qed.

(** An archive whose top level is one directory is installed flat.  In a
    working directory that allows entries to be added and removed, where
    the old target, if there is one, is a directory whose whole tree can
    be removed, where the archive unpacks without a failure, no name holds
    a "/" and no entry of the top-level directory bears the name of that
    directory itself, [extract_vexos] returns with what the directory
    unpacks to as the entries of the install target, nothing of the old
    tree among them; the artifact is left in place. *)
Theorem extract_vexos_flattens (w : world) (wr dz : bool) (name : string)
    (children es : entries) :
  artifact w = Some (File true wr (Zip [(name, Dir dz children)])) ->
  cwd_writable w = true ->
  target_available w = true ->
  unpack_node true (Dir dz children) None = (Some (Dir true es), true) ->
  occurs "/" name = false ->
  (forall f, In f (map fst children) -> occurs "/" f = false) ->
  ~ In name (map fst children) ->
  fst (extract_vexos w) = Ret tt
  /\ target (snd (extract_vexos w)) = Some (Dir true es)
  /\ artifact (snd (extract_vexos w)) = artifact w.
Proof.
  intros Ha Hw Ht Hun Hname Hslash Hnot.
  destruct (run_extract_vexos w wr dz name children es Ha Hw Ht Hun Hname
              Hslash Hnot) as (w' & -> & H1 & H2 & _).
  auto.
Qed.

Lemma extract_vexos_flattens_witness :
  fst (extract_vexos
         (mkWorld true
            [("vexos.vexos", File true true (package "1.0.13.0"));
             ("vexos", Dir true [("manifest.json", manifest_file "1.0.12.0");
                                 ("old.bin", File true true Binary)])]
            offline []))
  = Ret tt
  /\ target
       (snd (extract_vexos
               (mkWorld true
                  [("vexos.vexos", File true true (package "1.0.13.0"));
                   ("vexos", Dir true [("manifest.json", manifest_file "1.0.12.0");
                                       ("old.bin", File true true Binary)])]
                  offline [])))
     = Some (Dir true [("manifest.json", manifest_file "1.0.13.0");
                       ("boot.bin", File true true Binary)])
  /\ artifact
       (snd (extract_vexos
               (mkWorld true
                  [("vexos.vexos", File true true (package "1.0.13.0"));
                   ("vexos", Dir true [("manifest.json", manifest_file "1.0.12.0");
                                       ("old.bin", File true true Binary)])]
                  offline [])))
     = artifact
         (mkWorld true
            [("vexos.vexos", File true true (package "1.0.13.0"));
             ("vexos", Dir true [("manifest.json", manifest_file "1.0.12.0");
                                 ("old.bin", File true true Binary)])]
            offline []).
Proof.
  apply (extract_vexos_flattens _ true true "VEXOS_V5"
           [("manifest.json", manifest_file "1.0.13.0");
            ("boot.bin", File true true Binary)]).
  - reflexivity.
  - reflexivity.
  - reflexivity.
  - reflexivity.
  - reflexivity.
  - intros f [<-|[<-|[]]]; reflexivity.
  - cbn. intuition discriminate.
Defined.

Lemma run_unpack_refused (w : world) (r wr : bool) (c : content) :
  artifact w = Some (File r wr c) -> is_archive c = false ->
  shutil_unpack_archive "vexos.vexos" "vexos" w
  = (Raise OSError, logged w [EUnpack "vexos.vexos" "vexos"]).
Proof.
  intros Ha Hc. unfold shutil_unpack_archive.
  erewrite bind_ret by reflexivity.
  change (lookup (components "vexos.vexos") (cwd (logged w ?e)))
    with (artifact w).
  rewrite Ha. now destruct r, c.
Qed.

(** The removal of a target that [shutil.rmtree] gets out of the way. *)
Lemma run_rmtree_removable (w : world) :
  target_removable w = true ->
  try_except (shutil_rmtree "vexos") IOError pass w
  = (Ret tt,
     mkWorld true (remove_entry "vexos" (cwd w)) (remote w)
       (trace w ++ [ERmtree "vexos"])).
Proof.
  intros H.
  assert (Hrm : try_except (shutil_rmtree "vexos") IOError pass w
                = (Ret tt, snd (shutil_rmtree "vexos" w))).
  { apply try_pass. rewrite run_shutil_rmtree_top. apply remove_tree_result. }
  rewrite Hrm, run_shutil_rmtree_top. unfold target_removable in H.
  destruct (target w) as [[r wr c|dw es]|]; try discriminate.
  apply andb_true_iff in H as [Hr Hw]. rewrite Hw.
  unfold remove_tree. now rewrite (remove_node_removable true dw es Hr).
Qed.

(** [extract_vexos] wipes the install target before it looks at the
    artifact.  With an artifact that is no zip archive (an error page that
    was downloaded, say) it raises; where the target is a directory whose
    whole tree can be removed, in a working directory that allows the
    removal, the version that was installed is gone by then.  The artifact
    is as it was. *)
Theorem extract_vexos_wipes_first (w : world) (r wr : bool) (c : content) :
  artifact w = Some (File r wr c) ->
  is_archive c = false ->
  target_removable w = true ->
  fst (extract_vexos w) = Raise TypeError
  /\ target (snd (extract_vexos w)) = None
  /\ artifact (snd (extract_vexos w)) = artifact w.
Proof.
  intros Ha Hc Ht.
  pose proof (run_rmtree_removable w Ht) as Hrm.
  set (w0 := mkWorld true (remove_entry "vexos" (cwd w)) (remote w)
               (trace w ++ [ERmtree "vexos"])) in *.
  assert (Ha0 : artifact w0 = Some (File r wr c)).
  { rewrite artifact_assoc. cbn [cwd w0].
    rewrite assoc_remove_entry_other by discriminate. now rewrite <- artifact_assoc. }
  assert (Hall : extract_vexos w
                 = (Raise TypeError, logged w0 [EUnpack "vexos.vexos" "vexos"])).
  { unfold extract_vexos. rewrite (bind_ret _ _ _ _ _ Hrm).
    erewrite bind_raise; [reflexivity|].
    unfold try_except. now rewrite (run_unpack_refused w0 r wr c Ha0 Hc). }
  rewrite Hall. cbn [fst snd]. repeat split.
  - rewrite target_assoc. cbn [cwd logged w0]. apply assoc_remove_entry_same.
  - change (artifact (logged w0 ?e)) with (artifact w0). congruence.
Qed.

Lemma extract_vexos_wipes_first_witness :
  fst (extract_vexos (bad_artifact_world (mkVersion 1 0 12 0))) = Raise TypeError
  /\ target (snd (extract_vexos (bad_artifact_world (mkVersion 1 0 12 0)))) = None
  /\ artifact (snd (extract_vexos (bad_artifact_world (mkVersion 1 0 12 0))))
     = artifact (bad_artifact_world (mkVersion 1 0 12 0)).
Proof.
  apply (extract_vexos_wipes_first (bad_artifact_world (mkVersion 1 0 12 0))
           true true (Text NotJson)); reflexivity.
Defined.

(** ** A download that fails *)

Lemma run_install_steps_offline (version : string) (installed_version : json)
    (w : world) :
  remote w (package_url version) = Raise RequestsConnectionError ->
  install_steps version installed_version w
  = (Raise TypeError,
     logged w [EPrint "Downloading VexOS..."; EGet (package_url version)]).
Proof.
  intros Hr.
  assert (Hd : download_vexos version (logged w [EPrint "Downloading VexOS..."])
               = (Raise TypeError,
                  logged w [EPrint "Downloading VexOS..."; EGet (package_url version)])).
  { rewrite run_download_vexos. cbn [remote logged]. rewrite Hr.
    cbn [exn_eqb]. now rewrite logged_logged. }
  unfold install_steps, fetch_and_extract.
  apply bind_raise. step_print. now apply bind_raise.
Qed.

(** With no artifact that can be read, a download that cannot connect ends
    the run with the disk as it was: the installed version stays. *)
Theorem failed_download_keeps_installation (force : bool) (version : string)
    (installed_version : json) (w : world) :
  artifact_readable w = false ->
  remote w (package_url version) = Raise RequestsConnectionError ->
  install_from_conflict_check force version installed_version w
  = (Raise TypeError,
     logged w [EPrint "Checking for conflicts..."; EPrint "Downloading VexOS...";
               EGet (package_url version)]).
Proof.
  intros Ha Hr. unfold install_from_conflict_check.
  step_print.
  erewrite bind_ret by apply run_package_already_downloaded.
  change (artifact_readable (logged w ?e)) with (artifact_readable w).
  rewrite Ha, run_install_steps_offline by exact Hr.
  now rewrite logged_logged.
Qed.

Lemma failed_download_keeps_installation_witness :
  install_from_conflict_check true "VEXOS_V5_1_0_13_0" (JStr "1.0.12.0")
    (mkWorld true [("vexos", Dir true [("manifest.json", manifest_file "1.0.12.0")])]
       offline [])
  = (Raise TypeError,
     logged (mkWorld true
               [("vexos", Dir true [("manifest.json", manifest_file "1.0.12.0")])]
               offline [])
       [EPrint "Checking for conflicts..."; EPrint "Downloading VexOS...";
        EGet (package_url "VEXOS_V5_1_0_13_0")]).
Proof.
  apply (failed_download_keeps_installation true "VEXOS_V5_1_0_13_0"
           (JStr "1.0.12.0")); reflexivity.
Defined.

(** With force and a stale artifact that can be read, the conflict is
    resolved before the download is tried.  Where the working directory
    allows removals and the target is a directory whose whole tree can be
    removed, a download that cannot connect makes the run raise with both
    the artifact and the installed version already deleted. *)
Theorem forced_conflict_wipes_before_download (version : string)
    (installed_version : json) (w : world) :
  artifact_readable w = true ->
  target_removable w = true ->
  remote w (package_url version) = Raise RequestsConnectionError ->
  fst (install_from_conflict_check true version installed_version w)
  = Raise TypeError
  /\ target (snd (install_from_conflict_check true version installed_version w))
     = None
  /\ artifact (snd (install_from_conflict_check true version installed_version w))
     = None.
Proof.
  intros Ha Ht Hr.
  assert (Hw : cwd_writable w = true).
  { unfold target_removable in Ht.
    destruct (target w) as [[r wr c|dw es]|]; try discriminate.
    now apply andb_true_iff in Ht. }
  assert (Hrt : fst (remove_tree true (target w)) = None).
  { unfold target_removable in Ht.
    destruct (target w) as [[r wr c|dw es]|]; try discriminate.
    apply andb_true_iff in Ht as [Hrm _].
    unfold remove_tree. now rewrite (remove_node_removable true dw es Hrm). }
  assert (Hra : fst (remove_file true (artifact w)) = None).
  { unfold artifact_readable in Ha.
    now destruct (artifact w) as [[[|] wr c|dw' es']|]. }
  rewrite (conflict_check_resolves _ _ _ Ha).
  unfold after_resolve. rewrite run_resolve_conflicts. cbn [snd].
  rewrite run_install_steps_offline by exact Hr.
  cbn [fst snd].
  change (target (logged w ?e)) with (target w).
  change (artifact (logged w ?e)) with (artifact w).
  change (cwd_writable (logged w ?e)) with (cwd_writable w).
  rewrite Hw, Hrt, Hra. cbn [set_entry].
  split; [reflexivity|]. split.
  - rewrite target_assoc. cbn [cwd logged]. apply assoc_remove_entry_same.
  - rewrite artifact_assoc. cbn [cwd logged].
    rewrite assoc_remove_entry_other by discriminate.
    apply assoc_remove_entry_same.
Qed.

Lemma forced_conflict_wipes_before_download_witness :
  fst (install_from_conflict_check true "VEXOS_V5_1_0_13_0" (JStr "1.0.12.0")
         (offline_world (mkVersion 1 0 12 0)))
  = Raise TypeError
  /\ target (snd (install_from_conflict_check true "VEXOS_V5_1_0_13_0"
                    (JStr "1.0.12.0") (offline_world (mkVersion 1 0 12 0))))
     = None
  /\ artifact (snd (install_from_conflict_check true "VEXOS_V5_1_0_13_0"
                      (JStr "1.0.12.0") (offline_world (mkVersion 1 0 12 0))))
     = None.
Proof.
  apply (forced_conflict_wipes_before_download "VEXOS_V5_1_0_13_0"
           (JStr "1.0.12.0") (offline_world (mkVersion 1 0 12 0)));
    reflexivity.
Defined.

(** ** A run that installs *)

Lemma printed_logged (line : string) (w : world) (evs : list event) :
  In (EPrint line) evs -> printed line (logged w evs) = true.
Proof.
  intros H. unfold printed. cbn [trace logged]. rewrite existsb_app.
  apply orb_true_iff. right. apply existsb_exists.
  exists (EPrint line). split; [assumption | apply String.eqb_refl].
Qed.

(** The cleanup and the summary where the artifact can be removed: the
    artifact goes, the lines are printed, and the version is parsed for
    the last line only then. *)
Lemma run_cleanup_and_summary (version : string) (installed_version : json)
    (w : world) :
  installed_version = JNull \/ (exists current, installed_version = JStr current) ->
  artifact_is_file w = true ->
  cwd_writable w = true ->
  exists evs,
    cleanup_and_summary version installed_version w
    = (match vexos_to_semver version with
       | Ret _ => Ret tt
       | Raise _ => Raise TypeError
       end,
       logged (mkWorld true (remove_entry "vexos.vexos" (cwd w)) (remote w)
                 (trace w)) evs)
    /\ In (EPrint "VexOS successfully installed.") evs.
Proof.
  intros Hinst Hfile Hw.
  assert (Hrm : forall evs,
             os_remove "vexos.vexos" (logged w evs)
             = (Ret tt,
                logged (mkWorld true (remove_entry "vexos.vexos" (cwd w))
                          (remote w) (trace w))
                  (evs ++ [ERemove "vexos.vexos"]))).
  { intros evs. rewrite run_os_remove_top.
    change (artifact (logged w evs)) with (artifact w).
    cbn [cwd cwd_writable remote trace logged]. rewrite Hw.
    unfold artifact_is_file in Hfile.
    destruct (artifact w) as [[r wr c|dw es]|]; try discriminate.
    cbn [remove_file fst snd set_entry]. unfold logged. cbn.
    now rewrite app_assoc. }
  unfold cleanup_and_summary, summary.
  step_print. erewrite bind_ret by apply Hrm.
  step_print. step_print. rewrite !logged_logged. cbn [app].
  assert (Hold : exists line,
             (if is_not_None installed_version
              then line <- lift (str_add "OLD VERSION: " installed_version) ;;
                   print line
              else print "OLD VERSION: None")
             = print line).
  { destruct Hinst as [-> | [current ->]]; cbn [is_not_None str_add].
    - now eexists.
    - eexists. unfold bind, lift. reflexivity. }
  destruct Hold as [line ->]. step_print. rewrite logged_logged. cbn [app].
  destruct (vexos_to_semver version) as [semver|e] eqn:E.
  - erewrite bind_ret by reflexivity. rewrite run_print, logged_logged. cbn [app].
    eexists. split; [reflexivity|]. cbn. tauto.
  - rewrite (vexos_to_semver_raises _ _ E).
    erewrite bind_raise by reflexivity.
    eexists. split; [reflexivity|]. cbn. tauto.
Qed.

(** The download, the extraction, the cleanup and the summary on a disk
    without an artifact, for a package whose top level is one directory. *)
Lemma run_install_steps (version : string) (installed_version : json)
    (w : world) (pkg : response) (name : string) (dz : bool)
    (children es : entries) :
  installed_version = JNull \/ (exists current, installed_version = JStr current) ->
  cwd_writable w = true ->
  artifact w = None ->
  target_available w = true ->
  remote w (package_url version) = Ret pkg ->
  r_content pkg = Zip [(name, Dir dz children)] ->
  unpack_node true (Dir dz children) None = (Some (Dir true es), true) ->
  occurs "/" name = false ->
  (forall f, In f (map fst children) -> occurs "/" f = false) ->
  ~ In name (map fst children) ->
  exists w',
    install_steps version installed_version w
    = (match vexos_to_semver version with
       | Ret _ => Ret tt
       | Raise _ => Raise TypeError
       end, w')
    /\ target w' = Some (Dir true es)
    /\ artifact w' = None
    /\ printed "VexOS successfully installed." w' = true.
Proof.
  intros Hinst Hw Ha Ht Hr Hc Hun Hname Hslash Hnot.
  set (w0 := logged w [EPrint "Downloading VexOS..."]).
  assert (Hw0 : artifact_writable w0 = true).
  { unfold artifact_writable. change (artifact w0) with (artifact w).
    now rewrite Ha. }
  destruct (run_download_vexos_ok version w0 pkg Hr Hw0) as (r & wr & Hd & _ & Hnone).
  destruct (Hnone Ha) as [-> ->]. clear Hnone.
  rewrite Hc in Hd.
  match type of Hd with _ = (_, ?x) => set (w1 := x) in Hd end.
  set (w2 := logged w1 [EPrint "Downloaded VexOS."; EPrint "Extracting VexOS..."]).
  assert (Ha2 : artifact w2 = Some (File true true (Zip [(name, Dir dz children)]))).
  { rewrite artifact_assoc. cbn [cwd w2 w1 logged]. apply assoc_put_entry_same. }
  assert (Ht2 : target_available w2 = true).
  { unfold target_available in *. rewrite target_assoc in *.
    cbn [cwd cwd_writable w2 w1 w0 logged].
    rewrite assoc_put_entry_other by discriminate. exact Ht. }
  assert (Hw2 : cwd_writable w2 = true) by exact Hw.
  destruct (run_extract_vexos w2 true dz name children es Ha2 Hw2 Ht2 Hun Hname
              Hslash Hnot)
    as (w3 & He & Ht3 & Ha3 & Hw3).
  assert (Hfetch : fetch_and_extract version w
                   = (Ret tt, logged w3 [EPrint "Extracted VexOS."])).
  { unfold fetch_and_extract. step_print. fold w0.
    erewrite bind_ret by exact Hd.
    step_print. step_print. rewrite logged_logged. cbn [app]. fold w2.
    erewrite bind_ret by exact He. apply run_print. }
  set (w4 := logged w3 [EPrint "Extracted VexOS."]) in *.
  assert (Hfile : artifact_is_file w4 = true).
  { unfold artifact_is_file. change (artifact w4) with (artifact w3).
    now rewrite Ha3, Ha2. }
  assert (Hw4 : cwd_writable w4 = true).
  { change (cwd_writable w4) with (cwd_writable w3). rewrite Hw3.
    exact Hw. }
  destruct (run_cleanup_and_summary version installed_version w4 Hinst Hfile Hw4)
    as (evs & Hs & Hin).
  unfold install_steps. erewrite bind_ret by exact Hfetch.
  eexists. split; [exact Hs|]. split; [|split].
  - rewrite target_assoc. cbn [cwd logged].
    rewrite assoc_remove_entry_other by discriminate.
    change (cwd w4) with (cwd w3). now rewrite <- target_assoc.
  - rewrite artifact_assoc. cbn [cwd logged]. apply assoc_remove_entry_same.
  - now apply printed_logged.
Qed.

(** With no artifact in the way, the conflict check goes on to the
    download. *)
Lemma conflict_check_clear (force : bool) (version : string)
    (installed_version : json) (w : world) :
  artifact w = None ->
  install_from_conflict_check force version installed_version w
  = install_steps version installed_version
      (logged w [EPrint "Checking for conflicts..."]).
Proof.
  intros Ha. unfold install_from_conflict_check. step_print.
  erewrite bind_ret by apply run_package_already_downloaded.
  unfold artifact_readable.
  change (artifact (logged w ?e)) with (artifact w). now rewrite Ha.
Qed.

(** The manifest lies in the install target. *)
Lemma manifest_in_target (w : world) (n : node) :
  manifest w = Some n -> exists dw es, target w = Some (Dir dw es).
Proof.
  unfold manifest. rewrite target_assoc.
  change (components "vexos/manifest.json") with ["vexos"; "manifest.json"].
  cbn [lookup]. destruct (assoc "vexos" (cwd w)) as [[r wr c|dw es]|];
    try discriminate.
  intros _. now exists dw, es.
Qed.

(** The run from the staleness check on, where nothing is installed, or
    the installed version is older, or force is given. *)
Lemma run_install_from_outdated_check (force : bool) (version : string)
    (installed_version : json) (w : world) (pkg : response) (name : string)
    (dz : bool) (children es : entries) :
  installed_version = JNull
  \/ (exists current outdated,
        installed_version = JStr current
        /\ is_outdated current version = Ret outdated
        /\ outdated || force = true) ->
  cwd_writable w = true ->
  artifact w = None ->
  target_available w = true ->
  remote w (package_url version) = Ret pkg ->
  r_content pkg = Zip [(name, Dir dz children)] ->
  unpack_node true (Dir dz children) None = (Some (Dir true es), true) ->
  occurs "/" name = false ->
  (forall f, In f (map fst children) -> occurs "/" f = false) ->
  ~ In name (map fst children) ->
  exists w',
    install_from_outdated_check force version installed_version w
    = (match vexos_to_semver version with
       | Ret _ => Ret tt
       | Raise _ => Raise TypeError
       end, w')
    /\ target w' = Some (Dir true es)
    /\ artifact w' = None
    /\ printed "VexOS successfully installed." w' = true.
Proof.
  intros Hinst Hw Ha Ht Hr Hc Hun Hname Hslash Hnot.
  assert (Hgo : forall evs,
             exists w',
               install_from_conflict_check force version installed_version
                 (logged w evs)
               = (match vexos_to_semver version with
                  | Ret _ => Ret tt
                  | Raise _ => Raise TypeError
                  end, w')
               /\ target w' = Some (Dir true es)
               /\ artifact w' = None
               /\ printed "VexOS successfully installed." w' = true).
  { intros evs. rewrite conflict_check_clear by exact Ha.
    apply (run_install_steps version installed_version _ pkg name dz children es);
      try assumption.
    destruct Hinst as [->|(current & outdated & -> & _)]; eauto. }
  unfold install_from_outdated_check.
  destruct Hinst as [->|(current & outdated & -> & Ho & Hf)].
  - cbn [is_not_None]. step_print. step_print. rewrite logged_logged.
    apply Hgo.
  - cbn [is_not_None call_is_outdated str_add]. rewrite Ho.
    erewrite bind_ret by reflexivity.
    destruct outdated, force; try discriminate; cbn [negb andb];
      erewrite bind_ret by reflexivity; cbn [negb andb].
    + erewrite bind_ret
        by (erewrite bind_ret by reflexivity; apply run_print).
      apply Hgo.
    + erewrite bind_ret
        by (erewrite bind_ret by reflexivity; apply run_print).
      apply Hgo.
    + step_print. apply Hgo.
Qed.

(** ** Whole runs *)

(** A first installation of the latest version, from end to end.  The
    working directory allows entries to be added and removed and holds no
    artifact, so that the artifact can be written; the install target is
    missing, or is a directory whose whole tree can be removed; there is
    no manifest that can be read; the catalog gives a token that
    [vexos_to_semver] parses; the server answers the request for the
    package of that token with an archive whose top level is one
    directory; that directory unpacks without a failure, no name in it
    holds a "/" and none of its entries bears the name of the directory
    itself.  Then the run returns, the install target holds what the
    directory unpacks to, and the artifact is gone. *)
Theorem fresh_install_of_latest (force : bool) (w : world)
    (catalog pkg : response) (semver name : string) (dz : bool)
    (children es : entries) :
  cwd_writable w = true ->
  artifact w = None ->
  target_available w = true ->
  manifest_unavailable w = true ->
  remote w vexos_catalog_url = Ret catalog ->
  vexos_to_semver (r_text catalog) = Ret semver ->
  remote w (package_url (r_text catalog)) = Ret pkg ->
  r_content pkg = Zip [(name, Dir dz children)] ->
  unpack_node true (Dir dz children) None = (Some (Dir true es), true) ->
  occurs "/" name = false ->
  (forall f, In f (map fst children) -> occurs "/" f = false) ->
  ~ In name (map fst children) ->
  fst (install_vexos force None w) = Ret tt
  /\ target (snd (install_vexos force None w)) = Some (Dir true es)
  /\ artifact (snd (install_vexos force None w)) = None.
Proof.
  intros Hw Ha Ht Hm Hcat Hs Hr Hc Hun Hname Hslash Hnot.
  assert (Hv : resolve_version None w
               = (Ret (r_text catalog),
                  logged w [EPrint "Getting Latest Version...";
                            EGet vexos_catalog_url;
                            EPrint ("Latest Version: " ++ semver)])).
  { unfold resolve_version. step_print.
    erewrite bind_ret
      by (apply (run_get_latest_version _ catalog semver); assumption).
    unfold lift at 1. rewrite Hs. erewrite bind_ret by reflexivity.
    step_print. now rewrite !logged_logged. }
  set (w1 := logged w [EPrint "Getting Latest Version...";
                       EGet vexos_catalog_url;
                       EPrint ("Latest Version: " ++ semver)]) in *.
  unfold install_vexos. erewrite bind_ret by exact Hv.
  assert (Hread : read_installed_version w1 = (Ret JNull, w1)).
  { rewrite read_installed_version_spec.
    change (manifest w1) with (manifest w). unfold manifest_unavailable in Hm.
    now destruct (manifest w) as [[[|] wr c|dw l]|]. }
  erewrite bind_ret by exact Hread.
  destruct (run_install_from_outdated_check force (r_text catalog) JNull
              w1 pkg name dz children es) as (w' & Hrun & Ht' & Ha' & _);
    try assumption; [now left|].
  rewrite Hrun, Hs. auto.
Qed.

Lemma fresh_install_of_latest_witness :
  fst (install_vexos false None (fresh_world (mkVersion 1 0 13 0))) = Ret tt
  /\ target (snd (install_vexos false None (fresh_world (mkVersion 1 0 13 0))))
     = Some (Dir true [("manifest.json", manifest_file "1.0.13.0");
                       ("boot.bin", File true true Binary)])
  /\ artifact (snd (install_vexos false None (fresh_world (mkVersion 1 0 13 0))))
     = None.
Proof.
  apply (fresh_install_of_latest false (fresh_world (mkVersion 1 0 13 0))
           (mkResponse "VEXOS_V5_1_0_13_0" (Text NotJson))
           (mkResponse "" (package "1.0.13.0")) "1.0.13.0" "VEXOS_V5" true
           [("manifest.json", manifest_file "1.0.13.0");
            ("boot.bin", File true true Binary)]).
  - reflexivity.
  - reflexivity.
  - reflexivity.
  - reflexivity.
  - vm_compute; reflexivity.
  - vm_compute; reflexivity.
  - vm_compute; reflexivity.
  - reflexivity.
  - reflexivity.
  - reflexivity.
  - intros f [<-|[<-|[]]]; reflexivity.
  - cbn. intuition discriminate.
Defined.

Lemma run_resolve_version_latest (w : world) (catalog : response)
    (semver : string) :
  remote w vexos_catalog_url = Ret catalog ->
  vexos_to_semver (r_text catalog) = Ret semver ->
  resolve_version None w
  = (Ret (r_text catalog),
     logged w [EPrint "Getting Latest Version..."; EGet vexos_catalog_url;
               EPrint ("Latest Version: " ++ semver)]).
Proof.
  intros Hcat Hs. unfold resolve_version. step_print.
  erewrite bind_ret
    by (apply (run_get_latest_version _ catalog semver); assumption).
  unfold lift at 1. rewrite Hs. erewrite bind_ret by reflexivity.
  step_print. now rewrite !logged_logged.
Qed.

(** An update, or a forced reinstallation, from end to end.  The working
    directory allows entries to be added and removed and holds no artifact,
    so that the artifact can be written; the install target is a directory
    whose whole tree can be removed, with
    a manifest that gives a version as a string; the catalog gives a token
    that [vexos_to_semver] parses; [is_outdated] returns for the two, and
    it answers that the installation is outdated or force is given; the
    server answers the request for the package with an archive whose top
    level is one directory; that directory unpacks without a failure, no
    name in it holds a "/" and none of its entries bears the name of the
    directory itself.  Then the run returns and the install target holds
    what the directory unpacks to, nothing of the old tree; the artifact
    is gone. *)
Theorem update_replaces_installation (force : bool) (w : world)
    (catalog pkg : response) (semver current name : string)
    (outdated wr dz : bool) (items : list (string * json))
    (children es : entries) :
  cwd_writable w = true ->
  artifact w = None ->
  target_available w = true ->
  manifest w = Some (File true wr (Text (JsonText (JDict items)))) ->
  assoc "version" items = Some (JStr current) ->
  remote w vexos_catalog_url = Ret catalog ->
  vexos_to_semver (r_text catalog) = Ret semver ->
  is_outdated current (r_text catalog) = Ret outdated ->
  outdated || force = true ->
  remote w (package_url (r_text catalog)) = Ret pkg ->
  r_content pkg = Zip [(name, Dir dz children)] ->
  unpack_node true (Dir dz children) None = (Some (Dir true es), true) ->
  occurs "/" name = false ->
  (forall f, In f (map fst children) -> occurs "/" f = false) ->
  ~ In name (map fst children) ->
  fst (install_vexos force None w) = Ret tt
  /\ target (snd (install_vexos force None w)) = Some (Dir true es)
  /\ artifact (snd (install_vexos force None w)) = None.
Proof.
  intros Hw Ha Ht Hm Hj Hcat Hs Ho Hf Hr Hc Hun Hname Hslash Hnot.
  rewrite (install_vexos_with_manifest force None w _ _ wr items (JStr current)
             (run_resolve_version_latest w catalog semver Hcat Hs) Hm Hj).
  destruct (run_install_from_outdated_check force (r_text catalog) (JStr current)
              (logged w [EPrint "Getting Latest Version...";
                         EGet vexos_catalog_url;
                         EPrint ("Latest Version: " ++ semver)])
              pkg name dz children es) as (w' & Hrun & Ht' & Ha' & _);
    try assumption.
  - right. now exists current, outdated.
  - rewrite Hrun, Hs. auto.
Qed.

Lemma update_replaces_installation_witness :
  fst (install_vexos false None
         (installed_world (mkVersion 1 0 12 0) (mkVersion 1 0 13 0))) = Ret tt
  /\ target (snd (install_vexos false None
                    (installed_world (mkVersion 1 0 12 0) (mkVersion 1 0 13 0))))
     = Some (Dir true [("manifest.json", manifest_file "1.0.13.0");
                       ("boot.bin", File true true Binary)])
  /\ artifact (snd (install_vexos false None
                      (installed_world (mkVersion 1 0 12 0) (mkVersion 1 0 13 0))))
     = None.
Proof.
  apply (update_replaces_installation false
           (installed_world (mkVersion 1 0 12 0) (mkVersion 1 0 13 0))
           (mkResponse "VEXOS_V5_1_0_13_0" (Text NotJson))
           (mkResponse "" (package "1.0.13.0")) "1.0.13.0" "1.0.12.0" "VEXOS_V5"
           true true true [("version", JStr "1.0.12.0")]
           [("manifest.json", manifest_file "1.0.13.0");
            ("boot.bin", File true true Binary)]).
  - reflexivity.
  - reflexivity.
  - reflexivity.
  - vm_compute; reflexivity.
  - reflexivity.
  - vm_compute; reflexivity.
  - vm_compute; reflexivity.
  - vm_compute; reflexivity.
  - reflexivity.
  - vm_compute; reflexivity.
  - reflexivity.
  - reflexivity.
  - reflexivity.
  - intros f [<-|[<-|[]]]; reflexivity.
  - cbn. intuition discriminate.
Defined.

(** A version given on the command line is not checked before it is
    used.  The working directory allows entries to be added and removed
    and holds no artifact, so that the artifact can be written; the
    install target is missing, or is a
    directory whose whole tree can be removed; there is no manifest that
    can be read; the server answers the request for the package of the
    version with an archive whose top level is one directory; that
    directory unpacks without a failure, no name in it holds a "/" and
    none of its entries bears the name of the directory itself.  Then a
    version that [vexos_to_semver] rejects is downloaded and installed, the
    artifact is removed, "VexOS successfully installed." is printed, and
    only then the run ends with [TypeError], at the last line of the
    summary. *)
Theorem malformed_version_fails_after_install (force : bool) (w : world)
    (version : string) (e : exn) (pkg : response) (name : string)
    (dz : bool) (children es : entries) :
  vexos_to_semver version = Raise e ->
  cwd_writable w = true ->
  artifact w = None ->
  target_available w = true ->
  manifest_unavailable w = true ->
  remote w (package_url version) = Ret pkg ->
  r_content pkg = Zip [(name, Dir dz children)] ->
  unpack_node true (Dir dz children) None = (Some (Dir true es), true) ->
  occurs "/" name = false ->
  (forall f, In f (map fst children) -> occurs "/" f = false) ->
  ~ In name (map fst children) ->
  fst (install_vexos force (Some version) w) = Raise TypeError
  /\ target (snd (install_vexos force (Some version) w)) = Some (Dir true es)
  /\ artifact (snd (install_vexos force (Some version) w)) = None
  /\ printed "VexOS successfully installed."
       (snd (install_vexos force (Some version) w)) = true.
Proof.
  intros Hs Hw Ha Ht Hm Hr Hc Hun Hname Hslash Hnot.
  set (w1 := logged w [EPrint ("Version Specified: " ++ version)]).
  assert (Hv : resolve_version (Some version) w = (Ret version, w1))
    by reflexivity.
  unfold install_vexos. erewrite bind_ret by exact Hv.
  assert (Hread : read_installed_version w1 = (Ret JNull, w1)).
  { rewrite read_installed_version_spec.
    change (manifest w1) with (manifest w). unfold manifest_unavailable in Hm.
    now destruct (manifest w) as [[[|] wr c|dw l]|]. }
  erewrite bind_ret by exact Hread.
  destruct (run_install_from_outdated_check force version JNull
              w1 pkg name dz children es) as (w' & Hrun & Ht' & Ha' & Hp');
    try assumption; [now left|].
  rewrite Hrun, Hs. auto.
Qed.

Lemma malformed_version_fails_after_install_witness :
  fst (install_vexos true (Some "1.0.13.0")
         (mkWorld true [] (fun _ => Ret (mkResponse "" (package "1.0.13.0"))) []))
  = Raise TypeError
  /\ target (snd (install_vexos true (Some "1.0.13.0")
                    (mkWorld true []
                       (fun _ => Ret (mkResponse "" (package "1.0.13.0"))) [])))
     = Some (Dir true [("manifest.json", manifest_file "1.0.13.0");
                       ("boot.bin", File true true Binary)])
  /\ artifact (snd (install_vexos true (Some "1.0.13.0")
                      (mkWorld true []
                         (fun _ => Ret (mkResponse "" (package "1.0.13.0"))) [])))
     = None
  /\ printed "VexOS successfully installed."
       (snd (install_vexos true (Some "1.0.13.0")
               (mkWorld true []
                  (fun _ => Ret (mkResponse "" (package "1.0.13.0"))) [])))
     = true.
Proof.
  apply (malformed_version_fails_after_install true
           (mkWorld true [] (fun _ => Ret (mkResponse "" (package "1.0.13.0"))) [])
           "1.0.13.0" TypeError (mkResponse "" (package "1.0.13.0")) "VEXOS_V5"
           true
           [("manifest.json", manifest_file "1.0.13.0");
            ("boot.bin", File true true Binary)]).
  - reflexivity.
  - reflexivity.
  - reflexivity.
  - reflexivity.
  - reflexivity.
  - reflexivity.
  - reflexivity.
  - reflexivity.
  - reflexivity.
  - intros f [<-|[<-|[]]]; reflexivity.
  - cbn. intuition discriminate.
Defined.
